(** * LinkedIn data extractor v2: a shallow embedding of the extraction
      pipeline of [linkedin_data_extractor_v2.py]

    The development models the JSON-LD extractor, the five entity parsers,
    the meta-tag extractor and the reconciler ([_combine_data_sources]) as
    Rocq functions, and states the properties of the specification over
    them.

    Modelling conventions.
    - A Python value coming out of [json.loads] is a [pyval].  Numbers are
      integers; a character is an [ascii] (code points 0..255).
    - A Python [dict] with string keys is an association list in insertion
      order; [dict_set] replaces an existing binding in place and appends a
      new one at the end, as Python does.
    - The body of a [try: ... except Exception: ...] block is a computation
      in the monad [M]: it threads the dictionary under construction and may
      stop with an exception, in which case the dictionary keeps everything
      assigned before the fault.
    - BeautifulSoup and the browser are outside the embedding: a document is
      given by the elements that [find_all]/[find] return, and [json.loads]
      is a parameter of the extractor. *)

From Stdlib Require Import String Ascii List ZArith Bool Lia.
Import ListNotations.
Open Scope string_scope.
Open Scope list_scope.

Local Set Warnings "-register-all".

(* ------------------------------------------------------------------ *)
(** ** Python values and dictionaries *)

Inductive pyval : Type :=
| PNone
| PBool (b : bool)
| PInt (n : Z)
| PStr (s : string)
| PList (l : list pyval)
| PDict (d : list (string * pyval)).

Definition dict (V : Type) : Type := list (string * V).

Fixpoint dict_get {V} (d : dict V) (k : string) : option V :=
  match d with
  | [] => None
  | (k', v) :: r => if String.eqb k' k then Some v else dict_get r k
  end.

(** [d[k] = v] *)
Fixpoint dict_set {V} (d : dict V) (k : string) (v : V) : dict V :=
  match d with
  | [] => [(k, v)]
  | (k', v') :: r =>
      if String.eqb k' k then (k, v) :: r else (k', v') :: dict_set r k v
  end.

(** [d.update(src)] *)
Definition dict_update {V} (d src : dict V) : dict V :=
  fold_left (fun acc kv => dict_set acc (fst kv) (snd kv)) src d.

(** [d.get(k, default)] on a dictionary *)
Definition dict_get_default {V} (d : dict V) (k : string) (default : V) : V :=
  match dict_get d k with Some v => v | None => default end.

Definition dict_mem {V} (d : dict V) (k : string) : bool :=
  match dict_get d k with Some _ => true | None => false end.

Definition dict_keys {V} (d : dict V) : list string := map fst d.

(** Python truthiness, [bool(v)]. *)
Definition py_truthy (v : pyval) : bool :=
  match v with
  | PNone => false
  | PBool b => b
  | PInt n => negb (Z.eqb n 0)
  | PStr s => negb (String.eqb s "")
  | PList l => match l with [] => false | _ => true end
  | PDict d => match d with [] => false | _ => true end
  end.

(** [v == 's'] for a string literal [s]: only a string equals a string. *)
Definition py_eq_str (v : pyval) (s : string) : bool :=
  match v with
  | PStr t => String.eqb t s
  | _ => false
  end.

Definition is_dict (v : pyval) : bool :=
  match v with PDict _ => true | _ => false end.

Definition is_list (v : pyval) : bool :=
  match v with PList _ => true | _ => false end.

Definition is_str (v : pyval) : bool :=
  match v with PStr _ => true | _ => false end.

(* ------------------------------------------------------------------ *)
(** ** Strings *)

Definition str_nonempty (s : string) : bool := negb (String.eqb s "").

(** [s.startswith(p)] *)
Fixpoint startswith (p s : string) : bool :=
  match p with
  | EmptyString => true
  | String a p' =>
      match s with
      | EmptyString => false
      | String b s' => Ascii.eqb a b && startswith p' s'
      end
  end.

(** [needle in hay] for two strings *)
Fixpoint str_contains (needle hay : string) : bool :=
  startswith needle hay ||
  match hay with
  | EmptyString => false
  | String _ hay' => str_contains needle hay'
  end.

(** [str.isspace] on one character of the range 0..255: the characters
    9..13, 28..32, 133 and 160. *)
Definition is_space (c : ascii) : bool :=
  let n := nat_of_ascii c in
  (Nat.leb 9 n && Nat.leb n 13) || (Nat.leb 28 n && Nat.leb n 32)
  || Nat.eqb n 133 || Nat.eqb n 160.

Fixpoint lstrip (s : string) : string :=
  match s with
  | EmptyString => EmptyString
  | String c r => if is_space c then lstrip r else s
  end.

Fixpoint rstrip (s : string) : string :=
  match s with
  | EmptyString => EmptyString
  | String c r =>
      match rstrip r with
      | EmptyString => if is_space c then EmptyString else String c EmptyString
      | r' => String c r'
      end
  end.

(** [s.strip()] *)
Definition strip (s : string) : string := rstrip (lstrip s).

(** [s.split(sep)[0]] for a one-character separator: the text before the
    first separator, or the whole string. *)
Fixpoint split_first (sep : ascii) (s : string) : string :=
  match s with
  | EmptyString => EmptyString
  | String c r =>
      if Ascii.eqb c sep then EmptyString else String c (split_first sep r)
  end.

(** The character class [[^/?]] *)
Definition seg_char (c : ascii) : bool :=
  negb (Ascii.eqb c "/" || Ascii.eqb c "?").

(** The greedy group [([^/?]+)] read at the head of [s] (possibly empty). *)
Fixpoint take_segment (s : string) : string :=
  match s with
  | EmptyString => EmptyString
  | String c r => if seg_char c then String c (take_segment r) else EmptyString
  end.

Fixpoint strip_prefix (p s : string) : option string :=
  match p with
  | EmptyString => Some s
  | String a p' =>
      match s with
      | EmptyString => None
      | String b s' => if Ascii.eqb a b then strip_prefix p' s' else None
      end
  end.

(** The match of [lit([^/?]+)] anchored at the head of [s]. *)
Definition match_here (lit s : string) : option string :=
  match strip_prefix lit s with
  | Some rest =>
      match take_segment rest with
      | EmptyString => None
      | seg => Some seg
      end
  | None => None
  end.

(** [re.search(lit + '([^/?]+)', s)], group 1 of the leftmost match, for a
    literal [lit]. *)
Fixpoint re_search_segment (lit s : string) : option string :=
  match match_here lit s with
  | Some seg => Some seg
  | None =>
      match s with
      | EmptyString => None
      | String _ r => re_search_segment lit r
      end
  end.

(** Every character of [s] belongs to the class [[^/?]]. *)
Fixpoint all_seg_chars (s : string) : bool :=
  match s with
  | EmptyString => true
  | String c r => seg_char c && all_seg_chars r
  end.

(** [s] is empty or starts with [/] or [?]. *)
Definition at_delimiter (s : string) : bool :=
  match s with
  | EmptyString => true
  | String c _ => negb (seg_char c)
  end.

(* ------------------------------------------------------------------ *)
(** ** Exceptions and the dictionary under construction *)

Inductive exn : Type := AttributeError | TypeError | KeyError.

Inductive res (A : Type) : Type :=
| Ok (a : A)
| Raise (e : exn).
Arguments Ok {A} a.
Arguments Raise {A} e.

(** A computation inside a parser's [try] block: it reads and extends the
    dictionary being built, and ends normally or with an exception. *)
Definition M (A : Type) : Type := dict pyval -> res A * dict pyval.

Definition ret {A} (a : A) : M A := fun st => (Ok a, st).

Definition bind {A B} (c : M A) (k : A -> M B) : M B :=
  fun st =>
    match c st with
    | (Ok a, st') => k a st'
    | (Raise e, st') => (Raise e, st')
    end.

Definition lift {A} (r : res A) : M A := fun st => (r, st).

(** [data[k] = v] on the dictionary under construction *)
Definition set_field (k : string) (v : pyval) : M unit :=
  fun st => (Ok tt, dict_set st k v).

Declare Scope py_scope.
Delimit Scope py_scope with py.
Notation "x <- c ;; k" := (bind c (fun x => k))
  (at level 61, c at next level, right associativity) : py_scope.
Notation "c ;; k" := (bind c (fun _ => k))
  (at level 61, right associativity) : py_scope.
Open Scope py_scope.

Inductive flow : Type := Continue | Break.

(** [for x in l: body], where the body says whether it ended in [break]. *)
Fixpoint for_each {A} (l : list A) (body : A -> M flow) : M unit :=
  match l with
  | [] => ret tt
  | x :: r =>
      f <- body x ;;
      match f with
      | Break => ret tt
      | Continue => for_each r body
      end
  end.

(** [try: body  except Exception: pass] followed by [return data], with
    [data = {}] before the block. *)
Definition run_parser (body : M unit) : dict pyval := snd (body []).

(* ------------------------------------------------------------------ *)
(** ** Python operations that can raise *)

(** [v.get(k, default)]: only a dict has [get]. *)
Definition py_get (v : pyval) (k : string) (default : pyval) : res pyval :=
  match v with
  | PDict d => Ok (dict_get_default d k default)
  | _ => Raise AttributeError
  end.

(** [k in v] for a string [k] *)
Definition py_contains (k : string) (v : pyval) : res bool :=
  match v with
  | PDict d => Ok (dict_mem d k)
  | PList l => Ok (existsb (fun x => py_eq_str x k) l)
  | PStr s => Ok (str_contains k s)
  | _ => Raise TypeError
  end.

(** [v[k]] for a string [k] *)
Definition py_getitem (v : pyval) (k : string) : res pyval :=
  match v with
  | PDict d =>
      match dict_get d k with
      | Some x => Ok x
      | None => Raise KeyError
      end
  | _ => Raise TypeError
  end.

Fixpoint chars_of (s : string) : list pyval :=
  match s with
  | EmptyString => []
  | String c r => PStr (String c EmptyString) :: chars_of r
  end.

(** The elements [for x in v] goes through. *)
Definition py_iter (v : pyval) : res (list pyval) :=
  match v with
  | PList l => Ok l
  | PDict d => Ok (map (fun kv => PStr (fst kv)) d)
  | PStr s => Ok (chars_of s)
  | _ => Raise TypeError
  end.

(** [v[:50]]: the value is discarded by the caller, only a fault matters. *)
Definition py_slice (v : pyval) : res unit :=
  match v with
  | PStr _ | PList _ => Ok tt
  | _ => Raise TypeError
  end.

Definition get_state : M (dict pyval) := fun st => (Ok st, st).

(* ------------------------------------------------------------------ *)
(** ** Entity parsers *)

Module Parsers.

(** [data[field] = src.get(key, default)] *)
Definition copy_field (src : pyval) (key : string) (default : pyval)
    (field : string) : M unit :=
  v <- lift (py_get src key default) ;;
  set_field field v.

(** [if key in src and isinstance(src[key], T): k (src[key])] *)
Definition when_typed (src : pyval) (key : string) (T : pyval -> bool)
    (k : pyval -> M unit) : M unit :=
  has <- lift (py_contains key src) ;;
  if (has : bool) then
    x <- lift (py_getitem src key) ;;
    if T x then k x else ret tt
  else ret tt.

(** [if interaction.get('interactionType') == action:
       data[field] = interaction.get('userInteractionCount', 0)] *)
Definition follow_count (interaction : pyval) (action field : string)
    : M unit :=
  t <- lift (py_get interaction "interactionType" PNone) ;;
  if py_eq_str t action
  then copy_field interaction "userInteractionCount" (PInt 0) field
  else ret tt.

Definition https_follow : string := "https://schema.org/FollowAction".
Definition http_follow : string := "http://schema.org/FollowAction".

(** The loop over [item['worksFor']] (lines 165-174): one record per entry
    that is a dict. *)
Fixpoint works_for_entries (l : list pyval) : M (list pyval) :=
  match l with
  | [] => ret []
  | work :: r =>
      if is_dict work then
        name <- lift (py_get work "name" (PStr "")) ;;
        url <- lift (py_get work "url" (PStr "")) ;;
        m1 <- lift (py_get work "member" (PDict [])) ;;
        desc <- lift (py_get m1 "description" (PStr "")) ;;
        m2 <- lift (py_get work "member" (PDict [])) ;;
        start <- lift (py_get m2 "startDate" (PStr "")) ;;
        rest <- works_for_entries r ;;
        ret (PDict [("company_name", name); ("company_url", url);
                    ("description", desc); ("start_date", start)] :: rest)
      else works_for_entries r
  end.

(** Lines 149-156 and 188-195, shared by the two branches. *)
Definition person_core (item : pyval) : M unit :=
  copy_field item "name" (PStr "") "name" ;;
  copy_field item "jobTitle" (PList []) "job_title" ;;
  copy_field item "description" (PStr "") "description" ;;
  copy_field item "url" (PStr "") "url" ;;
  when_typed item "image" is_dict (fun image =>
    copy_field image "contentUrl" (PStr "") "image_url").

(** Lines 178-182 and 198-202. *)
Definition person_followers (item : pyval) : M unit :=
  has <- lift (py_contains "interactionStatistic" item) ;;
  if (has : bool) then
    interaction <- lift (py_getitem item "interactionStatistic") ;;
    if is_dict interaction
    then follow_count interaction https_follow "followers"
    else ret tt
  else ret tt.

(** Lines 158-175, present in the [@graph] branch only. *)
Definition person_location_and_work (item : pyval) : M unit :=
  when_typed item "address" is_dict (fun address =>
    copy_field address "addressLocality" (PStr "") "location" ;;
    copy_field address "addressCountry" (PStr "") "country") ;;
  when_typed item "worksFor" is_list (fun works =>
    l <- lift (py_iter works) ;;
    works_for <- works_for_entries l ;;
    set_field "works_for" (PList works_for)).

(** One iteration of [for item in json_data['@graph']] (lines 147-184). *)
Definition profile_graph_item (item : pyval) : M flow :=
  t <- lift (py_get item "@type" PNone) ;;
  if py_eq_str t "Person" then
    person_core item ;;
    person_location_and_work item ;;
    person_followers item ;;
    ret Break
  else ret Continue.

Definition profile_body (json_data : pyval) : M unit :=
  has_graph <- lift (py_contains "@graph" json_data) ;;
  if (has_graph : bool) then
    graph <- lift (py_getitem json_data "@graph") ;;
    items <- lift (py_iter graph) ;;
    for_each items profile_graph_item
  else
    t <- lift (py_get json_data "@type" PNone) ;;
    if py_eq_str t "Person" then
      person_core json_data ;;
      person_followers json_data
    else ret tt.

Definition _parse_profile_json_ld (json_data : pyval) : dict pyval :=
  run_parser (profile_body json_data).

(** Lines 220-227 and 247-254. *)
Definition company_core (item : pyval) : M unit :=
  copy_field item "name" (PStr "") "name" ;;
  copy_field item "description" (PStr "") "description" ;;
  copy_field item "url" (PStr "") "url" ;;
  copy_field item "slogan" (PStr "") "slogan" ;;
  when_typed item "logo" is_dict (fun logo =>
    copy_field logo "contentUrl" (PStr "") "logo_url").

(** Lines 230-237, present in the [@graph] branch only. *)
Definition company_address (item : pyval) : M unit :=
  when_typed item "address" is_dict (fun address =>
    street <- lift (py_get address "streetAddress" (PStr "")) ;;
    city <- lift (py_get address "addressLocality" (PStr "")) ;;
    region <- lift (py_get address "addressRegion" (PStr "")) ;;
    postal <- lift (py_get address "postalCode" (PStr "")) ;;
    country <- lift (py_get address "addressCountry" (PStr "")) ;;
    set_field "address"
      (PDict [("street", street); ("city", city); ("region", region);
              ("postal_code", postal); ("country", country)])).

(** Lines 240-241 and 257-258. *)
Definition company_employees (item : pyval) : M unit :=
  when_typed item "numberOfEmployees" is_dict (fun n =>
    copy_field n "value" (PInt 0) "employee_count").

(** One iteration of [for item in json_data['@graph']] (lines 218-243). *)
Definition company_graph_item (item : pyval) : M flow :=
  t <- lift (py_get item "@type" PNone) ;;
  if py_eq_str t "Organization" then
    company_core item ;;
    company_address item ;;
    company_employees item ;;
    ret Break
  else ret Continue.

Definition company_body (json_data : pyval) : M unit :=
  has_graph <- lift (py_contains "@graph" json_data) ;;
  if (has_graph : bool) then
    graph <- lift (py_getitem json_data "@graph") ;;
    items <- lift (py_iter graph) ;;
    for_each items company_graph_item
  else
    t <- lift (py_get json_data "@type" PNone) ;;
    if py_eq_str t "Organization" then
      company_core json_data ;;
      company_employees json_data
    else ret tt.

Definition _parse_company_json_ld (json_data : pyval) : dict pyval :=
  run_parser (company_body json_data).

(** Lines 309-316 and 357-364: the list-shaped interaction statistics. *)
Definition interaction_counts (json_data : pyval) : M unit :=
  when_typed json_data "interactionStatistic" is_list (fun stats =>
    l <- lift (py_iter stats) ;;
    for_each l (fun interaction =>
      if is_dict interaction then
        interaction_type <-
          lift (py_get interaction "interactionType" (PStr "")) ;;
        is_like <- lift (py_contains "LikeAction" interaction_type) ;;
        if (is_like : bool) then
          copy_field interaction "userInteractionCount" (PInt 0) "likes" ;;
          ret Continue
        else
          is_comment <- lift (py_contains "CommentAction" interaction_type) ;;
          if (is_comment : bool) then
            copy_field interaction "userInteractionCount" (PInt 0)
              "comments_count" ;;
            ret Continue
          else ret Continue
      else ret Continue)).

(** Lines 280-292. *)
Definition post_author (json_data : pyval) : M unit :=
  when_typed json_data "author" is_dict (fun author =>
    name <- lift (py_get author "name" (PStr "")) ;;
    url <- lift (py_get author "url" (PStr "")) ;;
    has_image <- lift (py_contains "image" author) ;;
    image_url <-
      (if (has_image : bool) then
         image <- lift (py_get author "image" (PDict [])) ;;
         lift (py_get image "url" (PStr ""))
       else ret (PStr "")) ;;
    set_field "author"
      (PDict [("name", name); ("url", url); ("image_url", image_url)]) ;;
    when_typed author "interactionStatistic" is_dict (fun interaction =>
      follow_count interaction http_follow "author_followers")).

(** The loop over [json_data['comment']] (lines 296-305). *)
Fixpoint comment_entries (l : list pyval) : M (list pyval) :=
  match l with
  | [] => ret []
  | comment :: r =>
      if is_dict comment then
        text <- lift (py_get comment "text" (PStr "")) ;;
        date <- lift (py_get comment "datePublished" (PStr "")) ;;
        author <- lift (py_get comment "author" (PDict [])) ;;
        author_name <- lift (py_get author "name" (PStr "")) ;;
        stat <- lift (py_get comment "interactionStatistic" (PDict [])) ;;
        likes <- lift (py_get stat "userInteractionCount" (PInt 0)) ;;
        rest <- comment_entries r ;;
        ret (PDict [("text", text); ("date_published", date);
                    ("author_name", author_name); ("likes", likes)] :: rest)
      else comment_entries r
  end.

Definition post_comments (json_data : pyval) : M unit :=
  when_typed json_data "comment" is_list (fun cs =>
    l <- lift (py_iter cs) ;;
    comments <- comment_entries l ;;
    set_field "comments" (PList comments)).

Definition post_body (json_data : pyval) : M unit :=
  t <- lift (py_get json_data "@type" PNone) ;;
  (if py_eq_str t "DiscussionForumPosting" then
     copy_field json_data "headline" (PStr "") "headline" ;;
     copy_field json_data "articleBody" (PStr "") "article_body" ;;
     copy_field json_data "datePublished" (PStr "") "date_published" ;;
     copy_field json_data "@id" (PStr "") "url" ;;
     copy_field json_data "commentCount" (PInt 0) "comment_count" ;;
     post_author json_data ;;
     post_comments json_data ;;
     interaction_counts json_data
   else ret tt) ;;
  (* line 318: [post_data.get('headline', 'Unknown')[:50]] *)
  st <- get_state ;;
  lift (py_slice (dict_get_default st "headline" (PStr "Unknown"))).

Definition _parse_post_json_ld (json_data : pyval) : dict pyval :=
  run_parser (post_body json_data).

(** Lines 343-354. *)
Definition newsletter_author (json_data : pyval) : M unit :=
  when_typed json_data "author" is_dict (fun author =>
    name <- lift (py_get author "name" (PStr "")) ;;
    url <- lift (py_get author "url" (PStr "")) ;;
    set_field "author" (PDict [("name", name); ("url", url)]) ;;
    when_typed author "interactionStatistic" is_dict (fun interaction =>
      follow_count interaction https_follow "author_followers")).

Definition newsletter_body (json_data : pyval) : M unit :=
  t <- lift (py_get json_data "@type" PNone) ;;
  if py_eq_str t "Article" then
    copy_field json_data "headline" (PStr "") "headline" ;;
    copy_field json_data "name" (PStr "") "name" ;;
    copy_field json_data "url" (PStr "") "url" ;;
    copy_field json_data "datePublished" (PStr "") "date_published" ;;
    copy_field json_data "dateModified" (PStr "") "date_modified" ;;
    copy_field json_data "commentCount" (PInt 0) "comment_count" ;;
    when_typed json_data "image" is_dict (fun image =>
      copy_field image "url" (PStr "") "image_url") ;;
    newsletter_author json_data ;;
    interaction_counts json_data
  else ret tt.

Definition _parse_newsletter_json_ld (json_data : pyval) : dict pyval :=
  run_parser (newsletter_body json_data).

Definition generic_common_fields : list string :=
  ["name"; "description"; "url"; "headline"; "datePublished"].

Definition generic_body (json_data : pyval) : M unit :=
  copy_field json_data "@type" (PStr "") "type" ;;
  copy_field json_data "@context" (PStr "") "context" ;;
  copy_field json_data "@id" (PStr "") "id" ;;
  for_each generic_common_fields (fun key =>
    has <- lift (py_contains key json_data) ;;
    if (has : bool) then
      v <- lift (py_getitem json_data key) ;;
      set_field key v ;;
      ret Continue
    else ret Continue) ;;
  has_image <- lift (py_contains "image" json_data) ;;
  if (has_image : bool) then
    image <- lift (py_getitem json_data "image") ;;
    if is_dict image then
      a <- lift (py_get image "contentUrl" PNone) ;;
      v <- (if py_truthy a then ret a
            else lift (py_get image "url" (PStr ""))) ;;
      set_field "image_url" v
    else if is_str image then set_field "image_url" image
    else ret tt
  else ret tt.

Definition _parse_generic_json_ld (json_data : pyval) : dict pyval :=
  run_parser (generic_body json_data).

End Parsers.

(* ------------------------------------------------------------------ *)
(** ** The document as BeautifulSoup presents it *)

(** A [<script type="application/ld+json">] element; [script_string] is
    [script.string] ([None] when the element has no single text child). *)
Record script_tag : Type := { script_string : option string }.

(** A [<meta>] element with the three attributes the extractor reads. *)
Record meta_tag : Type := {
  attr_name : option string;
  attr_property : option string;
  attr_content : option string
}.

Record html_doc : Type := {
  ld_scripts : list script_tag;   (* find_all('script', type=...) *)
  meta_tags : list meta_tag;      (* find_all('meta') *)
  title_text : option string      (* find('title').text, if any *)
}.

(* ------------------------------------------------------------------ *)
(** ** Structured-data extractor *)

Record json_ld_data : Type := {
  found : bool;
  raw_json : option pyval;
  parsed_data : dict pyval;
  data_type : option string
}.

Definition no_json_ld : json_ld_data :=
  {| found := false; raw_json := None; parsed_data := []; data_type := None |}.

(** Lines 111-125: the parser chosen by the URL type, and the recorded
    [data_type]. *)
Definition parse_by_url_type (url_type : string) (json_data : pyval)
    : dict pyval * string :=
  if String.eqb url_type "profile" then
    (Parsers._parse_profile_json_ld json_data, "profile")
  else if String.eqb url_type "company" then
    (Parsers._parse_company_json_ld json_data, "company")
  else if String.eqb url_type "post" then
    (Parsers._parse_post_json_ld json_data, "post")
  else if String.eqb url_type "newsletter" then
    (Parsers._parse_newsletter_json_ld json_data, "newsletter")
  else
    (Parsers._parse_generic_json_ld json_data, "generic").

(** What [json.loads(text)] does: it returns a tree, raises
    [json.JSONDecodeError], or raises another exception ([RecursionError]
    on a deeply nested text, a plain [ValueError] on an over-long integer
    literal). *)
Inductive loads_result : Type :=
| Decoded (json_data : pyval)
| DecodeError
| OtherError.

(** What the loop of lines 103-133 does with one candidate: record its
    tree and [break]; go on to the next candidate ([if script.string:]
    fails, or [except json.JSONDecodeError: continue]); or leave the loop
    through the outer [except Exception] of line 135. *)
Inductive candidate_outcome : Type :=
| Use (json_data : pyval)
| Skip
| Abandon.

Section Extractor.

Variable json_loads : string -> loads_result.

(** [if script.string:] followed by [json.loads(script.string)]. *)
Definition load_script (s : script_tag) : candidate_outcome :=
  match script_string s with
  | Some text =>
      if str_nonempty text then
        match json_loads text with
        | Decoded json_data => Use json_data
        | DecodeError => Skip
        | OtherError => Abandon
        end
      else Skip
  | None => Skip
  end.

(** The loop of lines 103-133 inside the [try] of lines 93-136.  When the
    scan is abandoned the record is returned as it is at that point: no
    field has been assigned, since the first tree recorded ends the loop. *)
Fixpoint scan_scripts (url_type : string) (scripts : list script_tag)
    : json_ld_data :=
  match scripts with
  | [] => no_json_ld
  | script :: rest =>
      match load_script script with
      | Use json_data =>
          let (parsed, ty) := parse_by_url_type url_type json_data in
          {| found := true; raw_json := Some json_data;
             parsed_data := parsed; data_type := Some ty |}
      | Skip => scan_scripts url_type rest
      | Abandon => no_json_ld
      end
  end.

Definition _extract_json_ld_data (html_content : html_doc)
    (url_type : string) : json_ld_data :=
  scan_scripts url_type (ld_scripts html_content).

End Extractor.

(* ------------------------------------------------------------------ *)
(** ** Meta-tag extractor *)

Record meta_data : Type := {
  open_graph : dict string;
  twitter : dict string;
  other_meta : dict string;
  title : string;
  description : string
}.

(** [a or b] on two attribute lookups *)
Definition attr_or (a b : option string) : option string :=
  match a with
  | Some s => if str_nonempty s then a else b
  | None => b
  end.

(** [meta_data] as created at lines 406-412. *)
Definition empty_meta_data : meta_data :=
  {| open_graph := []; twitter := []; other_meta := [];
     title := ""; description := "" |}.

(** The name the loop gives an element: [meta.get('name') or
    meta.get('property')]. *)
Definition meta_key (meta : meta_tag) : option string :=
  attr_or (attr_name meta) (attr_property meta).

(** One iteration of the loop of lines 416-426. *)
Definition classify_meta (md : meta_data) (meta : meta_tag) : meta_data :=
  match meta_key meta, attr_content meta with
  | Some name, Some content =>
      if str_nonempty name && str_nonempty content then
        if startswith "og:" name then
          {| open_graph := dict_set (open_graph md) name content;
             twitter := twitter md; other_meta := other_meta md;
             title := title md; description := description md |}
        else if startswith "twitter:" name then
          {| open_graph := open_graph md;
             twitter := dict_set (twitter md) name content;
             other_meta := other_meta md;
             title := title md; description := description md |}
        else
          {| open_graph := open_graph md; twitter := twitter md;
             other_meta := dict_set (other_meta md) name content;
             title := title md; description := description md |}
      else md
  | _, _ => md
  end.

Definition is_description_tag (meta : meta_tag) : bool :=
  match attr_name meta with
  | Some n => String.eqb n "description"
  | None => false
  end.

Definition _extract_meta_data (html_content : html_doc) : meta_data :=
  let md := fold_left classify_meta (meta_tags html_content)
              empty_meta_data in
  {| open_graph := open_graph md;
     twitter := twitter md;
     other_meta := other_meta md;
     title := match title_text html_content with
              | Some t => t
              | None => title md
              end;
     description :=
       match find is_description_tag (meta_tags html_content) with
       | Some tag =>
           match attr_content tag with Some c => c | None => "" end
       | None => description md
       end |}.

(** The three buckets, and the one a name belongs to by its prefix. *)
Inductive bucket_name : Type := OpenGraph | Twitter | OtherMeta.

Definition bucket (w : bucket_name) (md : meta_data) : dict string :=
  match w with
  | OpenGraph => open_graph md
  | Twitter => twitter md
  | OtherMeta => other_meta md
  end.

Definition bucket_of_name (name : string) : bucket_name :=
  if startswith "og:" name then OpenGraph
  else if startswith "twitter:" name then Twitter
  else OtherMeta.

(** The element [meta] makes the loop store [content] under [name]. *)
Definition stores (meta : meta_tag) (name content : string) : Prop :=
  meta_key meta = Some name /\ attr_content meta = Some content /\
  name <> "" /\ content <> "".

(* ------------------------------------------------------------------ *)
(** ** Reconciler *)

Definition dict_nonempty {V} (d : dict V) : bool :=
  match d with [] => false | _ => true end.

(** [PStr (d.get(k, ''))] for a bucket of strings *)
Definition bucket_get (d : dict string) (k : string) : pyval :=
  PStr (dict_get_default d k "").

(** Lines 447-448. *)
Definition seed (jl : json_ld_data) : dict pyval :=
  if found jl then dict_update [] (parsed_data jl) else [].

(** Lines 451-470.  [meta_data] is a dict of five keys, so [if meta_data:]
    always holds. *)
Definition supplement (md : meta_data) (combined : dict pyval) : dict pyval :=
  let og_data := open_graph md in
  let c1 :=
    if dict_nonempty og_data then
      let c := dict_set combined "og_title" (bucket_get og_data "og:title") in
      let c := dict_set c "og_description"
                 (bucket_get og_data "og:description") in
      let c := dict_set c "og_image" (bucket_get og_data "og:image") in
      let c := dict_set c "og_url" (bucket_get og_data "og:url") in
      dict_set c "og_type" (bucket_get og_data "og:type")
    else combined in
  let twitter_data := twitter md in
  let c2 :=
    if dict_nonempty twitter_data then
      let c := dict_set c1 "twitter_title"
                 (bucket_get twitter_data "twitter:title") in
      let c := dict_set c "twitter_description"
                 (bucket_get twitter_data "twitter:description") in
      dict_set c "twitter_image" (bucket_get twitter_data "twitter:image")
    else c1 in
  let c3 := dict_set c2 "page_title" (PStr (title md)) in
  dict_set c3 "page_description" (PStr (description md)).

(** Lines 478-482: the newsletter name taken from the [og:title]. *)
Definition newsletter_name (title : string) : string :=
  if str_nonempty title && str_contains "|" title
  then strip (split_first "|" title)
  else title.

Definition na_author : pyval :=
  PDict [("name", PStr "N/A"); ("url", PStr "N/A")].

(** Lines 473-496. *)
Definition newsletter_fallback (jl : json_ld_data) (md : meta_data)
    (url_type : string) (combined : dict pyval) : dict pyval :=
  if String.eqb url_type "newsletter" && negb (found jl) then
    let og_data := open_graph md in
    if dict_nonempty og_data then
      let title := dict_get_default og_data "og:title" "" in
      let c := dict_set combined "name" (PStr (newsletter_name title)) in
      let c := dict_set c "description"
                 (bucket_get og_data "og:description") in
      let c := dict_set c "image_url" (bucket_get og_data "og:image") in
      let c := dict_set c "url" (bucket_get og_data "og:url") in
      let c := dict_set c "author" na_author in
      dict_set c "date_published" (PStr "N/A")
    else combined
  else combined.

(** [not combined_data.get('username')] *)
Definition lacks_username (combined : dict pyval) : bool :=
  negb (py_truthy (dict_get_default combined "username" PNone)).

(** [m = re.search(lit + '([^/?]+)', url); if m: d['username'] = m.group(1)] *)
Definition set_username_from (lit page_url : string) (combined : dict pyval)
    : dict pyval :=
  match re_search_segment lit page_url with
  | Some seg => dict_set combined "username" (PStr seg)
  | None => combined
  end.

(** Lines 499-513. *)
Definition backfill_username (url_type page_url : string)
    (combined : dict pyval) : dict pyval :=
  if String.eqb url_type "profile" && lacks_username combined then
    set_username_from "linkedin.com/in/" page_url combined
  else if String.eqb url_type "company" && lacks_username combined then
    set_username_from "linkedin.com/company/" page_url combined
  else if String.eqb url_type "newsletter" && lacks_username combined then
    set_username_from "linkedin.com/newsletters/" page_url combined
  else combined.

(** [page_url] is [self.browser_manager.page.url]. *)
Definition _combine_data_sources (jl : json_ld_data) (md : meta_data)
    (url_type page_url : string) : dict pyval :=
  backfill_username url_type page_url
    (newsletter_fallback jl md url_type
       (supplement md (seed jl))).

(** The keys under which [supplement] stores meta-tag values. *)
Definition supplementary_keys : list string :=
  ["og_title"; "og_description"; "og_image"; "og_url"; "og_type";
   "twitter_title"; "twitter_description"; "twitter_image";
   "page_title"; "page_description"].

(** The keys the newsletter fallback assigns. *)
Definition fallback_keys : list string :=
  ["name"; "description"; "image_url"; "url"; "author"; "date_published"].

(** The keys the five entity parsers assign. *)
Definition entity_keys : list string :=
  ["name"; "job_title"; "description"; "url"; "image_url"; "location";
   "country"; "works_for"; "followers"; "slogan"; "logo_url"; "address";
   "employee_count"; "headline"; "article_body"; "date_published";
   "comment_count"; "author"; "author_followers"; "comments"; "likes";
   "comments_count"; "date_modified"; "type"; "context"; "id";
   "datePublished"].

(** The URL patterns of lines 500, 505 and 511, by URL type. *)
Definition username_patterns : list (string * string) :=
  [("profile", "linkedin.com/in/");
   ("company", "linkedin.com/company/");
   ("newsletter", "linkedin.com/newsletters/")].

(* ------------------------------------------------------------------ *)
(** ** The request *)

(** What the browser manager hands back for a URL. *)
Record page : Type := {
  popup_closed : bool;
  html_content : html_doc;
  detected_url_type : string;
  page_url : string
}.

Inductive navigation : Type :=
| Loaded (p : page)
| NavigationFault (message : string).

Record extracted_data : Type := {
  url : string;
  url_type : string;
  r_popup_closed : bool;
  r_json_ld_data : json_ld_data;
  r_meta_data : meta_data;
  combined_data : dict pyval;
  extraction_success : bool
}.

Inductive extraction_result : Type :=
| Extracted (d : extracted_data)
| Failed (url error : string) (success : bool).

Section Request.

Variable json_loads : string -> loads_result.

Definition extract_linkedin_data (url : string) (nav : navigation)
    : extraction_result :=
  match nav with
  | NavigationFault e => Failed url e false
  | Loaded p =>
      let url_type := detected_url_type p in
      let jl := _extract_json_ld_data json_loads (html_content p) url_type in
      let md := _extract_meta_data (html_content p) in
      let combined := _combine_data_sources jl md url_type (page_url p) in
      Extracted
        {| url := url;
           url_type := url_type;
           r_popup_closed := popup_closed p;
           r_json_ld_data := jl;
           r_meta_data := md;
           combined_data := combined;
           extraction_success := found jl |}
  end.

End Request.

(* ------------------------------------------------------------------ *)
(** ** Sample trees *)

Module Samples.

Definition follow_stat (action : string) (n : Z) : pyval :=
  PDict [("@type", PStr "InteractionCounter");
         ("interactionType", PStr action);
         ("userInteractionCount", PInt n)].

Definition website_node : dict pyval :=
  [("@type", PStr "WebSite"); ("url", PStr "https://www.linkedin.com")].

(** A Person node with an address, one employer and a follower count. *)
Definition person_node : dict pyval :=
  [("@type", PStr "Person");
   ("name", PStr "J. Doe");
   ("address", PDict [("addressLocality", PStr "Pune");
                      ("addressCountry", PStr "IN")]);
   ("worksFor", PList [PDict [("name", PStr "Acme");
                              ("member", PDict [("startDate", PStr "2020")])]]);
   ("interactionStatistic", follow_stat Parsers.https_follow 10)].

Definition graph_of (nodes : list pyval) : pyval :=
  PDict [("@context", PStr "http://schema.org"); ("@graph", PList nodes)].

Definition organization_node : dict pyval :=
  [("@type", PStr "Organization");
   ("name", PStr "Acme");
   ("numberOfEmployees", PDict [("value", PInt 500)])].

Definition post_node : dict pyval :=
  [("@type", PStr "DiscussionForumPosting");
   ("headline", PStr "Hello");
   ("author", PDict [("name", PStr "J. Doe");
                     ("interactionStatistic",
                      follow_stat Parsers.http_follow 7)])].

Definition article_node : dict pyval :=
  [("@type", PStr "Article");
   ("name", PStr "Issue 1");
   ("author", PDict [("name", PStr "J. Doe");
                     ("interactionStatistic",
                      follow_stat Parsers.https_follow 7)])].

(** A Person node whose employer entry has a string where the membership
    record is expected. *)
Definition person_bad_member : dict pyval :=
  [("@type", PStr "Person");
   ("name", PStr "J. Doe");
   ("worksFor", PList [PDict [("name", PStr "Acme");
                              ("member", PStr "since 2020")]])].

(** A posting whose author image is a bare URL string. *)
Definition post_bad_image : dict pyval :=
  [("@type", PStr "DiscussionForumPosting");
   ("headline", PStr "Hello");
   ("author", PDict [("name", PStr "J. Doe");
                     ("image", PStr "https://media.example/p.png")])].

Definition person_with_follow (action : string) : dict pyval :=
  [("@type", PStr "Person");
   ("name", PStr "J. Doe");
   ("interactionStatistic", follow_stat action 10)].

Definition post_with_follow (action : string) : dict pyval :=
  [("@type", PStr "DiscussionForumPosting");
   ("headline", PStr "Hello");
   ("author", PDict [("name", PStr "J. Doe");
                     ("interactionStatistic", follow_stat action 7)])].

Definition article_with_follow (action : string) : dict pyval :=
  [("@type", PStr "Article");
   ("name", PStr "Issue 1");
   ("author", PDict [("name", PStr "J. Doe");
                     ("interactionStatistic", follow_stat action 7)])].

End Samples.

(* ------------------------------------------------------------------ *)
(** ** The specification's reading of a graph container *)

Definition has_type (target : string) (node : pyval) : bool :=
  match node with
  | PDict m => py_eq_str (dict_get_default m "@type" PNone) target
  | _ => false
  end.

(** The node the specification has an entity parser work on: in a graph
    container the first node of the list whose declared type is the target
    type, otherwise the tree itself when it has the target type. *)
Definition spec_target_node (target : string) (tree : pyval) : option pyval :=
  match tree with
  | PDict d =>
      match dict_get d "@graph" with
      | Some (PList nodes) => find (has_type target) nodes
      | _ => if has_type target tree then Some tree else None
      end
  | _ => None
  end.

(* ------------------------------------------------------------------ *)
(** ** The specification's reading of the candidate scan *)

(** The block the specification designates: the first candidate that parses
    as valid JSON and whose parse is non-empty, every candidate that fails
    to parse being passed over. *)
Fixpoint spec_selected_block (json_loads : string -> loads_result)
    (url_type : string) (scripts : list script_tag) : option pyval :=
  match scripts with
  | [] => None
  | script :: rest =>
      match load_script json_loads script with
      | Use json_data =>
          if dict_nonempty (fst (parse_by_url_type url_type json_data))
          then Some json_data
          else spec_selected_block json_loads url_type rest
      | Skip | Abandon => spec_selected_block json_loads url_type rest
      end
  end.

(* ------------------------------------------------------------------ *)
(** ** Sample documents *)

Module Demo.

Definition dq : string := String (ascii_of_nat 34) EmptyString.

(** The text of a JSON object with the two members [@type] and [name]. *)
Definition person_text : string :=
  ("{" ++ dq ++ "@type" ++ dq ++ ": " ++ dq ++ "Person" ++ dq ++ ", "
       ++ dq ++ "name" ++ dq ++ ": " ++ dq ++ "J. Doe" ++ dq ++ "}")%string.

Definition person_tree : pyval :=
  PDict [("@type", PStr "Person"); ("name", PStr "J. Doe")].

(** One hundred thousand opening brackets: [json.loads] exceeds the
    recursion limit on it and raises [RecursionError]. *)
Definition nested_text : string :=
  N.iter 100000 (String "[") EmptyString.

(** [json.loads] on the texts of the sample documents: the empty object,
    the Person object above, the deeply nested text, and a truncated text
    that does not parse. *)
Definition loads (text : string) : loads_result :=
  if String.eqb text "{}" then Decoded (PDict [])
  else if String.eqb text person_text then Decoded person_tree
  else if String.eqb text nested_text then OtherError
  else DecodeError.

Definition script (text : string) : script_tag :=
  {| script_string := Some text |}.

Definition meta (name content : string) : meta_tag :=
  {| attr_name := Some name; attr_property := None;
     attr_content := Some content |}.

Definition og (property content : string) : meta_tag :=
  {| attr_name := None; attr_property := Some property;
     attr_content := Some content |}.

(** An empty object first, then a Person object. *)
Definition empty_then_person : html_doc :=
  {| ld_scripts := [script "{}"; script person_text];
     meta_tags := []; title_text := None |}.

(** A truncated block, an element without text, then a Person object and
    one more block. *)
(** One social-preview element with an empty content. *)
Definition empty_og_title : html_doc :=
  {| ld_scripts := []; meta_tags := [og "og:title" ""];
     title_text := None |}.

(** A deeply nested block, then a Person object. *)
Definition nested_then_person : html_doc :=
  {| ld_scripts := [script nested_text; script person_text];
     meta_tags := []; title_text := None |}.

Definition malformed_then_person : html_doc :=
  {| ld_scripts := [script "{"; {| script_string := None |};
                    script person_text; script "{}"];
     meta_tags := []; title_text := None |}.

(** A newsletter landing page: no linked-data block, social-preview
    tags only. *)
Definition newsletter_landing : html_doc :=
  {| ld_scripts := [];
     meta_tags := [og "og:title" "AI Insider | LinkedIn";
                   og "og:description" "Weekly notes";
                   og "og:url"
                      "https://www.linkedin.com/newsletters/ai-insider-7";
                   meta "description" "Weekly notes on AI"];
     title_text := Some "AI Insider | LinkedIn" |}.

Definition newsletter_page : page :=
  {| popup_closed := true;
     html_content := newsletter_landing;
     detected_url_type := "newsletter";
     page_url := "https://www.linkedin.com/newsletters/ai-insider-7" |}.

End Demo.

(* ------------------------------------------------------------------ *)
(** ** Footprint of a computation *)

(** [c] assigns no key outside [K]: whatever the starting dictionary and
    whether or not [c] raises, the bindings of the other keys are the ones
    it started with. *)
Definition writes_within (K : list string) {A} (c : M A) : Prop :=
  forall st k, ~ In k K -> dict_get (snd (c st)) k = dict_get st k.

(* ------------------------------------------------------------------ *)
(** ** Shapes on which the loops do not fault *)

Definition absent_or_dict (v : option pyval) : bool :=
  match v with
  | None | Some (PDict _) => true
  | Some _ => false
  end.

(** [x.get(key, {})] when the value under [key] is absent or a mapping. *)
Definition sub_dict (m : dict pyval) (key : string) : dict pyval :=
  match dict_get m key with
  | Some (PDict d) => d
  | _ => []
  end.

(** An entry of [worksFor] on which lines 168-173 do not fault. *)
Definition work_ok (work : pyval) : bool :=
  match work with
  | PDict m => absent_or_dict (dict_get m "member")
  | _ => true
  end.

(** The record of lines 168-173 for an employer entry [m]. *)
Definition work_record (m : dict pyval) : pyval :=
  PDict [("company_name", dict_get_default m "name" (PStr ""));
         ("company_url", dict_get_default m "url" (PStr ""));
         ("description",
          dict_get_default (sub_dict m "member") "description" (PStr ""));
         ("start_date",
          dict_get_default (sub_dict m "member") "startDate" (PStr ""))].

(** A Person node whose employer block (lines 164-175) does not fault:
    [worksFor] is absent, is not a list, or is a list of readable
    entries. *)
Definition works_for_ok (node : dict pyval) : bool :=
  match dict_get node "worksFor" with
  | Some (PList works) => forallb work_ok works
  | _ => true
  end.

Definition work_records (works : list pyval) : list pyval :=
  flat_map (fun w => match w with
                     | PDict m => [work_record m]
                     | _ => []
                     end) works.

(** An entry of [comment] on which lines 299-304 do not fault. *)
Definition comment_ok (comment : pyval) : bool :=
  match comment with
  | PDict m =>
      absent_or_dict (dict_get m "author")
      && absent_or_dict (dict_get m "interactionStatistic")
  | _ => true
  end.

(** The record of lines 299-304 for a comment [m]. *)
Definition comment_record (m : dict pyval) : pyval :=
  PDict [("text", dict_get_default m "text" (PStr ""));
         ("date_published", dict_get_default m "datePublished" (PStr ""));
         ("author_name",
          dict_get_default (sub_dict m "author") "name" (PStr ""));
         ("likes",
          dict_get_default (sub_dict m "interactionStatistic")
            "userInteractionCount" (PInt 0))].

Definition comment_records (comments : list pyval) : list pyval :=
  flat_map (fun c => match c with
                     | PDict m => [comment_record m]
                     | _ => []
                     end) comments.

(** A post author on which lines 281-286 do not fault: no author, an author
    that is not a mapping (the block is skipped), or a mapping whose
    [image] is absent or a mapping. *)
Definition post_author_ok (d : dict pyval) : bool :=
  match dict_get d "author" with
  | Some (PDict a) => absent_or_dict (dict_get a "image")
  | _ => true
  end.

(** An entry of a statistics list on which lines 311-316 do not fault: its
    [interactionType] supports [in]. *)
Definition stat_ok (interaction : pyval) : bool :=
  match interaction with
  | PDict m =>
      match dict_get_default m "interactionType" (PStr "") with
      | PStr _ | PList _ | PDict _ => true
      | _ => false
      end
  | _ => true
  end.

(** One iteration of the loop of [Parsers.interaction_counts]
    (lines 311-316 and 359-364). *)
Definition interaction_entry (interaction : pyval) : M flow :=
  if is_dict interaction then
    interaction_type <-
      lift (py_get interaction "interactionType" (PStr "")) ;;
    is_like <- lift (py_contains "LikeAction" interaction_type) ;;
    if (is_like : bool) then
      Parsers.copy_field interaction "userInteractionCount" (PInt 0) "likes" ;;
      ret Continue
    else
      is_comment <- lift (py_contains "CommentAction" interaction_type) ;;
      if (is_comment : bool) then
        Parsers.copy_field interaction "userInteractionCount" (PInt 0)
          "comments_count" ;;
        ret Continue
      else ret Continue
  else ret Continue.

(** The first, respectively last, character of [s] is white space. *)
Definition starts_with_space (s : string) : bool :=
  match s with
  | EmptyString => false
  | String c _ => is_space c
  end.

Fixpoint ends_with_space (s : string) : bool :=
  match s with
  | EmptyString => false
  | String c EmptyString => is_space c
  | String _ r => ends_with_space r
  end.

(** [c] keeps the property [P] of the dictionary under construction. *)
Definition preserves (P : dict pyval -> Prop) {A} (c : M A) : Prop :=
  forall st, P st -> P (snd (c st)).

(** [c] ends normally from every dictionary. *)
Definition no_fault {A} (c : M A) : Prop :=
  forall st, exists a st', c st = (Ok a, st').

(* ------------------------------------------------------------------ *)
(** ** Dictionaries: lookup after assignment *)

Section DictFacts.

Context {V : Type}.
Implicit Types (d : dict V) (k : string) (v : V).

Lemma dict_get_set_same d k v : dict_get (dict_set d k v) k = Some v.
Proof.
  induction d as [|[k' v'] r IH]; simpl.
  - now rewrite String.eqb_refl.
  - destruct (String.eqb k' k) eqn:E; simpl.
    + now rewrite String.eqb_refl.
    + now rewrite E.
Qed.

Lemma dict_get_set_other d k k' v :
  k' <> k -> dict_get (dict_set d k v) k' = dict_get d k'.
Proof.
  intros Hne. induction d as [|[k0 v0] r IH]; simpl.
  - destruct (String.eqb_spec k k'); congruence.
  - destruct (String.eqb_spec k0 k) as [->|Hk]; simpl.
    + destruct (String.eqb_spec k k'); congruence.
    + destruct (String.eqb_spec k0 k'); auto.
Qed.

Lemma dict_get_None_keys d k :
  dict_get d k = None <-> ~ In k (dict_keys d).
Proof.
  induction d as [|[k0 v0] r IH]; simpl.
  - tauto.
  - destruct (String.eqb_spec k0 k) as [->|Hk].
    + split; [discriminate | tauto].
    + rewrite IH. tauto.
Qed.

Lemma dict_get_Some_keys d k v :
  dict_get d k = Some v -> In k (dict_keys d).
Proof.
  intros H. destruct (in_dec string_dec k (dict_keys d)) as [|N]; auto.
  apply dict_get_None_keys in N. congruence.
Qed.

Lemma dict_keys_set d k v k' :
  In k' (dict_keys (dict_set d k v)) -> k' = k \/ In k' (dict_keys d).
Proof.
  induction d as [|[k0 v0] r IH]; simpl.
  - intros [<-|[]]; auto.
  - destruct (String.eqb_spec k0 k) as [->|Hk]; simpl.
    + tauto.
    + intros [<-|H]; auto. destruct (IH H); auto.
Qed.

Lemma dict_keys_update d src k :
  In k (dict_keys (dict_update d src)) ->
  In k (dict_keys d) \/ In k (dict_keys src).
Proof.
  unfold dict_update. revert d.
  induction src as [|[k0 v0] r IH]; simpl; intros d H; auto.
  apply IH in H. destruct H as [H|H]; auto.
  apply dict_keys_set in H. destruct H as [->|H]; auto.
Qed.

Lemma dict_set_fresh d k v :
  ~ In k (dict_keys d) -> dict_set d k v = d ++ [(k, v)].
Proof.
  induction d as [|[k0 v0] r IH]; simpl; intros H; auto.
  destruct (String.eqb_spec k0 k) as [->|Hk]; [tauto|].
  rewrite IH; tauto.
Qed.

(** Updating with a dictionary whose keys are distinct and new appends
    it. *)
Lemma dict_update_fresh d src :
  NoDup (dict_keys (d ++ src)) -> dict_update d src = d ++ src.
Proof.
  unfold dict_update. revert d.
  induction src as [|[k0 v0] r IH]; simpl; intros d H.
  - now rewrite app_nil_r.
  - assert (Hfresh : ~ In k0 (dict_keys d)).
    { unfold dict_keys in *. rewrite map_app in H. simpl in H.
      apply NoDup_remove_2 in H. rewrite in_app_iff in H. tauto. }
    rewrite dict_set_fresh by assumption.
    rewrite IH; rewrite <- app_assoc; simpl; auto.
Qed.

End DictFacts.

(* ------------------------------------------------------------------ *)
(** ** Strings: the regular-expression group and the title split *)

Lemma strip_prefix_app lit s rest :
  strip_prefix lit s = Some rest -> s = (lit ++ rest)%string.
Proof.
  revert s. induction lit as [|a lit IH]; simpl; intros s H.
  - congruence.
  - destruct s as [|b s]; [discriminate|].
    destruct (Ascii.eqb_spec a b) as [->|]; [|discriminate].
    simpl. f_equal. auto.
Qed.

Lemma strip_prefix_of_app lit rest : strip_prefix lit (lit ++ rest)%string = Some rest.
Proof.
  induction lit as [|a lit IH]; simpl; auto.
  now rewrite Ascii.eqb_refl.
Qed.

Lemma take_segment_spec s :
  exists rest,
    s = (take_segment s ++ rest)%string
    /\ all_seg_chars (take_segment s) = true
    /\ at_delimiter rest = true.
Proof.
  induction s as [|c r IH]; simpl.
  - exists EmptyString. auto.
  - destruct (seg_char c) eqn:E.
    + destruct IH as (rest & H1 & H2 & H3). exists rest. simpl.
      rewrite E, H2. repeat split; auto. now rewrite <- H1.
    + exists (String c r). simpl. rewrite E. auto.
Qed.

Lemma take_segment_stops seg rest :
  all_seg_chars seg = true -> at_delimiter rest = true ->
  take_segment (seg ++ rest)%string = seg.
Proof.
  intros Hs Hr. induction seg as [|c seg IH]; simpl in *.
  - destruct rest as [|c r]; simpl in *; auto.
    destruct (seg_char c); [discriminate | reflexivity].
  - apply andb_prop in Hs. destruct Hs as [Hc Hs].
    rewrite Hc, IH; auto.
Qed.

Lemma match_here_spec lit s seg :
  match_here lit s = Some seg ->
  seg <> EmptyString /\ all_seg_chars seg = true /\
  exists rest, s = (lit ++ seg ++ rest)%string /\ at_delimiter rest = true.
Proof.
  unfold match_here. destruct (strip_prefix lit s) as [r|] eqn:E; [|discriminate].
  apply strip_prefix_app in E.
  destruct (take_segment_spec r) as (rest & H1 & H2 & H3).
  destruct (take_segment r) eqn:T; [discriminate|].
  intros [= <-]. repeat split; [discriminate | assumption |].
  exists rest. split; auto. now rewrite <- H1.
Qed.

(** What [re.search] returns: a non-empty run of characters other than
    [/] and [?], found right after an occurrence of the literal and ended
    by [/], [?] or the end of the URL. *)
Lemma re_search_segment_spec lit s seg :
  re_search_segment lit s = Some seg ->
  seg <> EmptyString /\ all_seg_chars seg = true /\
  exists before rest,
    s = (before ++ lit ++ seg ++ rest)%string /\ at_delimiter rest = true.
Proof.
  induction s as [|c s IH]; simpl.
  - destruct (match_here lit EmptyString) eqn:E; [|discriminate].
    intros [= <-]. apply match_here_spec in E.
    destruct E as (H1 & H2 & rest & H3 & H4).
    repeat split; auto. exists EmptyString, rest. auto.
  - destruct (match_here lit (String c s)) eqn:E.
    + intros [= <-]. apply match_here_spec in E.
      destruct E as (H1 & H2 & rest & H3 & H4).
      repeat split; auto. exists EmptyString, rest. auto.
    + intros H. apply IH in H.
      destruct H as (H1 & H2 & before & rest & H3 & H4).
      repeat split; auto. exists (String c before), rest.
      simpl. now rewrite <- H3.
Qed.

Lemma split_first_no_sep sep s :
  str_contains (String sep EmptyString) s = false -> split_first sep s = s.
Proof.
  induction s as [|c s IH]; simpl; auto.
  rewrite (Ascii.eqb_sym sep c).
  destruct (Ascii.eqb c sep); simpl.
  - discriminate.
  - intros H. now rewrite IH.
Qed.

Lemma split_first_app sep a b :
  str_contains (String sep EmptyString) a = false ->
  split_first sep (a ++ String sep b)%string = a.
Proof.
  induction a as [|c a IH]; simpl.
  - now rewrite Ascii.eqb_refl.
  - rewrite (Ascii.eqb_sym sep c).
    destruct (Ascii.eqb c sep); simpl; [discriminate|].
    intros H. now rewrite IH.
Qed.

(* ------------------------------------------------------------------ *)
(** ** Footprints of the parsers *)

Section Footprint.

Variable K : list string.

Lemma ww_ret {A} (a : A) : writes_within K (ret a).
Proof. intros st k _. reflexivity. Qed.

Lemma ww_lift {A} (r : res A) : writes_within K (lift r).
Proof. intros st k _. reflexivity. Qed.

Lemma ww_get_state : writes_within K get_state.
Proof. intros st k _. reflexivity. Qed.

Lemma ww_set_field f v : In f K -> writes_within K (set_field f v).
Proof.
  intros Hf st k Hk. simpl. apply dict_get_set_other.
  intros ->. contradiction.
Qed.

Lemma ww_bind {A B} (c : M A) (k : A -> M B) :
  writes_within K c -> (forall a, writes_within K (k a)) ->
  writes_within K (bind c k).
Proof.
  intros Hc Hk st key Hkey. unfold bind.
  specialize (Hc st key Hkey).
  destruct (c st) as [[a|e] st']; simpl in *.
  - rewrite Hk; auto.
  - assumption.
Qed.

Lemma ww_for_each {A} (l : list A) (body : A -> M flow) :
  (forall x, In x l -> writes_within K (body x)) ->
  writes_within K (for_each l body).
Proof.
  induction l as [|x r IH]; simpl; intros H.
  - apply ww_ret.
  - apply ww_bind; [apply H; auto|].
    intros [|]; [apply IH; auto | apply ww_ret].
Qed.

Lemma ww_works_for_entries l : writes_within K (Parsers.works_for_entries l).
Proof.
  induction l as [|w r IH]; simpl.
  - apply ww_ret.
  - destruct (is_dict w); auto.
    repeat (apply ww_bind; [first [apply ww_lift | exact IH]|intro]).
    apply ww_ret.
Qed.

Lemma ww_comment_entries l : writes_within K (Parsers.comment_entries l).
Proof.
  induction l as [|w r IH]; simpl.
  - apply ww_ret.
  - destruct (is_dict w); auto.
    repeat (apply ww_bind; [first [apply ww_lift | exact IH]|intro]).
    apply ww_ret.
Qed.

End Footprint.

(** Decomposes a footprint goal along the structure of the computation. *)
Ltac footprint :=
  repeat first
    [ apply ww_ret
    | apply ww_lift
    | apply ww_get_state
    | apply ww_works_for_entries
    | apply ww_comment_entries
    | apply ww_set_field; simpl; tauto
    | apply ww_bind; [|intro]
    | apply ww_for_each; intros ? ?
    | match goal with
      | |- writes_within _ (if ?b then _ else _) => destruct b
      | |- writes_within _ (match ?f with Break => _ | Continue => _ end) =>
          destruct f
      end
    | progress unfold Parsers.copy_field, Parsers.when_typed,
        Parsers.follow_count, Parsers.person_core, Parsers.person_followers,
        Parsers.person_location_and_work, Parsers.company_core,
        Parsers.company_address, Parsers.company_employees,
        Parsers.interaction_counts, Parsers.post_author,
        Parsers.post_comments, Parsers.newsletter_author,
        Parsers.profile_graph_item, Parsers.company_graph_item ].

Lemma ww_not_written K (c : M unit) k :
  writes_within K c -> ~ In k K -> dict_get (run_parser c) k = None.
Proof. intros H Hk. unfold run_parser. now rewrite H. Qed.

Lemma ww_keys K (c : M unit) k :
  writes_within K c -> In k (dict_keys (run_parser c)) -> In k K.
Proof.
  intros H Hin. destruct (in_dec string_dec k K) as [|N]; auto.
  pose proof (@ww_not_written K c k H N) as E.
  apply dict_get_None_keys in E. contradiction.
Qed.

Lemma profile_direct_footprint item :
  writes_within ["name"; "job_title"; "description"; "url"; "image_url";
                 "followers"]
    (Parsers.person_core item ;; Parsers.person_followers item).
Proof. footprint. Qed.

Lemma profile_footprint json_data :
  writes_within ["name"; "job_title"; "description"; "url"; "image_url";
                 "location"; "country"; "works_for"; "followers"]
    (Parsers.profile_body json_data).
Proof. unfold Parsers.profile_body. footprint. Qed.

Lemma company_footprint json_data :
  writes_within ["name"; "description"; "url"; "slogan"; "logo_url";
                 "address"; "employee_count"]
    (Parsers.company_body json_data).
Proof. unfold Parsers.company_body. footprint. Qed.

Lemma post_footprint json_data :
  writes_within ["headline"; "article_body"; "date_published"; "url";
                 "comment_count"; "author"; "author_followers"; "comments";
                 "likes"; "comments_count"]
    (Parsers.post_body json_data).
Proof. unfold Parsers.post_body. footprint. Qed.

Lemma newsletter_footprint json_data :
  writes_within ["headline"; "name"; "url"; "date_published";
                 "date_modified"; "comment_count"; "image_url"; "author";
                 "author_followers"; "likes"; "comments_count"]
    (Parsers.newsletter_body json_data).
Proof. unfold Parsers.newsletter_body. footprint. Qed.

Lemma generic_footprint json_data :
  writes_within ["type"; "context"; "id"; "name"; "description"; "url";
                 "headline"; "datePublished"; "image_url"]
    (Parsers.generic_body json_data).
Proof.
  unfold Parsers.generic_body. footprint.
  all: try (apply ww_set_field;
            match goal with
            | H : In _ Parsers.generic_common_fields |- _ =>
                simpl in H; simpl; intuition (subst; auto)
            end).
Qed.

(* ------------------------------------------------------------------ *)
(** ** Running the parsers on mappings *)

Lemma bind_ok {A B} (c : M A) (k : A -> M B) st a st' :
  c st = (Ok a, st') -> bind c k st = k a st'.
Proof. intros H. unfold bind. now rewrite H. Qed.

Lemma bind_raise {A B} (c : M A) (k : A -> M B) st e st' :
  c st = (Raise e, st') -> bind c k st = (Raise e, st').
Proof. intros H. unfold bind. now rewrite H. Qed.

Lemma py_eq_str_true v s : py_eq_str v s = true <-> v = PStr s.
Proof.
  destruct v; simpl; try (split; [discriminate | congruence]).
  rewrite String.eqb_eq. split; congruence.
Qed.

Lemma py_eq_str_false v s : py_eq_str v s = false <-> v <> PStr s.
Proof.
  rewrite <- py_eq_str_true. destruct (py_eq_str v s); split; congruence.
Qed.

Lemma copy_field_dict d key default field st :
  Parsers.copy_field (PDict d) key default field st =
  (Ok tt, dict_set st field (dict_get_default d key default)).
Proof. reflexivity. Qed.

Lemma when_typed_dict d key T k st :
  Parsers.when_typed (PDict d) key T k st =
  match dict_get d key with
  | Some x => if T x then k x st else (Ok tt, st)
  | None => (Ok tt, st)
  end.
Proof.
  unfold Parsers.when_typed, bind, lift. simpl. unfold dict_mem.
  destruct (dict_get d key) as [x|]; simpl; auto.
  destruct (T x); auto.
Qed.

Lemma follow_count_dict i action field st :
  Parsers.follow_count (PDict i) action field st =
  if py_eq_str (dict_get_default i "interactionType" PNone) action
  then (Ok tt,
        dict_set st field (dict_get_default i "userInteractionCount" (PInt 0)))
  else (Ok tt, st).
Proof.
  unfold Parsers.follow_count, bind, lift. simpl.
  destruct (py_eq_str _ action); reflexivity.
Qed.

Lemma person_core_ok d st :
  exists st', Parsers.person_core (PDict d) st = (Ok tt, st').
Proof.
  unfold Parsers.person_core.
  repeat (erewrite bind_ok; [|apply copy_field_dict]).
  rewrite when_typed_dict.
  destruct (dict_get d "image") as [[]|]; simpl; eexists; reflexivity.
Qed.

Lemma company_core_ok d st :
  exists st', Parsers.company_core (PDict d) st = (Ok tt, st').
Proof.
  unfold Parsers.company_core.
  repeat (erewrite bind_ok; [|apply copy_field_dict]).
  rewrite when_typed_dict.
  destruct (dict_get d "logo") as [[]|]; simpl; eexists; reflexivity.
Qed.

(** A top-level Person node without [@graph] goes through lines 187-202. *)
Lemma profile_body_direct d st :
  dict_get d "@graph" = None ->
  dict_get d "@type" = Some (PStr "Person") ->
  Parsers.profile_body (PDict d) st =
  (Parsers.person_core (PDict d) ;; Parsers.person_followers (PDict d)) st.
Proof.
  intros Hg Ht. unfold Parsers.profile_body.
  unfold bind at 1, lift at 1. simpl. unfold dict_mem. rewrite Hg.
  unfold bind at 1, lift at 1. simpl. unfold dict_get_default. rewrite Ht.
  reflexivity.
Qed.

(** C10.  A top-level Person node (no [@graph] key) never gets the
    [location], [country] or [works_for] fields, whatever [address] and
    [worksFor] entries the node carries: lines 158-175 exist in the
    [@graph] branch only. *)
Theorem C10_direct_person_without_location_and_employers :
  forall d : dict pyval,
    dict_get d "@graph" = None ->
    dict_get d "@type" = Some (PStr "Person") ->
    let r := Parsers._parse_profile_json_ld (PDict d) in
    dict_get r "location" = None /\
    dict_get r "country" = None /\
    dict_get r "works_for" = None.
Proof.
  intros d Hg Ht r. subst r. unfold Parsers._parse_profile_json_ld, run_parser.
  rewrite profile_body_direct by assumption.
  pose proof (profile_direct_footprint (PDict d)) as F.
  repeat split; rewrite F; auto; simpl; intuition discriminate.
Qed.

Lemma C10_witness :
  dict_get (Parsers._parse_profile_json_ld (PDict Samples.person_node))
    "location" = None /\
  dict_get (Parsers._parse_profile_json_ld (PDict Samples.person_node))
    "country" = None /\
  dict_get (Parsers._parse_profile_json_ld (PDict Samples.person_node))
    "works_for" = None.
Proof.
  apply (C10_direct_person_without_location_and_employers
           Samples.person_node); reflexivity.
Defined.

(** The same node inside a [@graph] list does get the three fields. *)
Example graph_person_has_location_and_employers :
  let r := Parsers._parse_profile_json_ld
             (Samples.graph_of [PDict Samples.person_node]) in
  dict_get r "location" = Some (PStr "Pune") /\
  dict_get r "country" = Some (PStr "IN") /\
  dict_get r "works_for" =
    Some (PList [PDict [("company_name", PStr "Acme");
                        ("company_url", PStr "");
                        ("description", PStr "");
                        ("start_date", PStr "2020")]]).
Proof. vm_compute. repeat split. Qed.

(* ------------------------------------------------------------------ *)
(** ** The scan of a graph container *)

Lemma for_each_skip {A} (body : A -> M flow) pre l st :
  Forall (fun x => forall st, body x st = (Ok Continue, st)) pre ->
  for_each (pre ++ l) body st = for_each l body st.
Proof.
  induction 1 as [|x pre Hx _ IH]; simpl; auto.
  erewrite bind_ok by apply Hx. exact IH.
Qed.

Lemma bind_only_break {A} (c : M A) (k : A -> M flow) :
  (forall a st f st', k a st = (Ok f, st') -> f = Break) ->
  forall st f st', bind c k st = (Ok f, st') -> f = Break.
Proof.
  intros Hk st f st'. unfold bind.
  destruct (c st) as [[a|e] st1]; [apply Hk | discriminate].
Qed.

Lemma ret_break_only st f st' : ret Break st = (Ok f, st') -> f = Break.
Proof. unfold ret. congruence. Qed.

(** A loop whose body at the head element can only end in [break] or in a
    fault never looks at the elements after it. *)
Lemma for_each_stops {A} (body : A -> M flow) x post st :
  (forall f st', body x st = (Ok f, st') -> f = Break) ->
  snd (for_each (x :: post) body st) = snd (body x st).
Proof.
  intros H. simpl. unfold bind.
  destruct (body x st) as [[f|e] st'] eqn:E; simpl; auto.
  rewrite (H f st' eq_refl). reflexivity.
Qed.

(** A loop in which every element either faults or is passed over leaves
    the dictionary as it was. *)
Lemma for_each_nothing {A} (body : A -> M flow) l :
  Forall (fun x => forall st,
            body x st = (Ok Continue, st) \/
            exists e, body x st = (Raise e, st)) l ->
  forall st, snd (for_each l body st) = st.
Proof.
  induction 1 as [|x l Hx _ IH]; intros st; simpl; auto.
  unfold bind. destruct (Hx st) as [E|[e E]]; rewrite E; simpl; auto.
Qed.

Lemma profile_item_other m st :
  dict_get_default m "@type" PNone <> PStr "Person" ->
  Parsers.profile_graph_item (PDict m) st = (Ok Continue, st).
Proof.
  intros H. apply py_eq_str_false in H.
  unfold Parsers.profile_graph_item, bind, lift. simpl. now rewrite H.
Qed.

Lemma company_item_other m st :
  dict_get_default m "@type" PNone <> PStr "Organization" ->
  Parsers.company_graph_item (PDict m) st = (Ok Continue, st).
Proof.
  intros H. apply py_eq_str_false in H.
  unfold Parsers.company_graph_item, bind, lift. simpl. now rewrite H.
Qed.

Lemma profile_item_target_breaks item st f st' :
  Parsers.profile_graph_item item st = (Ok f, st') ->
  f = Break \/ (f = Continue /\ st' = st).
Proof.
  unfold Parsers.profile_graph_item. unfold bind at 1, lift at 1.
  destruct (py_get item "@type" PNone) as [t|e]; [|discriminate].
  destruct (py_eq_str t "Person").
  - intros H. left. revert H.
    repeat (apply bind_only_break; intros ? ? ? ?). apply ret_break_only.
  - unfold ret. intros [= <- <-]. auto.
Qed.

Lemma company_item_target_breaks item st f st' :
  Parsers.company_graph_item item st = (Ok f, st') ->
  f = Break \/ (f = Continue /\ st' = st).
Proof.
  unfold Parsers.company_graph_item. unfold bind at 1, lift at 1.
  destruct (py_get item "@type" PNone) as [t|e]; [|discriminate].
  destruct (py_eq_str t "Organization").
  - intros H. left. revert H.
    repeat (apply bind_only_break; intros ? ? ? ?). apply ret_break_only.
  - unfold ret. intros [= <- <-]. auto.
Qed.

Lemma profile_body_graph d items st :
  dict_get d "@graph" = Some (PList items) ->
  Parsers.profile_body (PDict d) st =
  for_each items Parsers.profile_graph_item st.
Proof.
  intros Hg. unfold Parsers.profile_body, bind, lift. simpl.
  unfold dict_mem. rewrite Hg. reflexivity.
Qed.

Lemma company_body_graph d items st :
  dict_get d "@graph" = Some (PList items) ->
  Parsers.company_body (PDict d) st =
  for_each items Parsers.company_graph_item st.
Proof.
  intros Hg. unfold Parsers.company_body, bind, lift. simpl.
  unfold dict_mem. rewrite Hg. reflexivity.
Qed.

Lemma bind_snd_get K {A B} (c : M A) (k : A -> M B) st key :
  (forall a, writes_within K (k a)) -> ~ In key K ->
  dict_get (snd (bind c k st)) key = dict_get (snd (c st)) key.
Proof.
  intros Hk Hkey. unfold bind.
  destruct (c st) as [[a|e] st']; simpl; [now apply Hk | reflexivity].
Qed.

Lemma person_core_name d st :
  dict_get (snd (Parsers.person_core (PDict d) st)) "name" =
  Some (dict_get_default d "name" (PStr "")).
Proof.
  unfold Parsers.person_core.
  rewrite (@bind_snd_get ["job_title"; "description"; "url"; "image_url"]).
  - rewrite copy_field_dict. simpl. apply dict_get_set_same.
  - intros _. footprint.
  - simpl. intuition discriminate.
Qed.

Lemma company_core_name d st :
  dict_get (snd (Parsers.company_core (PDict d) st)) "name" =
  Some (dict_get_default d "name" (PStr "")).
Proof.
  unfold Parsers.company_core.
  rewrite (@bind_snd_get ["description"; "url"; "slogan"; "logo_url"]).
  - rewrite copy_field_dict. simpl. apply dict_get_set_same.
  - intros _. footprint.
  - simpl. intuition discriminate.
Qed.

Lemma profile_item_person node st :
  dict_get node "@type" = Some (PStr "Person") ->
  Parsers.profile_graph_item (PDict node) st =
  (Parsers.person_core (PDict node) ;;
   Parsers.person_location_and_work (PDict node) ;;
   Parsers.person_followers (PDict node) ;;
   ret Break) st.
Proof.
  intros Ht. unfold Parsers.profile_graph_item.
  unfold bind at 1, lift at 1. simpl. unfold dict_get_default.
  rewrite Ht. reflexivity.
Qed.

Lemma company_item_organization node st :
  dict_get node "@type" = Some (PStr "Organization") ->
  Parsers.company_graph_item (PDict node) st =
  (Parsers.company_core (PDict node) ;;
   Parsers.company_address (PDict node) ;;
   Parsers.company_employees (PDict node) ;;
   ret Break) st.
Proof.
  intros Ht. unfold Parsers.company_graph_item.
  unfold bind at 1, lift at 1. simpl. unfold dict_get_default.
  rewrite Ht. reflexivity.
Qed.

(** The profile parser on a graph container: the nodes before the first
    Person node are passed over, the nodes after it are not read. *)
Lemma profile_graph_first_person d pre node post :
  dict_get d "@graph" = Some (PList (pre ++ PDict node :: post)) ->
  Forall (fun x => exists m, x = PDict m /\
                   dict_get_default m "@type" PNone <> PStr "Person") pre ->
  dict_get node "@type" = Some (PStr "Person") ->
  Parsers._parse_profile_json_ld (PDict d) =
  snd (Parsers.profile_graph_item (PDict node) []).
Proof.
  intros Hg Hpre Ht. unfold Parsers._parse_profile_json_ld, run_parser.
  erewrite profile_body_graph by exact Hg.
  rewrite for_each_skip.
  - apply for_each_stops. intros f st' E.
    destruct (profile_item_target_breaks _ _ _ _ E) as [|[-> ->]]; auto.
    rewrite profile_item_person in E by assumption.
    revert E. repeat (apply bind_only_break; intros ? ? ? ?).
    apply ret_break_only.
  - eapply Forall_impl; [|exact Hpre]. intros x (m & -> & Hm) st.
    now apply profile_item_other.
Qed.

Lemma company_graph_first_organization d pre node post :
  dict_get d "@graph" = Some (PList (pre ++ PDict node :: post)) ->
  Forall (fun x => exists m, x = PDict m /\
                   dict_get_default m "@type" PNone <> PStr "Organization")
    pre ->
  dict_get node "@type" = Some (PStr "Organization") ->
  Parsers._parse_company_json_ld (PDict d) =
  snd (Parsers.company_graph_item (PDict node) []).
Proof.
  intros Hg Hpre Ht. unfold Parsers._parse_company_json_ld, run_parser.
  erewrite company_body_graph by exact Hg.
  rewrite for_each_skip.
  - apply for_each_stops. intros f st' E.
    destruct (company_item_target_breaks _ _ _ _ E) as [|[-> ->]]; auto.
    rewrite company_item_organization in E by assumption.
    revert E. repeat (apply bind_only_break; intros ? ? ? ?).
    apply ret_break_only.
  - eapply Forall_impl; [|exact Hpre]. intros x (m & -> & Hm) st.
    now apply company_item_other.
Qed.

Lemma profile_graph_no_person d items :
  dict_get d "@graph" = Some (PList items) ->
  Forall (fun x => forall m, x = PDict m ->
                   dict_get_default m "@type" PNone <> PStr "Person") items ->
  Parsers._parse_profile_json_ld (PDict d) = [].
Proof.
  intros Hg Hall. unfold Parsers._parse_profile_json_ld, run_parser.
  erewrite profile_body_graph by exact Hg. apply for_each_nothing.
  eapply Forall_impl; [|exact Hall]. intros x Hx st.
  destruct x; try (right; eexists; reflexivity).
  left. apply profile_item_other. now apply Hx.
Qed.

Lemma company_graph_no_organization d items :
  dict_get d "@graph" = Some (PList items) ->
  Forall (fun x => forall m, x = PDict m ->
                   dict_get_default m "@type" PNone <> PStr "Organization")
    items ->
  Parsers._parse_company_json_ld (PDict d) = [].
Proof.
  intros Hg Hall. unfold Parsers._parse_company_json_ld, run_parser.
  erewrite company_body_graph by exact Hg. apply for_each_nothing.
  eapply Forall_impl; [|exact Hall]. intros x Hx st.
  destruct x; try (right; eexists; reflexivity).
  left. apply company_item_other. now apply Hx.
Qed.

(** The post parser reads the top-level node only. *)
Lemma post_not_posting d :
  dict_get_default d "@type" PNone <> PStr "DiscussionForumPosting" ->
  Parsers._parse_post_json_ld (PDict d) = [].
Proof.
  intros H. apply py_eq_str_false in H.
  unfold Parsers._parse_post_json_ld, run_parser, Parsers.post_body.
  unfold bind, lift. simpl. rewrite H. reflexivity.
Qed.

(** The newsletter parser reads the top-level node only. *)
Lemma newsletter_not_article d :
  dict_get_default d "@type" PNone <> PStr "Article" ->
  Parsers._parse_newsletter_json_ld (PDict d) = [].
Proof.
  intros H. apply py_eq_str_false in H.
  unfold Parsers._parse_newsletter_json_ld, run_parser,
    Parsers.newsletter_body.
  unfold bind, lift. simpl. rewrite H. reflexivity.
Qed.

(** C6 (amended).  The profile and organization parsers scan a graph
    container for the first node of their target type (Person,
    Organization), parse that node only and ignore the other nodes; with no
    node of the target type they return an empty entity.  The post and
    newsletter parsers have no graph branch: they read the top-level node
    only, and return an empty entity for every tree whose top-level type is
    not theirs, whatever its graph list holds. *)
Theorem C6_graph_container_scan :
  (forall d pre node post,
      dict_get d "@graph" = Some (PList (pre ++ PDict node :: post)) ->
      Forall (fun x => exists m, x = PDict m /\
                dict_get_default m "@type" PNone <> PStr "Person") pre ->
      dict_get node "@type" = Some (PStr "Person") ->
      Parsers._parse_profile_json_ld (PDict d) =
        Parsers._parse_profile_json_ld
          (PDict [("@graph", PList [PDict node])]) /\
      dict_get (Parsers._parse_profile_json_ld (PDict d)) "name" =
        Some (dict_get_default node "name" (PStr ""))) /\
  (forall d pre node post,
      dict_get d "@graph" = Some (PList (pre ++ PDict node :: post)) ->
      Forall (fun x => exists m, x = PDict m /\
                dict_get_default m "@type" PNone <> PStr "Organization")
        pre ->
      dict_get node "@type" = Some (PStr "Organization") ->
      Parsers._parse_company_json_ld (PDict d) =
        Parsers._parse_company_json_ld
          (PDict [("@graph", PList [PDict node])]) /\
      dict_get (Parsers._parse_company_json_ld (PDict d)) "name" =
        Some (dict_get_default node "name" (PStr ""))) /\
  (forall d items,
      dict_get d "@graph" = Some (PList items) ->
      Forall (fun x => forall m, x = PDict m ->
                dict_get_default m "@type" PNone <> PStr "Person") items ->
      Parsers._parse_profile_json_ld (PDict d) = []) /\
  (forall d items,
      dict_get d "@graph" = Some (PList items) ->
      Forall (fun x => forall m, x = PDict m ->
                dict_get_default m "@type" PNone <> PStr "Organization")
        items ->
      Parsers._parse_company_json_ld (PDict d) = []) /\
  (forall d,
      dict_get_default d "@type" PNone <> PStr "DiscussionForumPosting" ->
      Parsers._parse_post_json_ld (PDict d) = []) /\
  (forall d,
      dict_get_default d "@type" PNone <> PStr "Article" ->
      Parsers._parse_newsletter_json_ld (PDict d) = []).
Proof.
  repeat apply conj.
  - intros d pre node post Hg Hpre Ht.
    rewrite (profile_graph_first_person d pre node post Hg Hpre Ht).
    split.
    + symmetry.
      apply (profile_graph_first_person
               [("@graph", PList [PDict node])] [] node []);
        [reflexivity | constructor | assumption].
    + rewrite profile_item_person by assumption.
      rewrite (@bind_snd_get ["location"; "country"; "works_for"; "followers"]).
      * apply person_core_name.
      * intros _. footprint.
      * simpl. intuition discriminate.
  - intros d pre node post Hg Hpre Ht.
    rewrite (company_graph_first_organization d pre node post Hg Hpre Ht).
    split.
    + symmetry.
      apply (company_graph_first_organization
               [("@graph", PList [PDict node])] [] node []);
        [reflexivity | constructor | assumption].
    + rewrite company_item_organization by assumption.
      rewrite (@bind_snd_get ["address"; "employee_count"]).
      * apply company_core_name.
      * intros _. footprint.
      * simpl. intuition discriminate.
  - exact profile_graph_no_person.
  - exact company_graph_no_organization.
  - exact post_not_posting.
  - exact newsletter_not_article.
Qed.

Lemma C6_witness :
  Parsers._parse_profile_json_ld
    (Samples.graph_of [PDict Samples.website_node; PDict Samples.person_node;
                       PDict Samples.organization_node]) =
  Parsers._parse_profile_json_ld
    (PDict [("@graph", PList [PDict Samples.person_node])]) /\
  Parsers._parse_post_json_ld
    (Samples.graph_of [PDict Samples.website_node; PDict Samples.post_node])
  = [].
Proof.
  destruct C6_graph_container_scan as (Hprofile & _ & _ & _ & Hpost & _).
  split.
  - apply (Hprofile _ [PDict Samples.website_node] Samples.person_node
             [PDict Samples.organization_node]).
    + reflexivity.
    + constructor; [|constructor].
      exists Samples.website_node. split; [reflexivity | discriminate].
    + reflexivity.
  - apply Hpost. discriminate.
Defined.

(** The claim as the specification words it fails for the post parser: the
    graph list holds a posting node, which the parser would turn into a
    non-empty entity, and the parser returns the empty entity. *)
Lemma C6_counterexample :
  let tree := Samples.graph_of [PDict Samples.website_node;
                                PDict Samples.post_node] in
  spec_target_node "DiscussionForumPosting" tree
    = Some (PDict Samples.post_node) /\
  dict_get (Parsers._parse_post_json_ld (PDict Samples.post_node)) "headline"
    = Some (PStr "Hello") /\
  Parsers._parse_post_json_ld tree = [].
Proof. vm_compute. repeat split. Qed.

(* ------------------------------------------------------------------ *)
(** ** Faults inside a parser *)

Ltac fault_at_top :=
  unfold Parsers._parse_profile_json_ld, Parsers.profile_body,
    Parsers._parse_company_json_ld, Parsers.company_body,
    Parsers._parse_post_json_ld, Parsers.post_body,
    Parsers._parse_newsletter_json_ld, Parsers.newsletter_body,
    Parsers._parse_generic_json_ld, Parsers.generic_body,
    run_parser, bind, lift, Parsers.copy_field; simpl;
  repeat match goal with
         | |- context [if ?b then _ else _] => destruct b; simpl
         end;
  first [eexists; reflexivity | reflexivity].

(** C5 (amended).  An entity parser always returns: the fault raised inside
    its [try] block is caught and the dictionary built so far is returned.
    When the tree is not a mapping the fault comes before the first
    assignment, so the returned entity is empty; a fault met later leaves
    in the entity the fields assigned before it. *)
Theorem C5_fault_is_caught_at_the_parser_boundary :
  forall v : pyval,
    is_dict v = false ->
    ((exists e, fst (Parsers.profile_body v []) = Raise e) /\
     Parsers._parse_profile_json_ld v = []) /\
    ((exists e, fst (Parsers.company_body v []) = Raise e) /\
     Parsers._parse_company_json_ld v = []) /\
    ((exists e, fst (Parsers.post_body v []) = Raise e) /\
     Parsers._parse_post_json_ld v = []) /\
    ((exists e, fst (Parsers.newsletter_body v []) = Raise e) /\
     Parsers._parse_newsletter_json_ld v = []) /\
    ((exists e, fst (Parsers.generic_body v []) = Raise e) /\
     Parsers._parse_generic_json_ld v = []) /\
    (forall tree e st,
        Parsers.profile_body tree [] = (Raise e, st) ->
        Parsers._parse_profile_json_ld tree = st) /\
    (forall tree e st,
        Parsers.post_body tree [] = (Raise e, st) ->
        Parsers._parse_post_json_ld tree = st).
Proof.
  intros v Hv. repeat apply conj;
    try (intros tree e st H;
         unfold Parsers._parse_profile_json_ld, Parsers._parse_post_json_ld,
           run_parser; now rewrite H);
    destruct v; try discriminate; fault_at_top.
Qed.

Lemma C5_witness :
  Parsers._parse_profile_json_ld (PList [PDict Samples.person_node]) = [] /\
  Parsers._parse_post_json_ld (PStr "DiscussionForumPosting") = [].
Proof.
  split.
  - apply (C5_fault_is_caught_at_the_parser_boundary
             (PList [PDict Samples.person_node])). reflexivity.
  - apply (C5_fault_is_caught_at_the_parser_boundary
             (PStr "DiscussionForumPosting")). reflexivity.
Defined.

(** The entity returned after a fault need not be empty: the profile parser
    faults on the employer entry after the name was assigned, the post
    parser faults on the author image after the headline was assigned. *)
Lemma C5_counterexample :
  let tree := Samples.graph_of [PDict Samples.person_bad_member] in
  fst (Parsers.profile_body tree []) = Raise AttributeError /\
  Parsers._parse_profile_json_ld tree =
    [("name", PStr "J. Doe"); ("job_title", PList []);
     ("description", PStr ""); ("url", PStr "")] /\
  fst (Parsers.post_body (PDict Samples.post_bad_image) []) =
    Raise AttributeError /\
  dict_get (Parsers._parse_post_json_ld (PDict Samples.post_bad_image))
    "headline" = Some (PStr "Hello").
Proof. vm_compute. repeat split. Qed.

(* ------------------------------------------------------------------ *)
(** ** The follower count *)

Lemma interaction_type_is i action :
  py_eq_str (dict_get_default i "interactionType" PNone) action = true <->
  dict_get i "interactionType" = Some (PStr action).
Proof.
  rewrite py_eq_str_true. unfold dict_get_default.
  destruct (dict_get i "interactionType"); split; congruence.
Qed.

(** What [follow_count] leaves under [field], starting from a dictionary
    without that field. *)
Lemma follow_count_get i action field st :
  dict_get st field = None ->
  (dict_get i "interactionType" = Some (PStr action) ->
   dict_get (snd (Parsers.follow_count (PDict i) action field st)) field =
   Some (dict_get_default i "userInteractionCount" (PInt 0))) /\
  (dict_get i "interactionType" <> Some (PStr action) ->
   dict_get (snd (Parsers.follow_count (PDict i) action field st)) field =
   None).
Proof.
  intros Hst. rewrite follow_count_dict.
  destruct (py_eq_str _ action) eqn:E; split; intros H; simpl.
  - apply dict_get_set_same.
  - apply interaction_type_is in E. contradiction.
  - apply interaction_type_is in H. congruence.
  - assumption.
Qed.

Lemma person_followers_dict d i st :
  dict_get d "interactionStatistic" = Some (PDict i) ->
  Parsers.person_followers (PDict d) st =
  Parsers.follow_count (PDict i) Parsers.https_follow "followers" st.
Proof.
  intros H. unfold Parsers.person_followers.
  unfold bind at 1, lift at 1. simpl. unfold dict_mem. rewrite H.
  reflexivity.
Qed.

Lemma profile_direct_followers d i :
  dict_get d "@graph" = None ->
  dict_get d "@type" = Some (PStr "Person") ->
  dict_get d "interactionStatistic" = Some (PDict i) ->
  exists st,
    dict_get st "followers" = None /\
    Parsers._parse_profile_json_ld (PDict d) =
    snd (Parsers.follow_count (PDict i) Parsers.https_follow "followers" st).
Proof.
  intros Hg Ht Hi. unfold Parsers._parse_profile_json_ld, run_parser.
  rewrite profile_body_direct by assumption.
  destruct (person_core_ok d []) as [st Hst]. exists st. split.
  - assert (F : writes_within
                  ["name"; "job_title"; "description"; "url"; "image_url"]
                  (Parsers.person_core (PDict d))) by footprint.
    specialize (F [] "followers"). rewrite Hst in F. simpl in F.
    apply F. intuition discriminate.
  - erewrite bind_ok by exact Hst. f_equal. now apply person_followers_dict.
Qed.

(** The author block of a posting whose author image, if any, is a
    mapping. *)
Lemma post_author_followers d a i st :
  dict_get d "author" = Some (PDict a) ->
  (dict_get a "image" = None \/ exists m, dict_get a "image" = Some (PDict m)) ->
  dict_get a "interactionStatistic" = Some (PDict i) ->
  exists v,
    Parsers.post_author (PDict d) st =
    Parsers.follow_count (PDict i) Parsers.http_follow "author_followers"
      (dict_set st "author" v).
Proof.
  intros Ha Himg Hi. unfold Parsers.post_author.
  rewrite when_typed_dict, Ha. simpl.
  unfold bind at 1, lift at 1. unfold bind at 1, lift at 1.
  unfold bind at 1, lift at 1. simpl. unfold dict_mem.
  destruct Himg as [Himg|[m Himg]].
  - rewrite Himg. unfold bind, ret, set_field. simpl.
    eexists. rewrite when_typed_dict, Hi. reflexivity.
  - assert (E : dict_get_default a "image" (PDict []) = PDict m)
      by (unfold dict_get_default; now rewrite Himg).
    rewrite Himg, E. unfold bind, lift, set_field. simpl.
    eexists. rewrite when_typed_dict, Hi. reflexivity.
Qed.

Lemma post_followers d a i :
  dict_get d "@type" = Some (PStr "DiscussionForumPosting") ->
  dict_get d "author" = Some (PDict a) ->
  (dict_get a "image" = None \/ exists m, dict_get a "image" = Some (PDict m)) ->
  dict_get a "interactionStatistic" = Some (PDict i) ->
  exists st,
    dict_get st "author_followers" = None /\
    dict_get (Parsers._parse_post_json_ld (PDict d)) "author_followers" =
    dict_get (snd (Parsers.follow_count (PDict i) Parsers.http_follow
                     "author_followers" st)) "author_followers".
Proof.
  intros Ht Ha Himg Hi.
  unfold Parsers._parse_post_json_ld, run_parser, Parsers.post_body.
  unfold bind at 1, lift at 1. simpl. unfold dict_get_default at 1.
  rewrite Ht. simpl.
  rewrite (@bind_snd_get []);
    [| intros _; footprint | simpl; tauto].
  repeat (erewrite bind_ok; [|apply copy_field_dict]).
  rewrite (@bind_snd_get ["comments"; "likes"; "comments_count"]);
    [| intros _; footprint | simpl; intuition discriminate].
  match goal with
  | |- context [Parsers.post_author (PDict d) ?s] =>
      destruct (post_author_followers d a i s Ha Himg Hi) as [v Hv];
      rewrite Hv; exists (dict_set s "author" v)
  end.
  split; reflexivity.
Qed.

Lemma newsletter_author_followers d a i st :
  dict_get d "author" = Some (PDict a) ->
  dict_get a "interactionStatistic" = Some (PDict i) ->
  exists v,
    Parsers.newsletter_author (PDict d) st =
    Parsers.follow_count (PDict i) Parsers.https_follow "author_followers"
      (dict_set st "author" v).
Proof.
  intros Ha Hi. unfold Parsers.newsletter_author.
  rewrite when_typed_dict, Ha. simpl.
  unfold bind, lift, set_field. simpl.
  eexists. rewrite when_typed_dict, Hi. reflexivity.
Qed.

Lemma newsletter_followers d a i :
  dict_get d "@type" = Some (PStr "Article") ->
  dict_get d "author" = Some (PDict a) ->
  dict_get a "interactionStatistic" = Some (PDict i) ->
  exists st,
    dict_get st "author_followers" = None /\
    dict_get (Parsers._parse_newsletter_json_ld (PDict d)) "author_followers" =
    dict_get (snd (Parsers.follow_count (PDict i) Parsers.https_follow
                     "author_followers" st)) "author_followers".
Proof.
  intros Ht Ha Hi.
  unfold Parsers._parse_newsletter_json_ld, run_parser,
    Parsers.newsletter_body.
  unfold bind at 1, lift at 1. simpl. unfold dict_get_default at 1.
  rewrite Ht. simpl.
  repeat (erewrite bind_ok; [|apply copy_field_dict]).
  match goal with
  | |- context [bind (Parsers.when_typed (PDict d) "image" ?T ?k) ?rest ?s] =>
      assert (Himage : exists s',
                 Parsers.when_typed (PDict d) "image" T k s = (Ok tt, s') /\
                 dict_get s' "author_followers" = None)
  end.
  { rewrite when_typed_dict.
    destruct (dict_get d "image") as [[]|]; simpl; eexists;
      (split; [reflexivity | reflexivity]). }
  destruct Himage as (s' & Hs' & Hnone).
  erewrite bind_ok by exact Hs'.
  rewrite (@bind_snd_get ["likes"; "comments_count"]);
    [| intros _; footprint | simpl; intuition discriminate].
  destruct (newsletter_author_followers d a i s' Ha Hi) as [v Hv].
  rewrite Hv. exists (dict_set s' "author" v). split; [|reflexivity].
  rewrite dict_get_set_other by discriminate. exact Hnone.
Qed.

Lemma location_and_work_ok node st :
  dict_get node "worksFor" = None ->
  exists st',
    Parsers.person_location_and_work (PDict node) st = (Ok tt, st') /\
    dict_get st' "followers" = dict_get st "followers".
Proof.
  intros Hw. unfold Parsers.person_location_and_work.
  assert (Ha : exists s,
             Parsers.when_typed (PDict node) "address" is_dict
               (fun address =>
                  Parsers.copy_field address "addressLocality" (PStr "")
                    "location" ;;
                  Parsers.copy_field address "addressCountry" (PStr "")
                    "country") st = (Ok tt, s) /\
             dict_get s "followers" = dict_get st "followers").
  { rewrite when_typed_dict.
    destruct (dict_get node "address") as [[]|]; simpl; eexists;
      (split; [reflexivity|]); auto.
    now rewrite !dict_get_set_other by discriminate. }
  destruct Ha as (s & Hs & Hf).
  erewrite bind_ok by exact Hs.
  rewrite when_typed_dict, Hw. eauto.
Qed.

Lemma profile_graph_followers d post node i :
  dict_get d "@graph" = Some (PList (PDict node :: post)) ->
  dict_get node "@type" = Some (PStr "Person") ->
  dict_get node "worksFor" = None ->
  dict_get node "interactionStatistic" = Some (PDict i) ->
  exists st,
    dict_get st "followers" = None /\
    dict_get (Parsers._parse_profile_json_ld (PDict d)) "followers" =
    dict_get (snd (Parsers.follow_count (PDict i) Parsers.https_follow
                     "followers" st)) "followers".
Proof.
  intros Hg Ht Hw Hi.
  rewrite (profile_graph_first_person d [] node post Hg (Forall_nil _) Ht).
  rewrite profile_item_person by assumption.
  destruct (person_core_ok node []) as [s1 Hs1].
  assert (Hf1 : dict_get s1 "followers" = None).
  { assert (F : writes_within
                  ["name"; "job_title"; "description"; "url"; "image_url"]
                  (Parsers.person_core (PDict node))) by footprint.
    specialize (F [] "followers"). rewrite Hs1 in F. simpl in F.
    apply F. intuition discriminate. }
  destruct (location_and_work_ok node s1 Hw) as (s2 & Hs2 & Hf2).
  erewrite bind_ok by exact Hs1.
  erewrite bind_ok by exact Hs2.
  rewrite (@bind_snd_get []); [| intros _; footprint | simpl; tauto].
  erewrite person_followers_dict by exact Hi.
  exists s2. split; [congruence | reflexivity].
Qed.

(** No site accepts both schemes: the profile parser and the newsletter
    parser ignore the [http] form, the post parser ignores the [https]
    form; and a different capitalisation is ignored as well. *)
Lemma C4_counterexample :
  dict_get (Parsers._parse_profile_json_ld
              (PDict (Samples.person_with_follow Parsers.http_follow)))
    "followers" = None /\
  dict_get (Parsers._parse_profile_json_ld
              (PDict (Samples.person_with_follow Parsers.https_follow)))
    "followers" = Some (PInt 10) /\
  dict_get (Parsers._parse_post_json_ld
              (PDict (Samples.post_with_follow Parsers.https_follow)))
    "author_followers" = None /\
  dict_get (Parsers._parse_post_json_ld
              (PDict (Samples.post_with_follow Parsers.http_follow)))
    "author_followers" = Some (PInt 7) /\
  dict_get (Parsers._parse_newsletter_json_ld
              (PDict (Samples.article_with_follow Parsers.http_follow)))
    "author_followers" = None /\
  dict_get (Parsers._parse_profile_json_ld
              (PDict (Samples.person_with_follow
                        "https://schema.org/followaction")))
    "followers" = None.
Proof. vm_compute. repeat split. Qed.

(* ------------------------------------------------------------------ *)
(** ** The scan of the linked-data candidates *)

Section Scan.

Variable json_loads : string -> loads_result.

Lemma load_script_skip s :
  load_script json_loads s = Skip <->
  (script_string s = None \/ script_string s = Some "" \/
   exists text, script_string s = Some text /\ json_loads text = DecodeError).
Proof.
  unfold load_script, str_nonempty. destruct (script_string s) as [t|].
  - destruct (String.eqb_spec t "") as [->|Hne]; simpl.
    + split; auto.
    + destruct (json_loads t) eqn:E; split; try discriminate; eauto.
      * intros [H|[H|(text & [= <-] & H)]]; congruence.
      * intros [H|[H|(text & [= <-] & H)]]; congruence.
  - split; auto.
Qed.

Lemma load_script_use s j :
  load_script json_loads s = Use j <->
  exists text,
    script_string s = Some text /\ text <> "" /\ json_loads text = Decoded j.
Proof.
  unfold load_script, str_nonempty. destruct (script_string s) as [t|].
  - destruct (String.eqb_spec t "") as [->|Hne]; simpl.
    + split; [discriminate|]. intros (text & [= <-] & H & _). congruence.
    + destruct (json_loads t) eqn:E; split; try discriminate.
      * intros [= <-]. eauto.
      * intros (text & [= <-] & _ & H). congruence.
      * intros (text & [= <-] & _ & H). congruence.
      * intros (text & [= <-] & _ & H). congruence.
  - split; [discriminate|]. intros (text & H & _). discriminate.
Qed.

Lemma load_script_abandon s :
  load_script json_loads s = Abandon <->
  exists text,
    script_string s = Some text /\ text <> "" /\ json_loads text = OtherError.
Proof.
  unfold load_script, str_nonempty. destruct (script_string s) as [t|].
  - destruct (String.eqb_spec t "") as [->|Hne]; simpl.
    + split; [discriminate|]. intros (text & [= <-] & H & _). congruence.
    + destruct (json_loads t) eqn:E; split; try discriminate; eauto.
      * intros (text & [= <-] & _ & H). congruence.
      * intros (text & [= <-] & _ & H). congruence.
  - split; [discriminate|]. intros (text & H & _). discriminate.
Qed.

Lemma scan_scripts_skip url_type skipped l :
  Forall (fun s => load_script json_loads s = Skip) skipped ->
  scan_scripts json_loads url_type (skipped ++ l) =
  scan_scripts json_loads url_type l.
Proof.
  induction 1 as [|s skipped Hs _ IH]; simpl; auto.
  now rewrite Hs.
Qed.

(** A scan in which no candidate parses returns the initial record, whether
    it runs to the end or is abandoned. *)
Lemma scan_scripts_none url_type scripts :
  Forall (fun s => forall j, load_script json_loads s <> Use j) scripts ->
  scan_scripts json_loads url_type scripts = no_json_ld.
Proof.
  induction 1 as [|s scripts Hs _ IH]; simpl; auto.
  destruct (load_script json_loads s) as [j| |]; auto.
  exfalso. now apply (Hs j).
Qed.

End Scan.

(** C2 (amended).  The extractor consults at most one candidate and never
    raises.  A candidate without text, with an empty text or with a text on
    which the JSON parser raises its decode error is skipped and the scan
    goes on.  The first candidate whose text parses is used, whether or not
    the entity parsed from it is empty, and the candidates after it are
    ignored.  A candidate on which the JSON parser raises any other
    exception ends the scan: the extractor returns [found = false] and the
    candidates after it are not read.  When every candidate is skipped the
    extractor returns [found = false]. *)
Theorem C2_first_parsed_candidate_is_used :
  forall (json_loads : string -> loads_result) (url_type : string)
         (html : html_doc),
    (forall skipped script rest json_data,
        ld_scripts html = skipped ++ script :: rest ->
        Forall (fun s => load_script json_loads s = Skip) skipped ->
        load_script json_loads script = Use json_data ->
        _extract_json_ld_data json_loads html url_type =
        {| found := true;
           raw_json := Some json_data;
           parsed_data := fst (parse_by_url_type url_type json_data);
           data_type := Some (snd (parse_by_url_type url_type json_data)) |})
    /\
    (forall skipped script rest,
        ld_scripts html = skipped ++ script :: rest ->
        Forall (fun s => load_script json_loads s = Skip) skipped ->
        load_script json_loads script = Abandon ->
        _extract_json_ld_data json_loads html url_type = no_json_ld) /\
    (Forall (fun s => load_script json_loads s = Skip) (ld_scripts html) ->
     _extract_json_ld_data json_loads html url_type = no_json_ld) /\
    (forall s,
        load_script json_loads s = Skip <->
        (script_string s = None \/ script_string s = Some "" \/
         exists text,
           script_string s = Some text /\ json_loads text = DecodeError)) /\
    (forall s j,
        load_script json_loads s = Use j <->
        exists text,
          script_string s = Some text /\ text <> "" /\
          json_loads text = Decoded j) /\
    (forall s,
        load_script json_loads s = Abandon <->
        exists text,
          script_string s = Some text /\ text <> "" /\
          json_loads text = OtherError).
Proof.
  intros json_loads url_type html. repeat apply conj.
  - intros skipped script rest json_data Hl Hskip Hload.
    unfold _extract_json_ld_data. rewrite Hl.
    rewrite scan_scripts_skip by assumption. simpl. rewrite Hload.
    destruct (parse_by_url_type url_type json_data). reflexivity.
  - intros skipped script rest Hl Hskip Hload.
    unfold _extract_json_ld_data. rewrite Hl.
    rewrite scan_scripts_skip by assumption. simpl. now rewrite Hload.
  - intros Hall. unfold _extract_json_ld_data.
    rewrite <- (app_nil_r (ld_scripts html)).
    now rewrite scan_scripts_skip.
  - apply load_script_skip.
  - apply load_script_use.
  - apply load_script_abandon.
Qed.

Lemma C2_witness :
  _extract_json_ld_data Demo.loads Demo.malformed_then_person "profile" =
  {| found := true;
     raw_json := Some Demo.person_tree;
     parsed_data :=
       fst (parse_by_url_type "profile" Demo.person_tree);
     data_type :=
       Some (snd (parse_by_url_type "profile" Demo.person_tree)) |}.
Proof.
  apply (C2_first_parsed_candidate_is_used Demo.loads "profile"
           Demo.malformed_then_person)
    with (skipped := [Demo.script "{"; {| script_string := None |}])
         (script := Demo.script Demo.person_text)
         (rest := [Demo.script "{}"]).
  - reflexivity.
  - repeat constructor.
  - reflexivity.
Defined.

(** The first candidate parses to the empty object and gives an empty
    entity; the block the specification designates is the second candidate,
    the one the extractor never reads. *)
Lemma C2_counterexample :
  let scripts := ld_scripts Demo.empty_then_person in
  let r := _extract_json_ld_data Demo.loads Demo.empty_then_person
             "profile" in
  spec_selected_block Demo.loads "profile" scripts = Some Demo.person_tree /\
  found r = true /\
  raw_json r = Some (PDict []) /\
  parsed_data r = [] /\
  raw_json r <> spec_selected_block Demo.loads "profile" scripts.
Proof. vm_compute. repeat split. discriminate. Qed.

(** A candidate that fails to parse with an exception other than the
    decode error is not skipped: the Person block after it is the one the
    specification designates, and the extractor returns the initial
    record. *)
Example abandoned_scan_ignores_later_candidates :
  spec_selected_block Demo.loads "profile"
    (ld_scripts Demo.nested_then_person) = Some Demo.person_tree /\
  _extract_json_ld_data Demo.loads Demo.nested_then_person "profile"
    = no_json_ld.
Proof. vm_compute. split; reflexivity. Qed.

(* ------------------------------------------------------------------ *)
(** ** The success flag *)

(** C3.  A request that reaches the reconcile stage is marked successful
    exactly when structured data was found; what the reconciler put in the
    combined record plays no part.  The landing page of a newsletter shows
    it: no linked-data block, a combined record with a name and an
    identifier, and a request marked unsuccessful. *)
Theorem C3_success_iff_structured_data_found :
  forall (json_loads : string -> loads_result) (url : string) (p : page),
    (exists d,
        extract_linkedin_data json_loads url (Loaded p) = Extracted d /\
        r_json_ld_data d =
          _extract_json_ld_data json_loads (html_content p)
            (detected_url_type p) /\
        combined_data d =
          _combine_data_sources (r_json_ld_data d) (r_meta_data d)
            (detected_url_type p) (page_url p) /\
        (extraction_success d = true <-> found (r_json_ld_data d) = true)) /\
    (exists d,
        extract_linkedin_data json_loads url (Loaded Demo.newsletter_page)
          = Extracted d /\
        extraction_success d = false /\
        dict_get (combined_data d) "name" = Some (PStr "AI Insider") /\
        dict_get (combined_data d) "username" = Some (PStr "ai-insider-7")).
Proof.
  intros json_loads url p. split.
  - eexists. split; [reflexivity|]. simpl. repeat split; auto.
  - eexists. split; [reflexivity|]. vm_compute. repeat split.
Qed.

(* ------------------------------------------------------------------ *)
(** ** The three buckets of head metadata *)

Lemma str_nonempty_true s : str_nonempty s = true <-> s <> "".
Proof.
  unfold str_nonempty. destruct (String.eqb_spec s ""); simpl; split;
    congruence.
Qed.

Lemma classify_meta_cases md t :
  (exists n c, stores t n c /\
     bucket (bucket_of_name n) (classify_meta md t) =
       dict_set (bucket (bucket_of_name n) md) n c /\
     forall w, w <> bucket_of_name n ->
       bucket w (classify_meta md t) = bucket w md) \/
  ((forall n c, ~ stores t n c) /\ classify_meta md t = md).
Proof.
  unfold classify_meta, stores.
  destruct (meta_key t) as [n|];
    [|right; split; [intros n c (H & _); discriminate | reflexivity]].
  destruct (attr_content t) as [c|];
    [|right; split; [intros n' c (_ & H & _); discriminate | reflexivity]].
  destruct (str_nonempty n) eqn:En; cbn [andb];
    [|right; split; [|reflexivity];
      intros n' c' ([= <-] & _ & Hn & _);
      apply str_nonempty_true in Hn; congruence].
  destruct (str_nonempty c) eqn:Ec; cbn [andb];
    [|right; split; [|reflexivity];
      intros n' c' (_ & [= <-] & _ & Hc);
      apply str_nonempty_true in Hc; congruence].
  apply str_nonempty_true in En, Ec.
  left. exists n, c. split; [auto|].
  unfold bucket_of_name.
  destruct (startswith "og:" n); [|destruct (startswith "twitter:" n)];
    (split; [reflexivity | intros [] Hw; simpl; congruence]).
Qed.

Lemma bucket_name_eq_dec (a b : bucket_name) : {a = b} + {a <> b}.
Proof. decide equality. Qed.

Lemma classify_get_keep md t w n :
  (forall c, ~ stores t n c) ->
  dict_get (bucket w (classify_meta md t)) n = dict_get (bucket w md) n.
Proof.
  intros Hn.
  destruct (classify_meta_cases md t) as [(k & c & Hs & Hsame & Hother)|[_ ->]];
    [|reflexivity].
  destruct (bucket_name_eq_dec w (bucket_of_name k)) as [->|Hw].
  - rewrite Hsame. apply dict_get_set_other. intros ->. exact (Hn c Hs).
  - now rewrite Hother.
Qed.

Lemma classify_get_new md t n c :
  stores t n c ->
  dict_get (bucket (bucket_of_name n) (classify_meta md t)) n = Some c.
Proof.
  intros Hs.
  destruct (classify_meta_cases md t) as [(k & c' & Hs' & Hsame & _)|[Hno _]].
  - destruct Hs as (H1 & H2 & _), Hs' as (H1' & H2' & _).
    assert (k = n) by congruence. assert (c' = c) by congruence. subst.
    rewrite Hsame. apply dict_get_set_same.
  - exfalso. exact (Hno n c Hs).
Qed.

Lemma classify_get_origin md t w n c :
  dict_get (bucket w (classify_meta md t)) n = Some c ->
  (stores t n c /\ w = bucket_of_name n) \/
  dict_get (bucket w md) n = Some c.
Proof.
  destruct (classify_meta_cases md t) as [(k & c' & Hs & Hsame & Hother)|[_ ->]];
    [|auto].
  destruct (bucket_name_eq_dec w (bucket_of_name k)) as [->|Hw].
  - rewrite Hsame. destruct (string_dec n k) as [->|Hne].
    + rewrite dict_get_set_same. intros [= <-]. auto.
    + rewrite dict_get_set_other by assumption. auto.
  - rewrite Hother by assumption. auto.
Qed.

Lemma fold_classify_keep post md w n :
  Forall (fun t => forall c, ~ stores t n c) post ->
  dict_get (bucket w (fold_left classify_meta post md)) n =
  dict_get (bucket w md) n.
Proof.
  intros H. revert md. induction H as [|t post Ht _ IH]; intros md; simpl; auto.
  rewrite IH. now apply classify_get_keep.
Qed.

Lemma fold_classify_origin tags md w n c :
  dict_get (bucket w (fold_left classify_meta tags md)) n = Some c ->
  (exists t, In t tags /\ stores t n c /\ w = bucket_of_name n) \/
  dict_get (bucket w md) n = Some c.
Proof.
  revert md. induction tags as [|t tags IH]; intros md; simpl; auto.
  intros H. apply IH in H. destruct H as [(t' & Hin & Hs)|H].
  - left. exists t'. split; [right; exact Hin | exact Hs].
  - apply classify_get_origin in H. destruct H as [[Hs Hw]|H].
    + left. exists t. split; [left; reflexivity | split; assumption].
    + right. exact H.
Qed.

Lemma bucket_extract w html :
  bucket w (_extract_meta_data html) =
  bucket w (fold_left classify_meta (meta_tags html) empty_meta_data).
Proof. destruct w; reflexivity. Qed.

(** C9 (amended).  An element whose name (or, failing that, property) and
    whose content are both present and non-empty is stored in the bucket
    its name prefix selects, open-graph for [og:], twitter for [twitter:],
    other otherwise, a later element of the same name replacing an earlier
    one.  Every entry of a bucket comes from such an element and sits in the
    bucket of its prefix: an element with a missing or an empty name or
    content is skipped. *)
Theorem C9_meta_classification :
  forall html : html_doc,
    let md := _extract_meta_data html in
    (forall before tag after name content,
        meta_tags html = before ++ tag :: after ->
        stores tag name content ->
        Forall (fun t => forall c, ~ stores t name c) after ->
        dict_get (bucket (bucket_of_name name) md) name = Some content) /\
    (forall w name content,
        dict_get (bucket w md) name = Some content ->
        w = bucket_of_name name /\
        exists tag, In tag (meta_tags html) /\ stores tag name content).
Proof.
  intros html md. subst md. split.
  - intros before tag after name content Htags Hs Hafter.
    rewrite bucket_extract, Htags, fold_left_app. simpl.
    rewrite fold_classify_keep by assumption.
    now apply classify_get_new.
  - intros w name content H. rewrite bucket_extract in H.
    apply fold_classify_origin in H.
    destruct H as [(t & Hin & Hs & Hw)|H].
    + split; eauto.
    + destruct w; discriminate.
Qed.

Lemma C9_witness :
  dict_get (open_graph (_extract_meta_data Demo.newsletter_landing))
    "og:title" = Some "AI Insider | LinkedIn".
Proof.
  destruct (C9_meta_classification Demo.newsletter_landing) as [Hstored _].
  apply (Hstored []
           (Demo.og "og:title" "AI Insider | LinkedIn")
           [Demo.og "og:description" "Weekly notes";
            Demo.og "og:url"
              "https://www.linkedin.com/newsletters/ai-insider-7";
            Demo.meta "description" "Weekly notes on AI"]
           "og:title" "AI Insider | LinkedIn").
  - reflexivity.
  - repeat split; discriminate.
  - repeat constructor; intros c (H & _); discriminate.
Defined.

(** An element that has a name/content pair with an empty content is
    dropped. *)
Lemma C9_counterexample :
  let tag := Demo.og "og:title" "" in
  meta_tags Demo.empty_og_title = [tag] /\
  meta_key tag = Some "og:title" /\
  attr_content tag = Some "" /\
  open_graph (_extract_meta_data Demo.empty_og_title) = [] /\
  twitter (_extract_meta_data Demo.empty_og_title) = [] /\
  other_meta (_extract_meta_data Demo.empty_og_title) = [].
Proof. vm_compute. repeat split. Qed.

(* ------------------------------------------------------------------ *)
(** ** The reconciler, step by step *)

Lemma supplement_get_other md c k :
  ~ In k supplementary_keys ->
  dict_get (supplement md c) k = dict_get c k.
Proof.
  intros Hk. unfold supplement.
  assert (Hne : forall k', In k' supplementary_keys -> k <> k')
    by (intros k' Hin ->; contradiction).
  destruct (dict_nonempty (open_graph md)), (dict_nonempty (twitter md));
    repeat (rewrite dict_get_set_other; [|apply Hne; simpl; tauto]);
    reflexivity.
Qed.

Lemma supplement_page_fields md c :
  dict_get (supplement md c) "page_title" = Some (PStr (title md)) /\
  dict_get (supplement md c) "page_description"
    = Some (PStr (description md)).
Proof.
  unfold supplement. split.
  - rewrite dict_get_set_other by discriminate. apply dict_get_set_same.
  - apply dict_get_set_same.
Qed.

Lemma supplement_og_fields md c :
  open_graph md <> [] ->
  dict_get (supplement md c) "og_title"
    = Some (bucket_get (open_graph md) "og:title") /\
  dict_get (supplement md c) "og_description"
    = Some (bucket_get (open_graph md) "og:description").
Proof.
  intros Hog. unfold supplement.
  destruct (open_graph md) as [|e og] eqn:E; [congruence|]. simpl dict_nonempty.
  cbv iota.
  split; destruct (dict_nonempty (twitter md));
    repeat (rewrite dict_get_set_other by discriminate);
    apply dict_get_set_same.
Qed.

Lemma fallback_off jl md url_type c :
  ~ (url_type = "newsletter" /\ found jl = false /\ open_graph md <> []) ->
  newsletter_fallback jl md url_type c = c.
Proof.
  intros H. unfold newsletter_fallback.
  destruct (String.eqb_spec url_type "newsletter") as [->|]; simpl; auto.
  destruct (found jl); simpl; auto.
  destruct (open_graph md); simpl; auto.
  exfalso. apply H. repeat split. discriminate.
Qed.

Lemma fallback_on jl md c :
  found jl = false -> open_graph md <> [] ->
  newsletter_fallback jl md "newsletter" c =
  dict_set
    (dict_set
       (dict_set
          (dict_set
             (dict_set
                (dict_set c "name"
                   (PStr (newsletter_name
                            (dict_get_default (open_graph md) "og:title" ""))))
                "description" (bucket_get (open_graph md) "og:description"))
             "image_url" (bucket_get (open_graph md) "og:image"))
          "url" (bucket_get (open_graph md) "og:url"))
       "author" na_author)
    "date_published" (PStr "N/A").
Proof.
  intros Hf Hog. unfold newsletter_fallback. rewrite Hf. simpl.
  destruct (open_graph md); [congruence | reflexivity].
Qed.

Lemma set_username_get_other lit page_url c k :
  k <> "username" ->
  dict_get (set_username_from lit page_url c) k = dict_get c k.
Proof.
  intros Hk. unfold set_username_from.
  destruct (re_search_segment lit page_url); auto.
  now apply dict_get_set_other.
Qed.

Lemma backfill_get_other url_type page_url c k :
  k <> "username" ->
  dict_get (backfill_username url_type page_url c) k = dict_get c k.
Proof.
  intros Hk. unfold backfill_username.
  repeat match goal with
         | |- context [if ?b then _ else _] => destruct b
         end; auto using set_username_get_other.
Qed.

Lemma backfill_has_username url_type page_url c :
  lacks_username c = false -> backfill_username url_type page_url c = c.
Proof.
  intros H. unfold backfill_username. rewrite H.
  now rewrite !andb_false_r.
Qed.

Lemma backfill_by_pattern url_type lit page_url c :
  In (url_type, lit) username_patterns ->
  lacks_username c = true ->
  backfill_username url_type page_url c = set_username_from lit page_url c.
Proof.
  intros Hin Hl. unfold backfill_username. rewrite Hl.
  simpl in Hin. destruct Hin as [[= <- <-]|[[= <- <-]|[[= <- <-]|[]]]];
    reflexivity.
Qed.

Lemma backfill_no_rule url_type page_url c :
  url_type <> "profile" -> url_type <> "company" ->
  url_type <> "newsletter" ->
  backfill_username url_type page_url c = c.
Proof.
  intros H1 H2 H3. unfold backfill_username.
  destruct (String.eqb_spec url_type "profile"); [contradiction|].
  destruct (String.eqb_spec url_type "company"); [contradiction|].
  destruct (String.eqb_spec url_type "newsletter"); [contradiction|].
  reflexivity.
Qed.

(* ------------------------------------------------------------------ *)
(** ** The newsletter fallback *)

Lemma str_contains_sep_app sep a b :
  str_contains (String sep EmptyString) (a ++ String sep b)%string = true.
Proof.
  induction a as [|c a IH]; simpl.
  - now rewrite Ascii.eqb_refl.
  - rewrite IH. apply orb_true_r.
Qed.

Lemma newsletter_name_split a b :
  str_contains "|" a = false ->
  newsletter_name (a ++ String "|" b)%string = strip a.
Proof.
  intros Ha. unfold newsletter_name.
  rewrite str_contains_sep_app, andb_true_r.
  assert (E : str_nonempty (a ++ String "|" b)%string = true)
    by (apply str_nonempty_true; destruct a; discriminate).
  rewrite E. now rewrite split_first_app.
Qed.

Lemma newsletter_name_whole t :
  str_contains "|" t = false -> newsletter_name t = t.
Proof.
  intros Ht. unfold newsletter_name. now rewrite Ht, andb_false_r.
Qed.

Lemma fallback_keys_not_username k : In k fallback_keys -> k <> "username".
Proof. simpl. intuition (subst; discriminate). Qed.

Lemma fallback_keys_not_supplementary k :
  In k fallback_keys -> ~ In k supplementary_keys.
Proof. simpl. intuition (subst; discriminate). Qed.

(** C7 (amended).  The newsletter fallback synthesizes the primary fields
    exactly when the URL type is newsletter, no structured data was found
    and the open-graph bucket is not empty.  It then sets [name] to the
    first [|]-separated segment of [og:title], stripped, or to the whole
    title when there is no separator; [description], [image_url] and [url]
    to the [og:description], [og:image] and [og:url] values; [author] to
    [{name: N/A, url: N/A}] and [date_published] to [N/A].  In every other
    case the step changes nothing: without structured data the six fields
    are absent, with structured data they are the entity's own. *)
Theorem C7_newsletter_fallback :
  forall (jl : json_ld_data) (md : meta_data) (url_type page_url : string),
    let c := _combine_data_sources jl md url_type page_url in
    let og := open_graph md in
    (url_type = "newsletter" -> found jl = false -> og <> [] ->
     dict_get c "name" =
       Some (PStr (newsletter_name (dict_get_default og "og:title" ""))) /\
     dict_get c "description" = Some (bucket_get og "og:description") /\
     dict_get c "image_url" = Some (bucket_get og "og:image") /\
     dict_get c "url" = Some (bucket_get og "og:url") /\
     dict_get c "author" = Some na_author /\
     dict_get c "date_published" = Some (PStr "N/A")) /\
    (~ (url_type = "newsletter" /\ found jl = false /\ og <> []) ->
     c = backfill_username url_type page_url (supplement md (seed jl))) /\
    (found jl = false -> ~ (url_type = "newsletter" /\ og <> []) ->
     forall k, In k fallback_keys -> dict_get c k = None) /\
    (found jl = true ->
     forall k, In k fallback_keys -> dict_get c k = dict_get (seed jl) k) /\
    (forall a b, str_contains "|" a = false ->
                 newsletter_name (a ++ String "|" b)%string = strip a) /\
    (forall t, str_contains "|" t = false -> newsletter_name t = t).
Proof.
  intros jl md url_type page_url c og. subst c og.
  unfold _combine_data_sources. repeat apply conj.
  - intros -> Hf Hog. rewrite fallback_on by assumption.
    repeat split; rewrite backfill_get_other by discriminate;
      repeat (rewrite dict_get_set_other by discriminate);
      apply dict_get_set_same.
  - intros H. now rewrite fallback_off.
  - intros Hf Hno k Hk. rewrite fallback_off by tauto.
    rewrite backfill_get_other by now apply fallback_keys_not_username.
    rewrite supplement_get_other by now apply fallback_keys_not_supplementary.
    unfold seed. now rewrite Hf.
  - intros Hf k Hk.
    rewrite fallback_off by (intros (_ & H & _); congruence).
    rewrite backfill_get_other by now apply fallback_keys_not_username.
    now rewrite supplement_get_other
      by now apply fallback_keys_not_supplementary.
  - exact newsletter_name_split.
  - exact newsletter_name_whole.
Qed.

Lemma C7_witness :
  dict_get (_combine_data_sources no_json_ld
              (_extract_meta_data Demo.newsletter_landing) "newsletter"
              "https://www.linkedin.com/newsletters/ai-insider-7") "name"
  = Some (PStr "AI Insider") /\
  dict_get (_combine_data_sources no_json_ld
              (_extract_meta_data Demo.newsletter_landing) "newsletter"
              "https://www.linkedin.com/newsletters/ai-insider-7") "author"
  = Some na_author.
Proof.
  destruct (C7_newsletter_fallback no_json_ld
              (_extract_meta_data Demo.newsletter_landing) "newsletter"
              "https://www.linkedin.com/newsletters/ai-insider-7")
    as (Hfires & _).
  destruct Hfires as (Hname & _ & _ & _ & Hauthor & _);
    [reflexivity | reflexivity | discriminate |].
  split; [exact Hname | exact Hauthor].
Defined.

(** A newsletter page without structured data and without any open-graph
    element: the claim has the fallback fire, and no field is synthesized. *)
Lemma C7_counterexample :
  let md := _extract_meta_data Demo.empty_og_title in
  let c := _combine_data_sources no_json_ld md "newsletter"
             "https://www.linkedin.com/newsletters/ai-insider-7" in
  found no_json_ld = false /\
  dict_get c "name" = None /\
  dict_get c "author" = None /\
  dict_get c "date_published" = None /\
  c = [("page_title", PStr ""); ("page_description", PStr "");
       ("username", PStr "ai-insider-7")].
Proof. vm_compute. repeat split. Qed.

(* ------------------------------------------------------------------ *)
(** ** What the pipeline hands to the reconciler *)

Lemma parse_by_url_type_keys url_type json_data k :
  In k (dict_keys (fst (parse_by_url_type url_type json_data))) ->
  In k entity_keys.
Proof.
  unfold parse_by_url_type.
  repeat match goal with
         | |- context [if ?b then _ else _] => destruct b
         end; simpl fst; intros H.
  - apply (ww_keys _ _ _ (profile_footprint json_data)) in H.
    simpl in *. intuition.
  - apply (ww_keys _ _ _ (company_footprint json_data)) in H.
    simpl in *. intuition.
  - apply (ww_keys _ _ _ (post_footprint json_data)) in H.
    simpl in *. intuition.
  - apply (ww_keys _ _ _ (newsletter_footprint json_data)) in H.
    simpl in *. intuition.
  - apply (ww_keys _ _ _ (generic_footprint json_data)) in H.
    simpl in *. intuition.
Qed.

Lemma scan_scripts_keys json_loads url_type scripts k :
  In k (dict_keys (parsed_data (scan_scripts json_loads url_type scripts))) ->
  In k entity_keys.
Proof.
  induction scripts as [|s r IH]; simpl.
  - intros [].
  - destruct (load_script json_loads s) as [j| |]; auto.
    + pose proof (parse_by_url_type_keys url_type j k) as H.
      destruct (parse_by_url_type url_type j). exact H.
    + intros [].
Qed.

Lemma seed_keys json_loads html url_type k :
  In k (dict_keys (seed (_extract_json_ld_data json_loads html url_type))) ->
  In k entity_keys.
Proof.
  unfold seed. destruct (found _); [|intros []].
  intros H. apply dict_keys_update in H. destruct H as [[]|H].
  now apply scan_scripts_keys in H.
Qed.

Lemma entity_keys_not_supplementary k :
  In k entity_keys -> ~ In k supplementary_keys.
Proof. simpl. intuition (subst; discriminate). Qed.

Lemma entity_keys_not_username k : In k entity_keys -> k <> "username".
Proof. simpl. intuition (subst; discriminate). Qed.

Lemma fallback_get_other jl md url_type c k :
  ~ In k fallback_keys ->
  dict_get (newsletter_fallback jl md url_type c) k = dict_get c k.
Proof.
  intros Hk. unfold newsletter_fallback.
  assert (Hne : forall k', In k' fallback_keys -> k <> k')
    by (intros k' Hin ->; contradiction).
  destruct (String.eqb url_type "newsletter" && negb (found jl)); auto.
  destruct (dict_nonempty (open_graph md)); auto.
  repeat (rewrite dict_get_set_other; [|apply Hne; simpl; tauto]).
  reflexivity.
Qed.

(** No step before the backfill assigns [username]. *)
Lemma pipeline_lacks_username json_loads html url_type md :
  let jl := _extract_json_ld_data json_loads html url_type in
  lacks_username (newsletter_fallback jl md url_type (supplement md (seed jl)))
  = true.
Proof.
  intros jl. unfold lacks_username, dict_get_default.
  rewrite fallback_get_other by (simpl; intuition discriminate).
  rewrite supplement_get_other by (simpl; intuition discriminate).
  destruct (dict_get (seed jl) "username") eqn:E; [|reflexivity].
  apply dict_get_Some_keys, seed_keys, entity_keys_not_username in E.
  congruence.
Qed.

(* ------------------------------------------------------------------ *)
(** ** The identifier backfill *)

Lemma match_here_exact lit seg rest :
  seg <> EmptyString -> all_seg_chars seg = true -> at_delimiter rest = true ->
  match_here lit (lit ++ seg ++ rest)%string = Some seg.
Proof.
  intros Hne Hs Hr. unfold match_here.
  rewrite strip_prefix_of_app, take_segment_stops by assumption.
  destruct seg; congruence.
Qed.

Lemma re_search_anchored lit seg rest :
  seg <> EmptyString -> all_seg_chars seg = true -> at_delimiter rest = true ->
  re_search_segment lit (lit ++ seg ++ rest)%string = Some seg.
Proof.
  intros Hne Hs Hr.
  pose proof (match_here_exact lit seg rest Hne Hs Hr) as E.
  destruct (lit ++ seg ++ rest)%string; simpl; now rewrite E.
Qed.

Lemma re_search_finds lit seg rest before :
  seg <> EmptyString -> all_seg_chars seg = true -> at_delimiter rest = true ->
  exists seg',
    re_search_segment lit (before ++ lit ++ seg ++ rest)%string = Some seg'.
Proof.
  intros Hne Hs Hr. induction before as [|c before IH].
  - exists seg. change (EmptyString ++ lit ++ seg ++ rest)%string
      with (lit ++ seg ++ rest)%string. now apply re_search_anchored.
  - simpl.
    destruct (match_here lit (String c (before ++ lit ++ seg ++ rest)))
      as [s|]; eauto.
Qed.

Lemma set_username_get lit page_url c seg :
  re_search_segment lit page_url = Some seg ->
  dict_get (set_username_from lit page_url c) "username" = Some (PStr seg).
Proof.
  intros H. unfold set_username_from. rewrite H. apply dict_get_set_same.
Qed.

(** C8.  A combined record without a (truthy) [username] gets it from the
    page URL: for a profile, a company and a newsletter the text that
    follows [linkedin.com/in/], [linkedin.com/company/] and
    [linkedin.com/newsletters/], up to the next [/] or [?] or the end of the
    URL; the other fields are untouched, and a URL without the pattern
    leaves the record as it is.  No rule exists for the other URL types,
    posts included, and a record that has a [username] is left unchanged.
    On the records the pipeline builds the field is always missing before
    this step. *)
Theorem C8_username_backfill :
  forall (jl : json_ld_data) (md : meta_data) (url_type page_url : string),
    let before_backfill :=
      newsletter_fallback jl md url_type (supplement md (seed jl)) in
    let c := _combine_data_sources jl md url_type page_url in
    (lacks_username before_backfill = false -> c = before_backfill) /\
    (forall lit,
        In (url_type, lit) username_patterns ->
        lacks_username before_backfill = true ->
        (forall seg,
            re_search_segment lit page_url = Some seg ->
            dict_get c "username" = Some (PStr seg) /\
            (forall k, k <> "username" ->
                       dict_get c k = dict_get before_backfill k) /\
            seg <> EmptyString /\ all_seg_chars seg = true /\
            exists prefix rest,
              page_url = (prefix ++ lit ++ seg ++ rest)%string /\
              at_delimiter rest = true) /\
        (re_search_segment lit page_url = None -> c = before_backfill)) /\
    (url_type <> "profile" -> url_type <> "company" ->
     url_type <> "newsletter" -> c = before_backfill) /\
    (forall lit seg rest,
        seg <> EmptyString -> all_seg_chars seg = true ->
        at_delimiter rest = true ->
        re_search_segment lit (lit ++ seg ++ rest)%string = Some seg /\
        forall prefix, exists seg',
          re_search_segment lit (prefix ++ lit ++ seg ++ rest)%string
          = Some seg') /\
    (forall json_loads html,
        jl = _extract_json_ld_data json_loads html url_type ->
        lacks_username before_backfill = true).
Proof.
  intros jl md url_type page_url pre c. subst c.
  unfold _combine_data_sources. fold pre. repeat apply conj.
  - apply backfill_has_username.
  - intros lit Hin Hl. rewrite (backfill_by_pattern _ lit) by assumption.
    split.
    + intros seg Hseg. split; [now apply set_username_get|].
      split; [intros k Hk; now apply set_username_get_other|].
      now apply re_search_segment_spec.
    + intros Hnone. unfold set_username_from. now rewrite Hnone.
  - apply backfill_no_rule.
  - intros lit seg rest Hne Hs Hr. split.
    + now apply re_search_anchored.
    + intros prefix. now apply re_search_finds.
  - intros json_loads html ->. apply pipeline_lacks_username.
Qed.

Lemma C8_witness :
  dict_get (_combine_data_sources no_json_ld empty_meta_data "profile"
              "https://www.linkedin.com/in/jdoe?trk=abc") "username"
  = Some (PStr "jdoe") /\
  _combine_data_sources no_json_ld empty_meta_data "post"
    "https://www.linkedin.com/posts/jdoe_hello-activity-1"
  = [("page_title", PStr ""); ("page_description", PStr "")].
Proof.
  split.
  - destruct (C8_username_backfill no_json_ld empty_meta_data "profile"
                "https://www.linkedin.com/in/jdoe?trk=abc")
      as (_ & Hrule & _).
    destruct (Hrule "linkedin.com/in/") as (Hfound & _);
      [left; reflexivity | reflexivity |].
    apply (Hfound "jdoe"). reflexivity.
  - destruct (C8_username_backfill no_json_ld empty_meta_data "post"
                "https://www.linkedin.com/posts/jdoe_hello-activity-1")
      as (_ & _ & Hnone & _).
    apply Hnone; discriminate.
Defined.

(* ------------------------------------------------------------------ *)
(** ** The merge is additive *)

(** C1.  Every field the combined record holds after step 1, that is every
    field of the entity parsed from the structured data, has the same value
    in the final combined record: the meta-tag values go under the keys
    [og_*], [twitter_*], [page_title] and [page_description], which no entity
    parser uses, the newsletter fallback runs only when nothing was seeded,
    and the backfill assigns [username] only.  The page title and
    description, and the open-graph title and description when the bucket
    is not empty, are there under their own keys. *)
Theorem C1_structured_fields_survive_the_merge :
  forall (json_loads : string -> loads_result) (html : html_doc)
         (md : meta_data) (url_type page_url : string),
    let jl := _extract_json_ld_data json_loads html url_type in
    let c := _combine_data_sources jl md url_type page_url in
    (forall k v, dict_get (seed jl) k = Some v -> dict_get c k = Some v) /\
    dict_get c "page_title" = Some (PStr (title md)) /\
    dict_get c "page_description" = Some (PStr (description md)) /\
    (open_graph md <> [] ->
     dict_get c "og_title" = Some (bucket_get (open_graph md) "og:title") /\
     dict_get c "og_description"
       = Some (bucket_get (open_graph md) "og:description")).
Proof.
  intros json_loads html md url_type page_url jl c. subst c.
  unfold _combine_data_sources. repeat apply conj.
  - intros k v Hk.
    assert (Hin : In k entity_keys)
      by (eapply seed_keys, dict_get_Some_keys; exact Hk).
    assert (Hfound : found jl = true).
    { unfold seed in Hk. destruct (found jl); [reflexivity | discriminate]. }
    rewrite backfill_get_other by now apply entity_keys_not_username.
    rewrite fallback_off by (intros (_ & H & _); congruence).
    now rewrite supplement_get_other by now apply entity_keys_not_supplementary.
  - rewrite backfill_get_other by discriminate.
    rewrite fallback_get_other by (simpl; intuition discriminate).
    apply supplement_page_fields.
  - rewrite backfill_get_other by discriminate.
    rewrite fallback_get_other by (simpl; intuition discriminate).
    apply supplement_page_fields.
  - intros Hog.
    rewrite !backfill_get_other by discriminate.
    rewrite !fallback_get_other by (simpl; intuition discriminate).
    now apply supplement_og_fields.
Qed.

Lemma C1_witness :
  dict_get
    (_combine_data_sources
       (_extract_json_ld_data Demo.loads Demo.malformed_then_person "profile")
       (_extract_meta_data Demo.newsletter_landing) "profile"
       "https://www.linkedin.com/in/jdoe?trk=abc") "name"
  = Some (PStr "J. Doe").
Proof.
  apply (C1_structured_fields_survive_the_merge Demo.loads
           Demo.malformed_then_person
           (_extract_meta_data Demo.newsletter_landing) "profile"
           "https://www.linkedin.com/in/jdoe?trk=abc").
  reflexivity.
Defined.

(* ------------------------------------------------------------------ *)
(** ** The organization parser *)

Lemma company_body_direct d st :
  dict_get d "@graph" = None ->
  dict_get d "@type" = Some (PStr "Organization") ->
  Parsers.company_body (PDict d) st =
  (Parsers.company_core (PDict d) ;; Parsers.company_employees (PDict d)) st.
Proof.
  intros Hg Ht. unfold Parsers.company_body.
  unfold bind at 1, lift at 1. simpl. unfold dict_mem. rewrite Hg.
  unfold bind at 1, lift at 1. simpl. unfold dict_get_default. rewrite Ht.
  reflexivity.
Qed.

Lemma company_direct_footprint item :
  writes_within ["name"; "description"; "url"; "slogan"; "logo_url";
                 "employee_count"]
    (Parsers.company_core item ;; Parsers.company_employees item).
Proof. footprint. Qed.

(** X1.  A top-level Organization node (no [@graph] key) never gets the
    [address] field, whatever [address] entry it carries: lines 230-237
    exist in the [@graph] branch only. *)
Theorem X1_direct_organization_without_address :
  forall d : dict pyval,
    dict_get d "@graph" = None ->
    dict_get d "@type" = Some (PStr "Organization") ->
    dict_get (Parsers._parse_company_json_ld (PDict d)) "address" = None.
Proof.
  intros d Hg Ht. unfold Parsers._parse_company_json_ld, run_parser.
  rewrite company_body_direct by assumption.
  rewrite (company_direct_footprint (PDict d)); auto.
  simpl. intuition discriminate.
Qed.

Lemma no_fault_bind {A B} (c : M A) (k : A -> M B) :
  no_fault c -> (forall a, no_fault (k a)) -> no_fault (bind c k).
Proof.
  intros Hc Hk st. destruct (Hc st) as (a & st' & E).
  unfold bind. rewrite E. apply Hk.
Qed.

Lemma no_fault_ret {A} (a : A) : no_fault (ret a).
Proof. intros st. unfold ret. eauto. Qed.

Lemma no_fault_set_field k v : no_fault (set_field k v).
Proof. intros st. unfold set_field. eauto. Qed.

Lemma no_fault_copy_field d key default field :
  no_fault (Parsers.copy_field (PDict d) key default field).
Proof. intros st. rewrite copy_field_dict. eauto. Qed.

Lemma no_fault_when_typed d key T k :
  (forall x, T x = true -> no_fault (k x)) ->
  no_fault (Parsers.when_typed (PDict d) key T k).
Proof.
  intros Hk st. rewrite when_typed_dict.
  destruct (dict_get d key) as [x|]; [|eauto].
  destruct (T x) eqn:E; [|eauto]. now apply Hk.
Qed.

Lemma no_fault_follow_count i action field :
  no_fault (Parsers.follow_count (PDict i) action field).
Proof.
  intros st. rewrite follow_count_dict.
  destruct (py_eq_str _ action); eauto.
Qed.

Lemma no_fault_for_each {A} (l : list A) (body : A -> M flow) :
  Forall (fun x => no_fault (body x)) l -> no_fault (for_each l body).
Proof.
  induction 1 as [|x l Hx _ IH]; simpl.
  - apply no_fault_ret.
  - apply no_fault_bind; auto. intros [|]; [exact IH | apply no_fault_ret].
Qed.

Lemma is_dict_true v : is_dict v = true -> exists d, v = PDict d.
Proof. destruct v; try discriminate. eauto. Qed.

Lemma no_fault_company_core d : no_fault (Parsers.company_core (PDict d)).
Proof.
  unfold Parsers.company_core.
  repeat (apply no_fault_bind; [apply no_fault_copy_field | intros _]).
  apply no_fault_when_typed. intros x Hx.
  apply is_dict_true in Hx. destruct Hx as [m ->].
  apply no_fault_copy_field.
Qed.

Lemma no_fault_company_address d :
  no_fault (Parsers.company_address (PDict d)).
Proof.
  unfold Parsers.company_address.
  apply no_fault_when_typed. intros x Hx.
  apply is_dict_true in Hx. destruct Hx as [m ->].
  intros st. unfold bind, lift, set_field. simpl. eauto.
Qed.

Lemma no_fault_company_employees d :
  no_fault (Parsers.company_employees (PDict d)).
Proof.
  unfold Parsers.company_employees.
  apply no_fault_when_typed. intros x Hx.
  apply is_dict_true in Hx. destruct Hx as [m ->].
  apply no_fault_copy_field.
Qed.

Lemma no_fault_company_graph_item d :
  no_fault (Parsers.company_graph_item (PDict d)).
Proof.
  unfold Parsers.company_graph_item. intros st.
  unfold bind at 1, lift at 1. simpl.
  destruct (py_eq_str _ "Organization"); [|apply no_fault_ret].
  revert st.
  apply no_fault_bind; [apply no_fault_company_core | intros _].
  apply no_fault_bind; [apply no_fault_company_address | intros _].
  apply no_fault_bind; [apply no_fault_company_employees | intros _].
  apply no_fault_ret.
Qed.

(** X3.  The organization parser never faults on a mapping that has no
    [@graph] key or whose [@graph] is a list of mappings: every nested
    access is guarded by an [isinstance] test. *)
Theorem X3_organization_parser_never_faults :
  forall d : dict pyval,
    (dict_get d "@graph" = None \/
     exists items, dict_get d "@graph" = Some (PList items) /\
                   Forall (fun x => is_dict x = true) items) ->
    exists st, Parsers.company_body (PDict d) [] = (Ok tt, st).
Proof.
  intros d [Hg|(items & Hg & Hitems)].
  - unfold Parsers.company_body.
    unfold bind at 1, lift at 1. simpl. unfold dict_mem. rewrite Hg.
    unfold bind at 1, lift at 1. simpl.
    destruct (py_eq_str _ "Organization").
    + assert (F : no_fault (Parsers.company_core (PDict d) ;;
                            Parsers.company_employees (PDict d))).
      { apply no_fault_bind; [apply no_fault_company_core | intros _].
        apply no_fault_company_employees. }
      destruct (F []) as ([] & st & E). eauto.
    + unfold ret. eauto.
  - erewrite company_body_graph by exact Hg.
    assert (F : no_fault (for_each items Parsers.company_graph_item)).
    { apply no_fault_for_each. eapply Forall_impl; [|exact Hitems].
      intros x Hx. apply is_dict_true in Hx. destruct Hx as [m ->].
      apply no_fault_company_graph_item. }
    destruct (F []) as ([] & st & E). eauto.
Qed.

Lemma X1_witness :
  dict_get
    (Parsers._parse_company_json_ld
       (PDict (("address", PDict [("addressLocality", PStr "Pune")])
               :: Samples.organization_node))) "address" = None.
Proof.
  apply (X1_direct_organization_without_address
           (("address", PDict [("addressLocality", PStr "Pune")])
            :: Samples.organization_node)); reflexivity.
Defined.

Lemma X3_witness :
  exists st,
    Parsers.company_body
      (Samples.graph_of [PDict Samples.website_node;
                         PDict Samples.organization_node]) []
    = (Ok tt, st).
Proof.
  apply (X3_organization_parser_never_faults
           [("@context", PStr "http://schema.org");
            ("@graph", PList [PDict Samples.website_node;
                              PDict Samples.organization_node])]).
  right. eexists. split; [reflexivity|]. repeat constructor.
Defined.

Lemma company_employees_get d st :
  dict_get st "employee_count" = None ->
  (forall n, dict_get d "numberOfEmployees" = Some (PDict n) ->
             dict_get (snd (Parsers.company_employees (PDict d) st))
               "employee_count"
             = Some (dict_get_default n "value" (PInt 0))) /\
  ((forall n, dict_get d "numberOfEmployees" <> Some (PDict n)) ->
   dict_get (snd (Parsers.company_employees (PDict d) st)) "employee_count"
   = None).
Proof.
  intros Hst. unfold Parsers.company_employees. rewrite when_typed_dict.
  split.
  - intros n Hn. rewrite Hn. simpl. apply dict_get_set_same.
  - intros Hno. destruct (dict_get d "numberOfEmployees") as [[]|]; simpl; auto.
    exfalso. eapply Hno. reflexivity.
Qed.

Lemma company_core_state d st :
  exists st',
    Parsers.company_core (PDict d) st = (Ok tt, st') /\
    forall k, ~ In k ["name"; "description"; "url"; "slogan"; "logo_url"] ->
              dict_get st' k = dict_get st k.
Proof.
  destruct (no_fault_company_core d st) as ([] & st' & E).
  exists st'. split; auto. intros k Hk.
  assert (F : writes_within ["name"; "description"; "url"; "slogan"; "logo_url"]
                (Parsers.company_core (PDict d))) by footprint.
  specialize (F st k Hk). now rewrite E in F.
Qed.

Lemma company_address_state d st :
  exists st',
    Parsers.company_address (PDict d) st = (Ok tt, st') /\
    forall k, k <> "address" -> dict_get st' k = dict_get st k.
Proof.
  destruct (no_fault_company_address d st) as ([] & st' & E).
  exists st'. split; auto. intros k Hk.
  assert (F : writes_within ["address"] (Parsers.company_address (PDict d)))
    by footprint.
  specialize (F st k). rewrite E in F. apply F. simpl. intuition congruence.
Qed.

(** X2.  The organization parser takes [employee_count] from the [value]
    member of [numberOfEmployees], with 0 for a missing member, in the
    direct branch and in the graph branch alike; when [numberOfEmployees]
    is absent or is not a mapping the field is absent. *)
Theorem X2_employee_count :
  (forall d,
      dict_get d "@graph" = None ->
      dict_get d "@type" = Some (PStr "Organization") ->
      let r := Parsers._parse_company_json_ld (PDict d) in
      (forall n, dict_get d "numberOfEmployees" = Some (PDict n) ->
                 dict_get r "employee_count"
                 = Some (dict_get_default n "value" (PInt 0))) /\
      ((forall n, dict_get d "numberOfEmployees" <> Some (PDict n)) ->
       dict_get r "employee_count" = None)) /\
  (forall d pre node post,
      dict_get d "@graph" = Some (PList (pre ++ PDict node :: post)) ->
      Forall (fun x => exists m, x = PDict m /\
                dict_get_default m "@type" PNone <> PStr "Organization")
        pre ->
      dict_get node "@type" = Some (PStr "Organization") ->
      let r := Parsers._parse_company_json_ld (PDict d) in
      (forall n, dict_get node "numberOfEmployees" = Some (PDict n) ->
                 dict_get r "employee_count"
                 = Some (dict_get_default n "value" (PInt 0))) /\
      ((forall n, dict_get node "numberOfEmployees" <> Some (PDict n)) ->
       dict_get r "employee_count" = None)).
Proof.
  split.
  - intros d Hg Ht r. subst r.
    unfold Parsers._parse_company_json_ld, run_parser.
    rewrite company_body_direct by assumption.
    destruct (company_core_state d []) as (s1 & E1 & K1).
    erewrite bind_ok by exact E1.
    apply company_employees_get. rewrite K1; [reflexivity|].
    simpl. intuition discriminate.
  - intros d pre node post Hg Hpre Ht r. subst r.
    rewrite (company_graph_first_organization d pre node post Hg Hpre Ht).
    rewrite company_item_organization by assumption.
    destruct (company_core_state node []) as (s1 & E1 & K1).
    destruct (company_address_state node s1) as (s2 & E2 & K2).
    erewrite bind_ok by exact E1. erewrite bind_ok by exact E2.
    assert (Hnone : dict_get s2 "employee_count" = None).
    { rewrite K2 by discriminate. rewrite K1; [reflexivity|].
      simpl. intuition discriminate. }
    split.
    + intros n Hn.
      rewrite (@bind_snd_get []); [| intros _; footprint | simpl; tauto].
      now apply company_employees_get.
    + intros Hno.
      rewrite (@bind_snd_get []); [| intros _; footprint | simpl; tauto].
      now apply company_employees_get.
Qed.

Lemma X2_witness :
  dict_get
    (Parsers._parse_company_json_ld
       (Samples.graph_of [PDict Samples.website_node;
                          PDict Samples.organization_node]))
    "employee_count" = Some (PInt 500).
Proof.
  destruct X2_employee_count as (_ & Hgraph).
  destruct (Hgraph [("@context", PStr "http://schema.org");
                    ("@graph", PList [PDict Samples.website_node;
                                      PDict Samples.organization_node])]
              [PDict Samples.website_node] Samples.organization_node [])
    as (Hvalue & _).
  - reflexivity.
  - constructor; [|constructor].
    exists Samples.website_node. split; [reflexivity | discriminate].
  - reflexivity.
  - apply (Hvalue [("value", PInt 500)]). reflexivity.
Defined.

(* ------------------------------------------------------------------ *)
(** ** A node that is not a mapping stops the graph scan *)

Lemma for_each_fault_at {A} (body : A -> M flow) pre x post st e :
  Forall (fun y => forall s, body y s = (Ok Continue, s)) pre ->
  body x st = (Raise e, st) ->
  for_each (pre ++ x :: post) body st = (Raise e, st).
Proof.
  intros Hpre Hx. rewrite for_each_skip by assumption.
  simpl. unfold bind. now rewrite Hx.
Qed.

(** X4.  In a graph container, a node that is not a mapping and comes
    before the first node of the target type makes the profile parser and
    the organization parser return the empty entity, whatever follows it:
    [item.get] faults and the scan is abandoned. *)
Theorem X4_non_mapping_node_stops_the_scan :
  forall d pre x post,
    dict_get d "@graph" = Some (PList (pre ++ x :: post)) ->
    is_dict x = false ->
    (Forall (fun y => exists m, y = PDict m /\
               dict_get_default m "@type" PNone <> PStr "Person") pre ->
     Parsers._parse_profile_json_ld (PDict d) = [] /\
     fst (Parsers.profile_body (PDict d) []) = Raise AttributeError) /\
    (Forall (fun y => exists m, y = PDict m /\
               dict_get_default m "@type" PNone <> PStr "Organization") pre ->
     Parsers._parse_company_json_ld (PDict d) = [] /\
     fst (Parsers.company_body (PDict d) []) = Raise AttributeError).
Proof.
  intros d pre x post Hg Hx. split; intros Hpre.
  - assert (E : Parsers.profile_body (PDict d) [] = (Raise AttributeError, [])).
    { erewrite profile_body_graph by exact Hg.
      apply for_each_fault_at.
      - eapply Forall_impl; [|exact Hpre]. intros y (m & -> & Hm) s.
        now apply profile_item_other.
      - destruct x; try discriminate; reflexivity. }
    unfold Parsers._parse_profile_json_ld, run_parser. now rewrite E.
  - assert (E : Parsers.company_body (PDict d) [] = (Raise AttributeError, [])).
    { erewrite company_body_graph by exact Hg.
      apply for_each_fault_at.
      - eapply Forall_impl; [|exact Hpre]. intros y (m & -> & Hm) s.
        now apply company_item_other.
      - destruct x; try discriminate; reflexivity. }
    unfold Parsers._parse_company_json_ld, run_parser. now rewrite E.
Qed.

Lemma X4_witness :
  Parsers._parse_profile_json_ld
    (Samples.graph_of [PDict Samples.website_node; PStr "stray";
                       PDict Samples.person_node]) = [].
Proof.
  apply (X4_non_mapping_node_stops_the_scan
           [("@context", PStr "http://schema.org");
            ("@graph", PList [PDict Samples.website_node; PStr "stray";
                              PDict Samples.person_node])]
           [PDict Samples.website_node] (PStr "stray")
           [PDict Samples.person_node]).
  - reflexivity.
  - reflexivity.
  - constructor; [|constructor].
    exists Samples.website_node. split; [reflexivity | discriminate].
Defined.

(* ------------------------------------------------------------------ *)
(** ** The generic parser *)

Lemma generic_loop d ks st :
  for_each ks
    (fun key =>
       has <- lift (py_contains key (PDict d)) ;;
       if (has : bool) then
         v <- lift (py_getitem (PDict d) key) ;;
         set_field key v ;;
         ret Continue
       else ret Continue) st =
  (Ok tt,
   fold_left (fun s k => match dict_get d k with
                         | Some v => dict_set s k v
                         | None => s
                         end) ks st).
Proof.
  revert st. induction ks as [|k ks IH]; intros st; simpl; auto.
  unfold bind at 1, lift at 1. simpl. unfold dict_mem.
  destruct (dict_get d k) as [v|] eqn:E.
  - rewrite <- IH. reflexivity.
  - rewrite <- IH. reflexivity.
Qed.

Lemma fold_copy_get (d : dict pyval) ks st k :
  dict_get
    (fold_left (fun s k => match dict_get d k with
                           | Some v => dict_set s k v
                           | None => s
                           end) ks st) k =
  if in_dec string_dec k ks
  then match dict_get d k with
       | Some v => Some v
       | None => dict_get st k
       end
  else dict_get st k.
Proof.
  revert st. induction ks as [|k0 ks IH]; intros st; simpl; auto.
  rewrite IH. destruct (string_dec k0 k) as [->|Hne].
  - destruct (dict_get d k) eqn:E.
    + rewrite dict_get_set_same. now destruct (in_dec string_dec k ks).
    + now destruct (in_dec string_dec k ks).
  - destruct (in_dec string_dec k ks); auto.
    + destruct (dict_get d k0); auto.
      destruct (dict_get d k); auto. now apply dict_get_set_other.
    + destruct (dict_get d k0); auto. now apply dict_get_set_other.
Qed.

(** The generic parser on a mapping, up to the image block. *)
Lemma generic_run d :
  exists st0,
    (forall k, dict_get st0 k =
               if in_dec string_dec k Parsers.generic_common_fields
               then dict_get d k
               else dict_get
                      [("type", dict_get_default d "@type" (PStr ""));
                       ("context", dict_get_default d "@context" (PStr ""));
                       ("id", dict_get_default d "@id" (PStr ""))] k) /\
    Parsers.generic_body (PDict d) [] =
    match dict_get d "image" with
    | Some (PDict img) =>
        (Ok tt,
         dict_set st0 "image_url"
           (if py_truthy (dict_get_default img "contentUrl" PNone)
            then dict_get_default img "contentUrl" PNone
            else dict_get_default img "url" (PStr "")))
    | Some (PStr s) => (Ok tt, dict_set st0 "image_url" (PStr s))
    | _ => (Ok tt, st0)
    end.
Proof.
  exists (fold_left (fun s k => match dict_get d k with
                                | Some v => dict_set s k v
                                | None => s
                                end) Parsers.generic_common_fields
            (dict_set
               (dict_set
                  (dict_set [] "type" (dict_get_default d "@type" (PStr "")))
                  "context" (dict_get_default d "@context" (PStr "")))
               "id" (dict_get_default d "@id" (PStr "")))).
  split.
  - intros k. rewrite fold_copy_get.
    destruct (in_dec string_dec k Parsers.generic_common_fields) as [Hin|];
      [|reflexivity].
    destruct (dict_get d k); [reflexivity|].
    simpl in Hin.
    destruct Hin as [<-|[<-|[<-|[<-|[<-|[]]]]]]; reflexivity.
  - unfold Parsers.generic_body.
    repeat (erewrite bind_ok; [|apply copy_field_dict]).
    erewrite bind_ok by apply generic_loop.
    match goal with
    | |- context [fold_left ?f ?l ?s0] => set (S := fold_left f l s0)
    end.
    unfold bind at 1, lift at 1. unfold py_contains, py_getitem, dict_mem.
    destruct (dict_get d "image") as [img|]; [|reflexivity].
    destruct img; try reflexivity.
    clearbody S. unfold bind, lift, ret, set_field. simpl.
    destruct (py_truthy _); reflexivity.
Qed.

(** X5.  On every mapping the generic parser ends without a fault; it
    always sets [type], [context] and [id] (the empty string for a missing
    [@type], [@context] or [@id]), and it copies [name], [description],
    [url], [headline] and [datePublished] verbatim: present with the same
    value when the tree has them, absent when it does not. *)
Theorem X5_generic_parser_fields :
  forall d : dict pyval,
    let r := Parsers._parse_generic_json_ld (PDict d) in
    fst (Parsers.generic_body (PDict d) []) = Ok tt /\
    dict_get r "type" = Some (dict_get_default d "@type" (PStr "")) /\
    dict_get r "context" = Some (dict_get_default d "@context" (PStr "")) /\
    dict_get r "id" = Some (dict_get_default d "@id" (PStr "")) /\
    (forall k, In k Parsers.generic_common_fields ->
               dict_get r k = dict_get d k).
Proof.
  intros d r. subst r. unfold Parsers._parse_generic_json_ld, run_parser.
  destruct (generic_run d) as (st0 & Hst0 & Hrun). rewrite Hrun.
  assert (Hkeep : forall st k, k <> "image_url" ->
            dict_get
              (snd match dict_get d "image" with
                   | Some (PDict img) =>
                       (@Ok unit tt,
                        dict_set st "image_url"
                          (if py_truthy (dict_get_default img "contentUrl" PNone)
                           then dict_get_default img "contentUrl" PNone
                           else dict_get_default img "url" (PStr "")))
                   | Some (PStr s) => (Ok tt, dict_set st "image_url" (PStr s))
                   | _ => (Ok tt, st)
                   end) k = dict_get st k).
  { intros st k Hk. destruct (dict_get d "image") as [[]|]; simpl; auto;
      now apply dict_get_set_other. }
  repeat apply conj.
  - destruct (dict_get d "image") as [[]|]; reflexivity.
  - rewrite Hkeep by discriminate. rewrite Hst0. reflexivity.
  - rewrite Hkeep by discriminate. rewrite Hst0. reflexivity.
  - rewrite Hkeep by discriminate. rewrite Hst0. reflexivity.
  - intros k Hk. rewrite Hkeep.
    + rewrite Hst0.
      destruct (in_dec string_dec k Parsers.generic_common_fields);
        [reflexivity | contradiction].
    + simpl in Hk. intuition (subst; discriminate).
Qed.

(** X6.  The generic parser resolves [image_url] from the [image] member:
    for a mapping, its [contentUrl] when that is truthy and otherwise its
    [url] (the empty string when missing); for a string, the string itself;
    for no [image] or an [image] of another type, the field is absent. *)
Theorem X6_generic_image_url :
  forall d : dict pyval,
    dict_get (Parsers._parse_generic_json_ld (PDict d)) "image_url" =
    match dict_get d "image" with
    | Some (PDict img) =>
        Some (if py_truthy (dict_get_default img "contentUrl" PNone)
              then dict_get_default img "contentUrl" PNone
              else dict_get_default img "url" (PStr ""))
    | Some (PStr s) => Some (PStr s)
    | _ => None
    end.
Proof.
  intros d. unfold Parsers._parse_generic_json_ld, run_parser.
  destruct (generic_run d) as (st0 & Hst0 & Hrun). rewrite Hrun.
  assert (Hnone : dict_get st0 "image_url" = None).
  { rewrite Hst0. simpl.
    destruct (in_dec string_dec "image_url" Parsers.generic_common_fields)
      as [Hin|]; [|reflexivity].
    simpl in Hin. intuition discriminate. }
  destruct (dict_get d "image") as [[]|]; simpl;
    auto using dict_get_set_same.
Qed.

(* ------------------------------------------------------------------ *)
(** ** The list-shaped interaction statistics *)

Lemma interaction_counts_unfold json_data :
  Parsers.interaction_counts json_data =
  Parsers.when_typed json_data "interactionStatistic" is_list (fun stats =>
    l <- lift (py_iter stats) ;; for_each l interaction_entry).
Proof. reflexivity. Qed.

Lemma run_step {A B} (c : M A) (k : A -> M B) K st :
  no_fault c -> writes_within K c ->
  exists a st',
    (forall key, ~ In key K -> dict_get st' key = dict_get st key) /\
    bind c k st = k a st'.
Proof.
  intros Hn Hw. destruct (Hn st) as (a & st' & E).
  exists a, st'. split.
  - intros key Hkey. specialize (Hw st key Hkey). now rewrite E in Hw.
  - now apply bind_ok.
Qed.

Lemma interaction_entry_ok x st :
  stat_ok x = true ->
  exists st', interaction_entry x st = (Ok Continue, st').
Proof.
  unfold stat_ok, interaction_entry. destruct x; simpl; try (unfold ret; eauto).
  unfold bind at 1, lift at 1. simpl.
  destruct (dict_get_default d "interactionType" (PStr "")) eqn:E;
    try discriminate; intros _; unfold bind, lift, ret; simpl;
    repeat match goal with
           | |- context [if ?b then _ else _] => destruct b; simpl
           end; eauto.
Qed.

Lemma for_each_app_continue {A} (body : A -> M flow) l1 l2 st :
  Forall (fun x => forall s, exists s', body x s = (Ok Continue, s')) l1 ->
  exists st1, for_each (l1 ++ l2) body st = for_each l2 body st1.
Proof.
  intros H. revert st. induction H as [|x l1 Hx _ IH]; intros st; simpl.
  - eauto.
  - destruct (Hx st) as [s' E]. unfold bind at 1. rewrite E. apply IH.
Qed.

Lemma interaction_entry_last e st :
  let t := dict_get_default e "interactionType" (PStr "") in
  let n := dict_get_default e "userInteractionCount" (PInt 0) in
  (py_contains "LikeAction" t = Ok true ->
   interaction_entry (PDict e) st = (Ok Continue, dict_set st "likes" n)) /\
  (py_contains "LikeAction" t = Ok false ->
   py_contains "CommentAction" t = Ok true ->
   interaction_entry (PDict e) st =
   (Ok Continue, dict_set st "comments_count" n)).
Proof.
  intros t n. subst t n. unfold interaction_entry. simpl.
  split.
  - intros H. unfold bind at 1, lift at 1. simpl.
    unfold bind at 1, lift at 1. rewrite H. reflexivity.
  - intros H1 H2. unfold bind at 1, lift at 1. simpl.
    unfold bind at 1, lift at 1. rewrite H1.
    unfold bind at 1, lift at 1. rewrite H2. reflexivity.
Qed.

(** The statistics block on a list whose entries before the last do not
    fault. *)
Lemma interaction_counts_last d stats e st :
  dict_get d "interactionStatistic" = Some (PList (stats ++ [PDict e])) ->
  Forall (fun x => stat_ok x = true) stats ->
  exists st1,
    Parsers.interaction_counts (PDict d) st =
    (x <- interaction_entry (PDict e) ;; ret tt) st1.
Proof.
  intros Hs Hok. rewrite interaction_counts_unfold, when_typed_dict, Hs.
  simpl. unfold bind at 1, lift at 1.
  destruct (for_each_app_continue interaction_entry stats [PDict e] st)
    as [st1 E].
  - eapply Forall_impl; [|exact Hok]. intros x Hx s.
    now apply interaction_entry_ok.
  - exists st1. rewrite E. simpl. unfold bind.
    destruct (interaction_entry (PDict e) st1) as [[[]|] ?]; reflexivity.
Qed.

Lemma no_fault_newsletter_author d :
  no_fault (Parsers.newsletter_author (PDict d)).
Proof.
  unfold Parsers.newsletter_author.
  apply no_fault_when_typed. intros x Hx.
  apply is_dict_true in Hx. destruct Hx as [a ->].
  intros st. unfold bind at 1, lift at 1. simpl.
  unfold bind at 1, lift at 1. simpl.
  revert st. apply no_fault_bind; [apply no_fault_set_field | intros _].
  apply no_fault_when_typed. intros x Hx.
  apply is_dict_true in Hx. destruct Hx as [i ->].
  apply no_fault_follow_count.
Qed.

(** An Article node reaches the statistics block without a fault, with
    neither count assigned yet. *)
Lemma newsletter_reaches_counts d :
  dict_get d "@type" = Some (PStr "Article") ->
  exists st0,
    dict_get st0 "likes" = None /\ dict_get st0 "comments_count" = None /\
    Parsers.newsletter_body (PDict d) [] =
    Parsers.interaction_counts (PDict d) st0.
Proof.
  intros Ht. unfold Parsers.newsletter_body.
  unfold bind at 1, lift at 1. simpl. unfold dict_get_default at 1.
  rewrite Ht. simpl.
  repeat (erewrite bind_ok; [|apply copy_field_dict]).
  match goal with
  | |- context [bind ?c ?k ?s] =>
      destruct (@run_step _ _ c k ["image_url"] s) as (a1 & s1 & K1 & ->);
        [ apply no_fault_when_typed; intros x Hx;
          apply is_dict_true in Hx; destruct Hx as [m ->];
          apply no_fault_copy_field
        | footprint | ]
  end.
  match goal with
  | |- context [bind ?c ?k ?s] =>
      destruct (@run_step _ _ c k ["author"; "author_followers"] s)
        as (a2 & s2 & K2 & ->);
        [ apply no_fault_newsletter_author | footprint | ]
  end.
  exists s2. repeat split; auto;
    (rewrite K2 by (simpl; intuition discriminate);
     rewrite K1 by (simpl; intuition discriminate); reflexivity).
Qed.

(** X7.  In the statistics list of an Article the last entry decides: when
    its interaction type contains [LikeAction] its count becomes [likes];
    when it contains [CommentAction] and not [LikeAction] its count becomes
    [comments_count]; a missing count is 0.  The entries before it must be
    readable, that is each one either is not a mapping (and is skipped) or
    has an interaction type that is a string, a list or a mapping. *)
Theorem X7_newsletter_last_statistic_wins :
  forall d stats e,
    dict_get d "@type" = Some (PStr "Article") ->
    dict_get d "interactionStatistic" = Some (PList (stats ++ [PDict e])) ->
    Forall (fun x => stat_ok x = true) stats ->
    let r := Parsers._parse_newsletter_json_ld (PDict d) in
    let t := dict_get_default e "interactionType" (PStr "") in
    let n := dict_get_default e "userInteractionCount" (PInt 0) in
    (py_contains "LikeAction" t = Ok true -> dict_get r "likes" = Some n) /\
    (py_contains "LikeAction" t = Ok false ->
     py_contains "CommentAction" t = Ok true ->
     dict_get r "comments_count" = Some n).
Proof.
  intros d stats e Ht Hs Hok r t n. subst r t n.
  unfold Parsers._parse_newsletter_json_ld, run_parser.
  destruct (newsletter_reaches_counts d Ht) as (st0 & _ & _ & ->).
  destruct (interaction_counts_last d stats e st0 Hs Hok) as [st1 ->].
  destruct (interaction_entry_last e st1) as [Hlike Hcomment].
  split.
  - intros H. erewrite bind_ok by (apply Hlike; exact H).
    apply dict_get_set_same.
  - intros H1 H2. erewrite bind_ok by (apply Hcomment; assumption).
    apply dict_get_set_same.
Qed.

Lemma X7_witness :
  dict_get
    (Parsers._parse_newsletter_json_ld
       (PDict (Samples.article_node ++
               [("interactionStatistic",
                 PList [PStr "stray";
                        PDict [("interactionType",
                                PStr "http://schema.org/LikeAction");
                               ("userInteractionCount", PInt 3)];
                        PDict [("interactionType",
                                PStr "http://schema.org/LikeAction");
                               ("userInteractionCount", PInt 8)]])])))
    "likes" = Some (PInt 8).
Proof.
  apply (X7_newsletter_last_statistic_wins
           (Samples.article_node ++
            [("interactionStatistic",
              PList [PStr "stray";
                     PDict [("interactionType",
                             PStr "http://schema.org/LikeAction");
                            ("userInteractionCount", PInt 3)];
                     PDict [("interactionType",
                             PStr "http://schema.org/LikeAction");
                            ("userInteractionCount", PInt 8)]])])
           [PStr "stray";
            PDict [("interactionType", PStr "http://schema.org/LikeAction");
                   ("userInteractionCount", PInt 3)]]
           [("interactionType", PStr "http://schema.org/LikeAction");
            ("userInteractionCount", PInt 8)]).
  - reflexivity.
  - reflexivity.
  - repeat constructor.
  - reflexivity.
Defined.

(* ------------------------------------------------------------------ *)
(** ** The employer list and the comment list *)

Lemma sub_dict_default m key :
  absent_or_dict (dict_get m key) = true ->
  dict_get_default m key (PDict []) = PDict (sub_dict m key).
Proof.
  unfold absent_or_dict, sub_dict, dict_get_default.
  destruct (dict_get m key) as [[]|]; try discriminate; reflexivity.
Qed.

Lemma not_sub_dict_default m key :
  absent_or_dict (dict_get m key) = false ->
  is_dict (dict_get_default m key (PDict [])) = false.
Proof.
  unfold absent_or_dict, dict_get_default.
  destruct (dict_get m key) as [[]|]; try discriminate; reflexivity.
Qed.

Lemma py_get_not_dict v key default :
  is_dict v = false -> py_get v key default = Raise AttributeError.
Proof. destruct v; try discriminate; reflexivity. Qed.

Lemma works_for_entries_ok ws st :
  Forall (fun w => work_ok w = true) ws ->
  Parsers.works_for_entries ws st = (Ok (work_records ws), st).
Proof.
  induction 1 as [|w ws Hw _ IH]; simpl; auto.
  destruct w; simpl; auto.
  unfold work_ok in Hw. unfold work_record.
  unfold bind, lift in *. simpl.
  rewrite (sub_dict_default _ _ Hw). simpl. now rewrite IH.
Qed.

Lemma works_for_entries_fault ws st :
  Exists (fun w => work_ok w = false) ws ->
  exists e, Parsers.works_for_entries ws st = (Raise e, st).
Proof.
  induction 1 as [w ws Hw|w ws _ IH].
  - destruct w; try discriminate. simpl. unfold work_ok in Hw.
    unfold bind, lift. simpl.
    rewrite (py_get_not_dict _ _ _ (not_sub_dict_default _ _ Hw)). eauto.
  - simpl. destruct IH as [e IH].
    destruct w; simpl; eauto.
    destruct (absent_or_dict (dict_get d "member")) eqn:Hw.
    + unfold bind, lift in *. simpl.
      rewrite (sub_dict_default _ _ Hw). simpl. rewrite IH. eauto.
    + unfold bind, lift. simpl.
      rewrite (py_get_not_dict _ _ _ (not_sub_dict_default _ _ Hw)). eauto.
Qed.

Lemma comment_entries_ok cs st :
  Forall (fun c => comment_ok c = true) cs ->
  Parsers.comment_entries cs st = (Ok (comment_records cs), st).
Proof.
  induction 1 as [|c cs Hc _ IH]; simpl; auto.
  destruct c; simpl; auto.
  unfold comment_ok in Hc. apply andb_prop in Hc. destruct Hc as [Ha Hi].
  unfold comment_record. unfold bind, lift in *. simpl.
  rewrite (sub_dict_default _ _ Ha), (sub_dict_default _ _ Hi). simpl.
  now rewrite IH.
Qed.

Lemma comment_entries_fault cs st :
  Exists (fun c => comment_ok c = false) cs ->
  exists e, Parsers.comment_entries cs st = (Raise e, st).
Proof.
  induction 1 as [c cs Hc|c cs _ IH].
  - destruct c; try discriminate. simpl. unfold comment_ok in Hc.
    unfold bind, lift. simpl.
    destruct (absent_or_dict (dict_get d "author")) eqn:Ha.
    + simpl in Hc. rewrite (sub_dict_default _ _ Ha). simpl.
      rewrite (py_get_not_dict _ _ _ (not_sub_dict_default _ _ Hc)). eauto.
    + rewrite (py_get_not_dict _ _ _ (not_sub_dict_default _ _ Ha)). eauto.
  - simpl. destruct IH as [e IH].
    destruct c; simpl; eauto.
    unfold bind, lift in *. simpl.
    destruct (absent_or_dict (dict_get d "author")) eqn:Ha.
    + rewrite (sub_dict_default _ _ Ha). simpl.
      destruct (absent_or_dict (dict_get d "interactionStatistic")) eqn:Hi.
      * rewrite (sub_dict_default _ _ Hi). simpl. rewrite IH. eauto.
      * rewrite (py_get_not_dict _ _ _ (not_sub_dict_default _ _ Hi)). eauto.
    + rewrite (py_get_not_dict _ _ _ (not_sub_dict_default _ _ Ha)). eauto.
Qed.

Lemma no_fault_person_core d : no_fault (Parsers.person_core (PDict d)).
Proof. intros st. destruct (person_core_ok d st) as [st' E]. eauto. Qed.

Lemma no_fault_person_followers d :
  no_fault (Parsers.person_followers (PDict d)).
Proof.
  intros st. unfold Parsers.person_followers.
  unfold bind at 1, lift at 1. simpl. unfold dict_mem.
  destruct (dict_get d "interactionStatistic") as [x|] eqn:E;
    [|apply no_fault_ret].
  unfold bind at 1, lift at 1. simpl.
  destruct x; simpl; try apply no_fault_ret.
  apply no_fault_follow_count.
Qed.

(** The Person node of a graph container up to its employer list. *)
Lemma profile_reaches_works_for d pre node post ws :
  dict_get d "@graph" = Some (PList (pre ++ PDict node :: post)) ->
  Forall (fun x => exists m, x = PDict m /\
            dict_get_default m "@type" PNone <> PStr "Person") pre ->
  dict_get node "@type" = Some (PStr "Person") ->
  dict_get node "worksFor" = Some (PList ws) ->
  exists st0,
    dict_get st0 "works_for" = None /\ dict_get st0 "followers" = None /\
    Parsers._parse_profile_json_ld (PDict d) =
    snd ((works_for <- Parsers.works_for_entries ws ;;
          set_field "works_for" (PList works_for) ;;
          Parsers.person_followers (PDict node) ;;
          ret Break) st0).
Proof.
  intros Hg Hpre Ht Hw.
  rewrite (profile_graph_first_person d pre node post Hg Hpre Ht).
  rewrite profile_item_person by assumption.
  match goal with
  | |- context [bind ?c ?k ?s] =>
      destruct (@run_step _ _ c k
                  ["name"; "job_title"; "description"; "url"; "image_url"] s)
        as (a1 & s1 & K1 & ->);
        [ apply no_fault_person_core | footprint | ]
  end.
  unfold Parsers.person_location_and_work.
  match goal with
  | |- context [bind (bind ?c ?k1) ?k2 ?s] =>
      destruct (@run_step _ _ c k1 ["location"; "country"] s)
        as (a2 & s2 & K2 & E2);
        [ apply no_fault_when_typed; intros x Hx;
          apply is_dict_true in Hx; destruct Hx as [m ->];
          apply no_fault_bind; [apply no_fault_copy_field | intros _];
          apply no_fault_copy_field
        | footprint | ]
  end.
  exists s2. split; [|split].
  - rewrite K2 by (simpl; intuition discriminate).
    rewrite K1 by (simpl; intuition discriminate). reflexivity.
  - rewrite K2 by (simpl; intuition discriminate).
    rewrite K1 by (simpl; intuition discriminate). reflexivity.
  - unfold bind at 1. rewrite E2. rewrite when_typed_dict, Hw. simpl.
    unfold bind at 1 4, lift at 1. simpl.
    unfold bind at 1. unfold bind at 3.
    destruct (Parsers.works_for_entries ws s2) as [[wf|e] s3]; reflexivity.
Qed.

Lemma no_fault_location_and_work node :
  works_for_ok node = true ->
  no_fault (Parsers.person_location_and_work (PDict node)).
Proof.
  intros Hw. unfold Parsers.person_location_and_work.
  apply no_fault_bind.
  - apply no_fault_when_typed. intros x Hx.
    apply is_dict_true in Hx. destruct Hx as [m ->].
    apply no_fault_bind; [apply no_fault_copy_field | intros _].
    apply no_fault_copy_field.
  - intros _ st. rewrite when_typed_dict. unfold works_for_ok in Hw.
    destruct (dict_get node "worksFor") as [x|]; [|eauto].
    destruct x; simpl; eauto.
    unfold bind at 1, lift at 1. simpl.
    erewrite bind_ok.
    + apply no_fault_set_field.
    + apply works_for_entries_ok. apply Forall_forall.
      intros w Hin. rewrite forallb_forall in Hw. now apply Hw.
Qed.

(** The Person node of a graph container, after any list of nodes of other
    types, reaches its follower count when its employer list is readable. *)
Lemma profile_graph_followers_after_employers d pre node post i :
  dict_get d "@graph" = Some (PList (pre ++ PDict node :: post)) ->
  Forall (fun x => exists m, x = PDict m /\
            dict_get_default m "@type" PNone <> PStr "Person") pre ->
  dict_get node "@type" = Some (PStr "Person") ->
  works_for_ok node = true ->
  dict_get node "interactionStatistic" = Some (PDict i) ->
  exists st,
    dict_get st "followers" = None /\
    dict_get (Parsers._parse_profile_json_ld (PDict d)) "followers" =
    dict_get (snd (Parsers.follow_count (PDict i) Parsers.https_follow
                     "followers" st)) "followers".
Proof.
  intros Hg Hpre Ht Hw Hi.
  rewrite (profile_graph_first_person d pre node post Hg Hpre Ht).
  rewrite profile_item_person by assumption.
  match goal with
  | |- context [bind ?c ?k ?s] =>
      destruct (@run_step _ _ c k
                  ["name"; "job_title"; "description"; "url"; "image_url"] s)
        as (a1 & s1 & K1 & ->);
        [ apply no_fault_person_core | footprint | ]
  end.
  match goal with
  | |- context [bind ?c ?k ?s] =>
      destruct (@run_step _ _ c k ["location"; "country"; "works_for"] s)
        as (a2 & s2 & K2 & ->);
        [ now apply no_fault_location_and_work | footprint | ]
  end.
  rewrite (@bind_snd_get []); [| intros _; footprint | simpl; tauto].
  erewrite person_followers_dict by exact Hi.
  exists s2. split; [|reflexivity].
  rewrite K2 by (simpl; intuition discriminate).
  rewrite K1 by (simpl; intuition discriminate). reflexivity.
Qed.

(** C4 (amended).  Each follower-count site compares the declared
    interaction type with one literal, exactly and case-sensitively: the
    profile node, in the direct branch and in the graph branch, and the
    newsletter author with the [https] form of the schema.org FollowAction
    type, the post author with the [http] form.  A site the parser reaches
    stores the count when the type is its literal, and stores nothing for
    any other value, the other scheme included.  The site is reached
    unless an earlier block faults: the employer list of a graph Person
    node must be readable, the author image of a post absent or a
    mapping. *)
Theorem C4_follow_action_literal_per_site :
  (forall d i,
      dict_get d "@graph" = None ->
      dict_get d "@type" = Some (PStr "Person") ->
      dict_get d "interactionStatistic" = Some (PDict i) ->
      let r := Parsers._parse_profile_json_ld (PDict d) in
      (dict_get i "interactionType" = Some (PStr Parsers.https_follow) ->
       dict_get r "followers" =
       Some (dict_get_default i "userInteractionCount" (PInt 0))) /\
      (dict_get i "interactionType" <> Some (PStr Parsers.https_follow) ->
       dict_get r "followers" = None)) /\
  (forall d pre node post i,
      dict_get d "@graph" = Some (PList (pre ++ PDict node :: post)) ->
      Forall (fun x => exists m, x = PDict m /\
                dict_get_default m "@type" PNone <> PStr "Person") pre ->
      dict_get node "@type" = Some (PStr "Person") ->
      works_for_ok node = true ->
      dict_get node "interactionStatistic" = Some (PDict i) ->
      let r := Parsers._parse_profile_json_ld (PDict d) in
      (dict_get i "interactionType" = Some (PStr Parsers.https_follow) ->
       dict_get r "followers" =
       Some (dict_get_default i "userInteractionCount" (PInt 0))) /\
      (dict_get i "interactionType" <> Some (PStr Parsers.https_follow) ->
       dict_get r "followers" = None)) /\
  (forall d a i,
      dict_get d "@type" = Some (PStr "DiscussionForumPosting") ->
      dict_get d "author" = Some (PDict a) ->
      (dict_get a "image" = None \/
       exists m, dict_get a "image" = Some (PDict m)) ->
      dict_get a "interactionStatistic" = Some (PDict i) ->
      let r := Parsers._parse_post_json_ld (PDict d) in
      (dict_get i "interactionType" = Some (PStr Parsers.http_follow) ->
       dict_get r "author_followers" =
       Some (dict_get_default i "userInteractionCount" (PInt 0))) /\
      (dict_get i "interactionType" <> Some (PStr Parsers.http_follow) ->
       dict_get r "author_followers" = None)) /\
  (forall d a i,
      dict_get d "@type" = Some (PStr "Article") ->
      dict_get d "author" = Some (PDict a) ->
      dict_get a "interactionStatistic" = Some (PDict i) ->
      let r := Parsers._parse_newsletter_json_ld (PDict d) in
      (dict_get i "interactionType" = Some (PStr Parsers.https_follow) ->
       dict_get r "author_followers" =
       Some (dict_get_default i "userInteractionCount" (PInt 0))) /\
      (dict_get i "interactionType" <> Some (PStr Parsers.https_follow) ->
       dict_get r "author_followers" = None)).
Proof.
  repeat apply conj.
  - intros d i Hg Ht Hi r. subst r.
    destruct (profile_direct_followers d i Hg Ht Hi) as (st & Hst & ->).
    apply follow_count_get; assumption.
  - intros d pre node post i Hg Hpre Ht Hw Hi r. subst r.
    destruct (profile_graph_followers_after_employers
                d pre node post i Hg Hpre Ht Hw Hi) as (st & Hst & ->).
    apply follow_count_get; assumption.
  - intros d a i Ht Ha Himg Hi r. subst r.
    destruct (post_followers d a i Ht Ha Himg Hi) as (st & Hst & ->).
    apply follow_count_get; assumption.
  - intros d a i Ht Ha Hi r. subst r.
    destruct (newsletter_followers d a i Ht Ha Hi) as (st & Hst & ->).
    apply follow_count_get; assumption.
Qed.

Lemma C4_witness :
  dict_get (Parsers._parse_profile_json_ld
              (PDict (Samples.person_with_follow Parsers.https_follow)))
    "followers" = Some (PInt 10) /\
  dict_get (Parsers._parse_post_json_ld
              (PDict (Samples.post_with_follow Parsers.https_follow)))
    "author_followers" = None /\
  dict_get (Parsers._parse_profile_json_ld
              (Samples.graph_of [PDict Samples.website_node;
                                 PDict Samples.person_node]))
    "followers" = Some (PInt 10).
Proof.
  destruct C4_follow_action_literal_per_site
    as (Hprofile & Hgraph & Hpost & _).
  split; [|split].
  3:{ apply (Hgraph [("@context", PStr "http://schema.org");
                     ("@graph", PList [PDict Samples.website_node;
                                       PDict Samples.person_node])]
               [PDict Samples.website_node] Samples.person_node []
               [("@type", PStr "InteractionCounter");
                ("interactionType", PStr Parsers.https_follow);
                ("userInteractionCount", PInt 10)]).
      - reflexivity.
      - constructor; [|constructor].
        exists Samples.website_node. split; [reflexivity | discriminate].
      - reflexivity.
      - reflexivity.
      - reflexivity.
      - reflexivity. }
  - apply (Hprofile (Samples.person_with_follow Parsers.https_follow)
             [("@type", PStr "InteractionCounter");
              ("interactionType", PStr Parsers.https_follow);
              ("userInteractionCount", PInt 10)]); reflexivity.
  - apply (Hpost (Samples.post_with_follow Parsers.https_follow)
             [("name", PStr "J. Doe");
              ("interactionStatistic",
               Samples.follow_stat Parsers.https_follow 7)]
             [("@type", PStr "InteractionCounter");
              ("interactionType", PStr Parsers.https_follow);
              ("userInteractionCount", PInt 7)]);
      try reflexivity; [left; reflexivity | discriminate].
Defined.

(** X8.  For the Person node of a graph container whose [worksFor] is a
    list: when every entry that is a mapping has a [member] that is absent
    or a mapping, [works_for] holds one record per mapping entry, in the
    order of the list, the other entries being skipped; when some mapping
    entry has a [member] of another type, the parser faults there and the
    entity has neither [works_for] nor [followers]. *)
Theorem X8_employer_list :
  forall d pre node post ws,
    dict_get d "@graph" = Some (PList (pre ++ PDict node :: post)) ->
    Forall (fun x => exists m, x = PDict m /\
              dict_get_default m "@type" PNone <> PStr "Person") pre ->
    dict_get node "@type" = Some (PStr "Person") ->
    dict_get node "worksFor" = Some (PList ws) ->
    let r := Parsers._parse_profile_json_ld (PDict d) in
    (Forall (fun w => work_ok w = true) ws ->
     dict_get r "works_for" = Some (PList (work_records ws))) /\
    (Exists (fun w => work_ok w = false) ws ->
     dict_get r "works_for" = None /\ dict_get r "followers" = None).
Proof.
  intros d pre node post ws Hg Hpre Ht Hw r. subst r.
  destruct (profile_reaches_works_for d pre node post ws Hg Hpre Ht Hw)
    as (st0 & Hwf & Hfo & ->).
  split.
  - intros Hok. erewrite bind_ok by (now apply works_for_entries_ok).
    erewrite bind_ok by reflexivity.
    rewrite (@bind_snd_get []); [| intros _; footprint | simpl; tauto].
    assert (F : writes_within ["followers"]
                  (Parsers.person_followers (PDict node))) by footprint.
    rewrite F by (simpl; intuition discriminate).
    apply dict_get_set_same.
  - intros Hbad.
    destruct (works_for_entries_fault ws st0 Hbad) as [e E].
    erewrite bind_raise by exact E. simpl. auto.
Qed.

Lemma X8_witness :
  dict_get
    (Parsers._parse_profile_json_ld
       (Samples.graph_of [PDict Samples.website_node;
                          PDict Samples.person_node]))
    "works_for" =
  Some (PList [PDict [("company_name", PStr "Acme");
                      ("company_url", PStr "");
                      ("description", PStr "");
                      ("start_date", PStr "2020")]]).
Proof.
  destruct (X8_employer_list
              [("@context", PStr "http://schema.org");
               ("@graph", PList [PDict Samples.website_node;
                                 PDict Samples.person_node])]
              [PDict Samples.website_node] Samples.person_node []
              [PDict [("name", PStr "Acme");
                      ("member", PDict [("startDate", PStr "2020")])]])
    as (Hok & _).
  - reflexivity.
  - constructor; [|constructor].
    exists Samples.website_node. split; [reflexivity | discriminate].
  - reflexivity.
  - reflexivity.
  - apply Hok. repeat constructor.
Defined.

(* ------------------------------------------------------------------ *)
(** ** The post parser *)

Lemma no_fault_post_author d :
  post_author_ok d = true -> no_fault (Parsers.post_author (PDict d)).
Proof.
  intros Hok. unfold Parsers.post_author, post_author_ok in *.
  intros st. rewrite when_typed_dict.
  destruct (dict_get d "author") as [x|]; [|eauto].
  destruct x; simpl; eauto.
  rename d0 into a.
  unfold bind at 1, lift at 1. simpl. unfold bind at 1, lift at 1. simpl.
  unfold bind at 1, lift at 1. simpl. unfold dict_mem.
  assert (Himg : exists v,
             (if match dict_get a "image" with
                 | Some _ => true
                 | None => false
                 end
              then image <- lift (py_get (PDict a) "image" (PDict [])) ;;
                   lift (py_get image "url" (PStr ""))
              else ret (PStr "")) st = (Ok v, st)).
  { destruct (dict_get a "image") as [img|] eqn:E; [|unfold ret; eauto].
    destruct img; try discriminate.
    unfold bind, lift. simpl. unfold dict_get_default at 1. rewrite E.
    simpl. eauto. }
  destruct Himg as [v Hv].
  erewrite bind_ok by exact Hv.
  revert st Hv. intros st _. revert st.
  apply no_fault_bind; [apply no_fault_set_field | intros _].
  apply no_fault_when_typed. intros x Hx.
  apply is_dict_true in Hx. destruct Hx as [i ->].
  apply no_fault_follow_count.
Qed.

(** A posting whose author block does not fault, up to its comment list. *)
Lemma post_reaches_comments d cs :
  dict_get d "@type" = Some (PStr "DiscussionForumPosting") ->
  post_author_ok d = true ->
  dict_get d "comment" = Some (PList cs) ->
  exists st0,
    (forall k, In k ["comments"; "likes"; "comments_count"] ->
               dict_get st0 k = None) /\
    forall k, In k ["comments"; "likes"; "comments_count"] ->
      dict_get (Parsers._parse_post_json_ld (PDict d)) k =
      dict_get
        (snd (((comments <- Parsers.comment_entries cs ;;
                set_field "comments" (PList comments)) ;;
               Parsers.interaction_counts (PDict d)) st0)) k.
Proof.
  intros Ht Hok Hc.
  unfold Parsers._parse_post_json_ld, run_parser, Parsers.post_body.
  unfold bind at 1, lift at 1. simpl. unfold dict_get_default at 1.
  rewrite Ht. simpl.
  assert (Hrun : exists st0,
             (forall k, In k ["comments"; "likes"; "comments_count"] ->
                        dict_get st0 k = None) /\
             forall tail : unit -> M unit,
               bind
                 (Parsers.copy_field (PDict d) "headline" (PStr "") "headline" ;;
                  Parsers.copy_field (PDict d) "articleBody" (PStr "")
                    "article_body" ;;
                  Parsers.copy_field (PDict d) "datePublished" (PStr "")
                    "date_published" ;;
                  Parsers.copy_field (PDict d) "@id" (PStr "") "url" ;;
                  Parsers.copy_field (PDict d) "commentCount" (PInt 0)
                    "comment_count" ;;
                  Parsers.post_author (PDict d) ;;
                  Parsers.post_comments (PDict d) ;;
                  Parsers.interaction_counts (PDict d)) tail [] =
               bind
                 ((comments <- Parsers.comment_entries cs ;;
                   set_field "comments" (PList comments)) ;;
                  Parsers.interaction_counts (PDict d)) tail st0).
  { match goal with
    | |- context [Parsers.post_author (PDict d)] => idtac
    end.
    destruct (no_fault_post_author d Hok
                (dict_set
                   (dict_set
                      (dict_set
                         (dict_set
                            (dict_set [] "headline"
                               (dict_get_default d "headline" (PStr "")))
                            "article_body"
                            (dict_get_default d "articleBody" (PStr "")))
                         "date_published"
                         (dict_get_default d "datePublished" (PStr "")))
                      "url" (dict_get_default d "@id" (PStr "")))
                   "comment_count"
                   (dict_get_default d "commentCount" (PInt 0))))
      as ([] & st0 & E).
    exists st0. split.
    - intros k Hk.
      assert (F : writes_within ["author"; "author_followers"]
                    (Parsers.post_author (PDict d))) by footprint.
      match type of E with
      | _ ?s = _ => specialize (F s k)
      end.
      rewrite E in F. simpl in F. rewrite F.
      + simpl in Hk. destruct Hk as [<-|[<-|[<-|[]]]]; reflexivity.
      + simpl in Hk. simpl. intuition (subst; discriminate).
    - intros tail. unfold bind at 1.
      repeat (erewrite bind_ok; [|apply copy_field_dict]).
      erewrite bind_ok by exact E.
      unfold Parsers.post_comments. unfold bind at 1.
      rewrite when_typed_dict, Hc. simpl.
      unfold bind at 1 2, lift at 1. simpl.
      reflexivity. }
  destruct Hrun as (st0 & Hnone & Hrun). exists st0. split; [exact Hnone|].
  intros k Hk. rewrite Hrun.
  rewrite (@bind_snd_get []);
    [reflexivity | intros _; footprint | simpl; tauto].
Qed.

(** X9.  For a posting whose author block does not fault and whose
    [comment] is a list: when every comment that is a mapping has an
    [author] and an [interactionStatistic] that are absent or mappings,
    [comments] holds one record per mapping entry, in the order of the list;
    when some comment has one of the two of another type, the parser faults
    there and the entity has no [comments], [likes] or [comments_count]. *)
Theorem X9_comment_list :
  forall d cs,
    dict_get d "@type" = Some (PStr "DiscussionForumPosting") ->
    post_author_ok d = true ->
    dict_get d "comment" = Some (PList cs) ->
    let r := Parsers._parse_post_json_ld (PDict d) in
    (Forall (fun c => comment_ok c = true) cs ->
     dict_get r "comments" = Some (PList (comment_records cs))) /\
    (Exists (fun c => comment_ok c = false) cs ->
     dict_get r "comments" = None /\ dict_get r "likes" = None /\
     dict_get r "comments_count" = None).
Proof.
  intros d cs Ht Hok Hc r. subst r.
  destruct (post_reaches_comments d cs Ht Hok Hc) as (st0 & Hnone & Hrun).
  split.
  - intros Hall. rewrite Hrun by (simpl; tauto).
    rewrite (@bind_snd_get ["likes"; "comments_count"]);
      [| intros _; footprint | simpl; intuition discriminate].
    erewrite bind_ok by (now apply comment_entries_ok).
    apply dict_get_set_same.
  - intros Hbad.
    destruct (comment_entries_fault cs st0 Hbad) as [e E].
    assert (Hall : forall k, In k ["comments"; "likes"; "comments_count"] ->
              dict_get (Parsers._parse_post_json_ld (PDict d)) k = None).
    { intros k Hk. rewrite Hrun by assumption.
      erewrite bind_raise; [apply Hnone; assumption|].
      erewrite bind_raise by exact E. reflexivity. }
    repeat split; apply Hall; simpl; tauto.
Qed.

Lemma X9_witness :
  dict_get
    (Parsers._parse_post_json_ld
       (PDict (Samples.post_node ++
               [("comment",
                 PList [PDict [("text", PStr "Nice");
                               ("author", PDict [("name", PStr "A. Roe")])];
                        PInt 4;
                        PDict [("text", PStr "Thanks")]])])))
    "comments" =
  Some (PList [PDict [("text", PStr "Nice"); ("date_published", PStr "");
                      ("author_name", PStr "A. Roe"); ("likes", PInt 0)];
               PDict [("text", PStr "Thanks"); ("date_published", PStr "");
                      ("author_name", PStr ""); ("likes", PInt 0)]]).
Proof.
  destruct (X9_comment_list
              (Samples.post_node ++
               [("comment",
                 PList [PDict [("text", PStr "Nice");
                               ("author", PDict [("name", PStr "A. Roe")])];
                        PInt 4;
                        PDict [("text", PStr "Thanks")]])])
              [PDict [("text", PStr "Nice");
                      ("author", PDict [("name", PStr "A. Roe")])];
               PInt 4;
               PDict [("text", PStr "Thanks")]])
    as (Hok & _); [reflexivity | reflexivity | reflexivity |].
  apply Hok. repeat constructor.
Defined.

Lemma post_body_posting d st :
  dict_get d "@type" = Some (PStr "DiscussionForumPosting") ->
  Parsers.post_body (PDict d) st =
  ((Parsers.copy_field (PDict d) "headline" (PStr "") "headline" ;;
    Parsers.copy_field (PDict d) "articleBody" (PStr "") "article_body" ;;
    Parsers.copy_field (PDict d) "datePublished" (PStr "") "date_published" ;;
    Parsers.copy_field (PDict d) "@id" (PStr "") "url" ;;
    Parsers.copy_field (PDict d) "commentCount" (PInt 0) "comment_count" ;;
    Parsers.post_author (PDict d) ;;
    Parsers.post_comments (PDict d) ;;
    Parsers.interaction_counts (PDict d)) ;;
   s <- get_state ;;
   lift (py_slice (dict_get_default s "headline" (PStr "Unknown")))) st.
Proof.
  intros Ht. unfold Parsers.post_body.
  unfold bind at 1, lift at 1. simpl. unfold dict_get_default at 1.
  rewrite Ht. reflexivity.
Qed.

Lemma newsletter_body_article d st :
  dict_get d "@type" = Some (PStr "Article") ->
  Parsers.newsletter_body (PDict d) st =
  (Parsers.copy_field (PDict d) "headline" (PStr "") "headline" ;;
   Parsers.copy_field (PDict d) "name" (PStr "") "name" ;;
   Parsers.copy_field (PDict d) "url" (PStr "") "url" ;;
   Parsers.copy_field (PDict d) "datePublished" (PStr "") "date_published" ;;
   Parsers.copy_field (PDict d) "dateModified" (PStr "") "date_modified" ;;
   Parsers.copy_field (PDict d) "commentCount" (PInt 0) "comment_count" ;;
   Parsers.when_typed (PDict d) "image" is_dict (fun image =>
     Parsers.copy_field image "url" (PStr "") "image_url") ;;
   Parsers.newsletter_author (PDict d) ;;
   Parsers.interaction_counts (PDict d)) st.
Proof.
  intros Ht. unfold Parsers.newsletter_body.
  unfold bind at 1, lift at 1. simpl. unfold dict_get_default at 1.
  rewrite Ht. reflexivity.
Qed.

(** X10.  Every entity the post parser returns for a
    DiscussionForumPosting node has [headline], [article_body],
    [date_published], [url] and [comment_count], taken from [headline],
    [articleBody], [datePublished], [@id] and [commentCount], with the
    empty string (0 for the count) for a missing member, also when the
    parser faults later on the author, the comments or the statistics. *)
Theorem X10_post_base_fields :
  forall d : dict pyval,
    dict_get d "@type" = Some (PStr "DiscussionForumPosting") ->
    let r := Parsers._parse_post_json_ld (PDict d) in
    dict_get r "headline" = Some (dict_get_default d "headline" (PStr "")) /\
    dict_get r "article_body"
      = Some (dict_get_default d "articleBody" (PStr "")) /\
    dict_get r "date_published"
      = Some (dict_get_default d "datePublished" (PStr "")) /\
    dict_get r "url" = Some (dict_get_default d "@id" (PStr "")) /\
    dict_get r "comment_count"
      = Some (dict_get_default d "commentCount" (PInt 0)).
Proof.
  intros d Ht r. subst r.
  unfold Parsers._parse_post_json_ld, run_parser.
  rewrite post_body_posting by assumption.
  repeat split;
    (rewrite (@bind_snd_get []); [| intros _; footprint | simpl; tauto]);
    repeat (erewrite bind_ok; [|apply copy_field_dict]);
    (rewrite (@ww_bind ["author"; "author_followers"; "comments"; "likes";
                        "comments_count"]);
     [reflexivity | footprint | intros _; footprint
     | simpl; intuition discriminate]).
Qed.

Lemma X10_witness :
  dict_get (Parsers._parse_post_json_ld (PDict Samples.post_bad_image))
    "url" = Some (PStr "") /\
  dict_get (Parsers._parse_post_json_ld (PDict Samples.post_bad_image))
    "comment_count" = Some (PInt 0).
Proof.
  destruct (X10_post_base_fields Samples.post_bad_image)
    as (_ & _ & _ & Hurl & Hcount); [reflexivity|].
  split; assumption.
Defined.

(** X11.  Every entity the newsletter parser returns for an Article node
    has [headline], [name], [url], [date_published], [date_modified] and
    [comment_count], with the empty string (0 for the count) for a missing
    member, whatever the image, the author and the statistics are. *)
Theorem X11_newsletter_base_fields :
  forall d : dict pyval,
    dict_get d "@type" = Some (PStr "Article") ->
    let r := Parsers._parse_newsletter_json_ld (PDict d) in
    dict_get r "headline" = Some (dict_get_default d "headline" (PStr "")) /\
    dict_get r "name" = Some (dict_get_default d "name" (PStr "")) /\
    dict_get r "url" = Some (dict_get_default d "url" (PStr "")) /\
    dict_get r "date_published"
      = Some (dict_get_default d "datePublished" (PStr "")) /\
    dict_get r "date_modified"
      = Some (dict_get_default d "dateModified" (PStr "")) /\
    dict_get r "comment_count"
      = Some (dict_get_default d "commentCount" (PInt 0)).
Proof.
  intros d Ht r. subst r.
  unfold Parsers._parse_newsletter_json_ld, run_parser.
  rewrite newsletter_body_article by assumption.
  repeat split;
    repeat (erewrite bind_ok; [|apply copy_field_dict]);
    (rewrite (@ww_bind ["image_url"; "author"; "author_followers"; "likes";
                        "comments_count"]);
     [reflexivity | footprint | intros _; footprint
     | simpl; intuition discriminate]).
Qed.

Lemma X11_witness :
  dict_get (Parsers._parse_newsletter_json_ld (PDict Samples.article_node))
    "name" = Some (PStr "Issue 1") /\
  dict_get (Parsers._parse_newsletter_json_ld (PDict Samples.article_node))
    "date_modified" = Some (PStr "").
Proof.
  destruct (X11_newsletter_base_fields Samples.article_node)
    as (_ & Hname & _ & _ & Hmod & _); [reflexivity|].
  split; assumption.
Defined.

(* ------------------------------------------------------------------ *)
(** ** The record of the structured-data extractor *)

Lemma scan_scripts_cases json_loads url_type scripts :
  let r := scan_scripts json_loads url_type scripts in
  (r = no_json_ld /\
   forall skipped script rest j,
     scripts = skipped ++ script :: rest ->
     Forall (fun s => load_script json_loads s = Skip) skipped ->
     load_script json_loads script <> Use j) \/
  (exists skipped script rest j,
      scripts = skipped ++ script :: rest /\
      Forall (fun s => load_script json_loads s = Skip) skipped /\
      load_script json_loads script = Use j /\
      r = {| found := true;
             raw_json := Some j;
             parsed_data := fst (parse_by_url_type url_type j);
             data_type := Some (snd (parse_by_url_type url_type j)) |}).
Proof.
  induction scripts as [|s scripts IH]; simpl.
  - left. split; [reflexivity|].
    intros [|] ? ? ? H; discriminate.
  - destruct (load_script json_loads s) as [j| |] eqn:E.
    + right. exists [], s, scripts, j.
      repeat split; [constructor | assumption |].
      destruct (parse_by_url_type url_type j). reflexivity.
    + destruct IH as [[-> Hno]|(sk & sc & rest & j & -> & Hsk & Hsc & ->)].
      * left. split; [reflexivity|].
        intros [|s0 sk] sc rest j Heq Hsk.
        -- simpl in Heq. injection Heq as <- _. congruence.
        -- simpl in Heq. injection Heq as <- ->.
           apply (Hno sk sc rest j eq_refl). now inversion Hsk.
      * right. exists (s :: sk), sc, rest, j.
        repeat split; [constructor; assumption | assumption].
    + left. split; [reflexivity|].
      intros [|s0 sk] sc rest j Heq Hsk.
      * simpl in Heq. injection Heq as <- _. congruence.
      * simpl in Heq. injection Heq as <- _.
        inversion Hsk; subst. congruence.
Qed.

(** The dispatch of lines 111-125, parser by parser. *)
Lemma parse_by_url_type_dispatch url_type j :
  (url_type = "profile" ->
   parse_by_url_type url_type j
   = (Parsers._parse_profile_json_ld j, "profile")) /\
  (url_type = "company" ->
   parse_by_url_type url_type j
   = (Parsers._parse_company_json_ld j, "company")) /\
  (url_type = "post" ->
   parse_by_url_type url_type j = (Parsers._parse_post_json_ld j, "post")) /\
  (url_type = "newsletter" ->
   parse_by_url_type url_type j
   = (Parsers._parse_newsletter_json_ld j, "newsletter")) /\
  (~ In url_type ["profile"; "company"; "post"; "newsletter"] ->
   parse_by_url_type url_type j
   = (Parsers._parse_generic_json_ld j, "generic")).
Proof.
  unfold parse_by_url_type. repeat split.
  - now intros ->.
  - now intros ->.
  - now intros ->.
  - now intros ->.
  - intros H.
    destruct (String.eqb_spec url_type "profile") as [->|];
      [exfalso; apply H; simpl; tauto|].
    destruct (String.eqb_spec url_type "company") as [->|];
      [exfalso; apply H; simpl; tauto|].
    destruct (String.eqb_spec url_type "post") as [->|];
      [exfalso; apply H; simpl; tauto|].
    destruct (String.eqb_spec url_type "newsletter") as [->|];
      [exfalso; apply H; simpl; tauto|].
    reflexivity.
Qed.

(** X12.  The record of the structured-data extractor is one of two
    shapes.  It has [found] true exactly when some candidate of the
    document parses and every candidate before it was skipped; then
    [raw_json] is the tree of that candidate, and [parsed_data] and
    [data_type] are, by URL type: the profile parser and [profile], the
    organization parser and [company], the post parser and [post], the
    newsletter parser and [newsletter], and the generic parser and
    [generic] for any other URL type.  In every other case, a scan that
    was abandoned included, it is the initial record: [found] false, no
    raw tree, an empty parse and no data type. *)
Theorem X12_extractor_record :
  forall (json_loads : string -> loads_result) (html : html_doc)
         (url_type : string),
    let r := _extract_json_ld_data json_loads html url_type in
    (found r = false -> r = no_json_ld) /\
    (found r = true <->
     exists skipped script rest j,
       ld_scripts html = skipped ++ script :: rest /\
       Forall (fun s => load_script json_loads s = Skip) skipped /\
       load_script json_loads script = Use j) /\
    (forall skipped script rest j,
        ld_scripts html = skipped ++ script :: rest ->
        Forall (fun s => load_script json_loads s = Skip) skipped ->
        load_script json_loads script = Use j ->
        found r = true /\ raw_json r = Some j /\
        (url_type = "profile" ->
         parsed_data r = Parsers._parse_profile_json_ld j /\
         data_type r = Some "profile") /\
        (url_type = "company" ->
         parsed_data r = Parsers._parse_company_json_ld j /\
         data_type r = Some "company") /\
        (url_type = "post" ->
         parsed_data r = Parsers._parse_post_json_ld j /\
         data_type r = Some "post") /\
        (url_type = "newsletter" ->
         parsed_data r = Parsers._parse_newsletter_json_ld j /\
         data_type r = Some "newsletter") /\
        (~ In url_type ["profile"; "company"; "post"; "newsletter"] ->
         parsed_data r = Parsers._parse_generic_json_ld j /\
         data_type r = Some "generic")).
Proof.
  intros json_loads html url_type r. subst r. unfold _extract_json_ld_data.
  destruct (scan_scripts_cases json_loads url_type (ld_scripts html))
    as [[E Hno]|(sk & sc & rest & j & Heq & Hsk & Hsc & E)].
  - rewrite E. split; [reflexivity|]. split.
    + split; [discriminate|].
      intros (sk & sc & rest & j & Heq & Hsk & Hsc).
      exfalso. exact (Hno sk sc rest j Heq Hsk Hsc).
    + intros sk sc rest j Heq Hsk Hsc.
      exfalso. exact (Hno sk sc rest j Heq Hsk Hsc).
  - split; [rewrite E; discriminate|]. split.
    + rewrite E. split; [|reflexivity].
      intros _. exists sk, sc, rest, j. auto.
    + intros sk' sc' rest' j' Heq' Hsk' Hsc'.
      assert (R : scan_scripts json_loads url_type (ld_scripts html)
                  = {| found := true; raw_json := Some j';
                       parsed_data := fst (parse_by_url_type url_type j');
                       data_type :=
                         Some (snd (parse_by_url_type url_type j')) |}).
      { rewrite Heq', scan_scripts_skip by assumption. simpl.
        rewrite Hsc'. destruct (parse_by_url_type url_type j').
        reflexivity. }
      rewrite R. simpl.
      destruct (parse_by_url_type_dispatch url_type j')
        as (H1 & H2 & H3 & H4 & H5).
      repeat split; try reflexivity;
        match goal with
        | H : url_type = _ |- _ =>
            first [rewrite (H1 H) | rewrite (H2 H) | rewrite (H3 H)
                  | rewrite (H4 H)]
        | H : ~ _ |- _ => rewrite (H5 H)
        end; reflexivity.
Qed.

Lemma X12_witness :
  parsed_data (_extract_json_ld_data Demo.loads Demo.malformed_then_person
                 "event")
  = Parsers._parse_generic_json_ld Demo.person_tree /\
  data_type (_extract_json_ld_data Demo.loads Demo.malformed_then_person
               "event") = Some "generic".
Proof.
  destruct (X12_extractor_record Demo.loads Demo.malformed_then_person
              "event") as (_ & _ & Hused).
  destruct (Hused [Demo.script "{"; {| script_string := None |}]
              (Demo.script Demo.person_text) [Demo.script "{}"]
              Demo.person_tree)
    as (_ & _ & _ & _ & _ & _ & Hgeneric).
  - reflexivity.
  - repeat constructor.
  - reflexivity.
  - apply Hgeneric. simpl. intuition discriminate.
Defined.

(* ------------------------------------------------------------------ *)
(** ** The supplementary fields *)

Lemma seed_no_supplementary json_loads html url_type k :
  In k supplementary_keys ->
  dict_get (seed (_extract_json_ld_data json_loads html url_type)) k = None.
Proof.
  intros Hk.
  destruct (dict_get (seed _) k) eqn:E; [|reflexivity].
  apply dict_get_Some_keys, seed_keys, entity_keys_not_supplementary in E.
  contradiction.
Qed.

Lemma dict_nonempty_false {V} (d : dict V) : d = [] -> dict_nonempty d = false.
Proof. now intros ->. Qed.

Lemma dict_nonempty_true {V} (d : dict V) : d <> [] -> dict_nonempty d = true.
Proof. destruct d; [congruence | reflexivity]. Qed.

Ltac supplement_lookup :=
  unfold supplement;
  repeat match goal with
         | H : dict_nonempty _ = _ |- _ => rewrite H
         | |- context [if dict_nonempty ?d then _ else _] =>
             destruct (dict_nonempty d)
         end;
  repeat (rewrite dict_get_set_other by discriminate);
  try apply dict_get_set_same.

(** X13.  In the combined record of a request the five [og_*] fields come
    together: all present when the open-graph bucket has an entry, each
    holding the bucket value or the empty string, and all absent when the
    bucket is empty.  The three [twitter_*] fields do the same with the
    twitter bucket. *)
Theorem X13_supplementary_fields_come_together :
  forall (json_loads : string -> loads_result) (html : html_doc)
         (md : meta_data) (url_type page_url : string),
    let jl := _extract_json_ld_data json_loads html url_type in
    let c := _combine_data_sources jl md url_type page_url in
    let og := open_graph md in
    let tw := twitter md in
    (og = [] ->
     forall k, In k ["og_title"; "og_description"; "og_image"; "og_url";
                     "og_type"] -> dict_get c k = None) /\
    (og <> [] ->
     dict_get c "og_title" = Some (bucket_get og "og:title") /\
     dict_get c "og_description" = Some (bucket_get og "og:description") /\
     dict_get c "og_image" = Some (bucket_get og "og:image") /\
     dict_get c "og_url" = Some (bucket_get og "og:url") /\
     dict_get c "og_type" = Some (bucket_get og "og:type")) /\
    (tw = [] ->
     forall k, In k ["twitter_title"; "twitter_description";
                     "twitter_image"] -> dict_get c k = None) /\
    (tw <> [] ->
     dict_get c "twitter_title" = Some (bucket_get tw "twitter:title") /\
     dict_get c "twitter_description"
       = Some (bucket_get tw "twitter:description") /\
     dict_get c "twitter_image" = Some (bucket_get tw "twitter:image")).
Proof.
  intros json_loads html md url_type page_url jl c og tw. subst c og tw.
  unfold _combine_data_sources.
  assert (Hseed : forall k, In k supplementary_keys ->
                            dict_get (seed jl) k = None)
    by (intros k; apply seed_no_supplementary).
  repeat apply conj.
  - intros Hog k Hk. apply dict_nonempty_false in Hog.
    rewrite backfill_get_other by (simpl in Hk; intuition (subst; discriminate)).
    rewrite fallback_get_other
      by (simpl in Hk; simpl; intuition (subst; discriminate)).
    simpl in Hk. destruct Hk as [<-|[<-|[<-|[<-|[<-|[]]]]]];
      supplement_lookup; apply Hseed; simpl; tauto.
  - intros Hog. apply dict_nonempty_true in Hog.
    repeat split; rewrite backfill_get_other by discriminate;
      rewrite fallback_get_other by (simpl; intuition discriminate);
      supplement_lookup.
  - intros Htw k Hk. apply dict_nonempty_false in Htw.
    rewrite backfill_get_other by (simpl in Hk; intuition (subst; discriminate)).
    rewrite fallback_get_other
      by (simpl in Hk; simpl; intuition (subst; discriminate)).
    simpl in Hk. destruct Hk as [<-|[<-|[<-|[]]]];
      supplement_lookup; apply Hseed; simpl; tauto.
  - intros Htw. apply dict_nonempty_true in Htw.
    repeat split; rewrite backfill_get_other by discriminate;
      rewrite fallback_get_other by (simpl; intuition discriminate);
      supplement_lookup.
Qed.

Lemma X13_witness :
  dict_get
    (_combine_data_sources
       (_extract_json_ld_data Demo.loads Demo.malformed_then_person "profile")
       (_extract_meta_data Demo.newsletter_landing) "profile"
       "https://www.linkedin.com/in/jdoe") "og_image" = Some (PStr "") /\
  dict_get
    (_combine_data_sources
       (_extract_json_ld_data Demo.loads Demo.malformed_then_person "profile")
       (_extract_meta_data Demo.newsletter_landing) "profile"
       "https://www.linkedin.com/in/jdoe") "twitter_title" = None.
Proof.
  destruct (X13_supplementary_fields_come_together Demo.loads
              Demo.malformed_then_person
              (_extract_meta_data Demo.newsletter_landing) "profile"
              "https://www.linkedin.com/in/jdoe")
    as (_ & Hog & Htw & _).
  split.
  - destruct Hog as (_ & _ & Himage & _); [discriminate | exact Himage].
  - apply Htw; [reflexivity | simpl; tauto].
Defined.

(* ------------------------------------------------------------------ *)
(** ** The newsletter name *)

Lemma str_contains_char_cons c a s :
  str_contains (String c EmptyString) (String a s) =
  Ascii.eqb c a || str_contains (String c EmptyString) s.
Proof. simpl. now rewrite andb_true_r. Qed.

Lemma split_first_has_no_sep sep s :
  str_contains (String sep EmptyString) (split_first sep s) = false.
Proof.
  induction s as [|a s IH]; [reflexivity|].
  cbn [split_first]. destruct (Ascii.eqb a sep) eqn:E; [reflexivity|].
  rewrite str_contains_char_cons, IH, (Ascii.eqb_sym sep a), E. reflexivity.
Qed.

Lemma lstrip_has_no_sep sep s :
  str_contains (String sep EmptyString) s = false ->
  str_contains (String sep EmptyString) (lstrip s) = false.
Proof.
  induction s as [|a s IH]; [auto|].
  cbn [lstrip]. destruct (is_space a); [|auto].
  rewrite str_contains_char_cons. intros H.
  apply orb_false_elim in H. now apply IH.
Qed.

Lemma rstrip_has_no_sep sep s :
  str_contains (String sep EmptyString) s = false ->
  str_contains (String sep EmptyString) (rstrip s) = false.
Proof.
  induction s as [|a s IH]; [auto|].
  rewrite str_contains_char_cons. intros H.
  apply orb_false_elim in H. destruct H as [Ha Hs].
  cbn [rstrip]. specialize (IH Hs).
  destruct (rstrip s) as [|b r].
  - destruct (is_space a); [reflexivity|].
    rewrite str_contains_char_cons, Ha. reflexivity.
  - rewrite str_contains_char_cons, Ha. exact IH.
Qed.

Lemma lstrip_no_leading_space s : starts_with_space (lstrip s) = false.
Proof.
  induction s as [|a s IH]; [reflexivity|].
  cbn [lstrip]. destruct (is_space a) eqn:E; [exact IH|].
  simpl. exact E.
Qed.

Lemma rstrip_keeps_head s :
  starts_with_space s = false -> starts_with_space (rstrip s) = false.
Proof.
  destruct s as [|a s]; [auto|]. simpl starts_with_space. intros Ha.
  cbn [rstrip]. destruct (rstrip s).
  - rewrite Ha. simpl. exact Ha.
  - simpl. exact Ha.
Qed.

Lemma rstrip_no_trailing_space s : ends_with_space (rstrip s) = false.
Proof.
  induction s as [|a s IH]; [reflexivity|].
  cbn [rstrip]. destruct (rstrip s) as [|b r].
  - destruct (is_space a) eqn:E; [reflexivity|]. simpl. exact E.
  - exact IH.
Qed.

(** X14.  When the [og:title] contains a vertical bar, the newsletter name
    is the text before the first bar with the white space around it
    removed: it contains no bar and neither starts nor ends with a
    white-space character (it is empty when only white space precedes the
    bar). *)
Theorem X14_newsletter_name_is_trimmed :
  forall title : string,
    str_contains "|" title = true ->
    let name := newsletter_name title in
    name = strip (split_first "|" title) /\
    str_contains "|" name = false /\
    starts_with_space name = false /\
    ends_with_space name = false.
Proof.
  intros title Ht name. subst name. unfold newsletter_name.
  assert (Hne : str_nonempty title = true)
    by (destruct title; [discriminate | reflexivity]).
  rewrite Hne, Ht. cbn [andb]. unfold strip. repeat split.
  - apply rstrip_has_no_sep, lstrip_has_no_sep, split_first_has_no_sep.
  - apply rstrip_keeps_head, lstrip_no_leading_space.
  - apply rstrip_no_trailing_space.
Qed.

Lemma X14_witness :
  newsletter_name "  AI Insider  | LinkedIn | News" = "AI Insider".
Proof.
  destruct (X14_newsletter_name_is_trimmed "  AI Insider  | LinkedIn | News")
    as (Hname & _); [reflexivity|].
  rewrite Hname. reflexivity.
Defined.

(* ------------------------------------------------------------------ *)
(** ** The page description and the other bucket *)

Lemma classify_description md t :
  description (classify_meta md t) = description md /\
  title (classify_meta md t) = title md.
Proof.
  unfold classify_meta.
  destruct (meta_key t) as [n|]; [|auto].
  destruct (attr_content t) as [c|]; [|auto].
  destruct (str_nonempty n && str_nonempty c); [|auto].
  destruct (startswith "og:" n); [auto|].
  destruct (startswith "twitter:" n); auto.
Qed.

Lemma fold_classify_present tags md w n :
  (exists c, dict_get (bucket w md) n = Some c) ->
  exists c, dict_get (bucket w (fold_left classify_meta tags md)) n = Some c.
Proof.
  revert md. induction tags as [|t tags IH]; intros md H; simpl; auto.
  apply IH. destruct H as [c Hc].
  destruct (classify_meta_cases md t)
    as [(k & c' & Hs & Hsame & Hother)|[_ ->]]; [|eauto].
  destruct (bucket_name_eq_dec w (bucket_of_name k)) as [->|Hw].
  - rewrite Hsame. destruct (string_dec n k) as [->|Hne].
    + rewrite dict_get_set_same. eauto.
    + rewrite dict_get_set_other by assumption. eauto.
  - rewrite Hother by assumption. eauto.
Qed.

Lemma description_tag_stores tag c :
  is_description_tag tag = true -> attr_content tag = Some c -> c <> "" ->
  attr_name tag = Some "description" /\ stores tag "description" c.
Proof.
  unfold is_description_tag, stores, meta_key. intros Hn Hc Hne.
  destruct (attr_name tag) as [n|]; [|discriminate].
  apply String.eqb_eq in Hn. subst n. simpl.
  repeat split; auto. discriminate.
Qed.

(** X15.  A non-empty page description is the content of a [meta] element
    named [description], and such an element is also stored by the
    classification loop: the other bucket then has a non-empty entry under
    the key [description].  When no other element stores a different value
    under that key, the two values are the same. *)
Theorem X15_description_is_also_in_the_other_bucket :
  forall html : html_doc,
    let md := _extract_meta_data html in
    description md <> "" ->
    (exists tag,
        In tag (meta_tags html) /\
        attr_name tag = Some "description" /\
        attr_content tag = Some (description md)) /\
    (exists c, dict_get (other_meta md) "description" = Some c /\ c <> "") /\
    ((forall t c, In t (meta_tags html) -> stores t "description" c ->
                  c = description md) ->
     dict_get (other_meta md) "description" = Some (description md)).
Proof.
  intros html md. subst md. simpl description. simpl other_meta.
  destruct (find is_description_tag (meta_tags html)) as [tag|] eqn:Ef.
  2:{ intros H. exfalso. apply H.
      assert (G : forall tags md0,
                 description (fold_left classify_meta tags md0)
                 = description md0).
      { induction tags as [|t tags IH]; intros md0; simpl; auto.
        rewrite IH. apply classify_description. }
      now rewrite G. }
  apply find_some in Ef. destruct Ef as [Hin Htag].
  destruct (attr_content tag) as [c|] eqn:Ec; [|intros H; congruence].
  intros Hne.
  destruct (description_tag_stores tag c Htag Ec Hne) as [Hname Hs].
  assert (Hpresent : exists c',
             dict_get (other_meta (fold_left classify_meta (meta_tags html)
                                     empty_meta_data)) "description"
             = Some c').
  { apply in_split in Hin. destruct Hin as (l1 & l2 & ->).
    rewrite fold_left_app. simpl.
    apply (fold_classify_present l2 _ OtherMeta "description").
    exists c. now apply (classify_get_new _ tag "description" c). }
  destruct Hpresent as [c' Hc'].
  assert (Horigin : exists t, In t (meta_tags html) /\
                              stores t "description" c').
  { destruct (fold_classify_origin (meta_tags html) empty_meta_data
                OtherMeta "description" c' Hc')
      as [(t & Ht & Hst & _)|H]; [eauto | discriminate]. }
  destruct Horigin as (t & Ht & Hst).
  repeat split.
  - exists tag. rewrite <- Ec. auto.
  - exists c'. split; [assumption|]. now destruct Hst as (_ & _ & _ & H).
  - intros Huniq. rewrite Hc'. f_equal. exact (Huniq t c' Ht Hst).
Qed.

Lemma X15_witness :
  dict_get (other_meta (_extract_meta_data Demo.newsletter_landing))
    "description" = Some "Weekly notes on AI".
Proof.
  destruct (X15_description_is_also_in_the_other_bucket
              Demo.newsletter_landing) as (_ & _ & Hsame);
    [discriminate|].
  apply Hsame. intros t c Hin (Hkey & Hcontent & _).
  simpl in Hin.
  destruct Hin as [<-|[<-|[<-|[<-|[]]]]]; try discriminate.
  simpl in Hcontent. injection Hcontent as <-. reflexivity.
Defined.

(* ------------------------------------------------------------------ *)
(** ** The layout of the combined record *)

Lemma dict_set_keys_nodup {V} (d : dict V) k v :
  NoDup (dict_keys d) -> NoDup (dict_keys (dict_set d k v)).
Proof.
  induction d as [|[k0 v0] r IH]; simpl; intros H.
  - constructor; [tauto | constructor].
  - inversion H as [|? ? Hnotin Hr]; subst.
    destruct (String.eqb_spec k0 k) as [->|Hne]; simpl.
    + constructor; assumption.
    + constructor; [|auto].
      intros Hin. apply dict_keys_set in Hin. destruct Hin; congruence.
Qed.

Lemma dict_set_app_left {V} (p t : dict V) k v :
  ~ In k (dict_keys p) -> dict_set (p ++ t) k v = p ++ dict_set t k v.
Proof.
  induction p as [|[k0 v0] p IH]; simpl; intros H; auto.
  destruct (String.eqb_spec k0 k) as [->|Hne]; [tauto|].
  rewrite IH; tauto.
Qed.

Lemma dict_get_app_left {V} (p t : dict V) k :
  ~ In k (dict_keys p) -> dict_get (p ++ t) k = dict_get t k.
Proof.
  induction p as [|[k0 v0] p IH]; simpl; intros H; auto.
  destruct (String.eqb_spec k0 k) as [->|Hne]; [tauto|].
  apply IH. tauto.
Qed.

Section Preserved.

Variable P : dict pyval -> Prop.
Hypothesis P_set : forall st k v, P st -> P (dict_set st k v).

Lemma pr_ret {A} (a : A) : preserves P (ret a).
Proof. intros st H. exact H. Qed.

Lemma pr_lift {A} (r : res A) : preserves P (lift r).
Proof. intros st H. exact H. Qed.

Lemma pr_get_state : preserves P get_state.
Proof. intros st H. exact H. Qed.

Lemma pr_set_field k v : preserves P (set_field k v).
Proof. intros st H. simpl. now apply P_set. Qed.

Lemma pr_bind {A B} (c : M A) (k : A -> M B) :
  preserves P c -> (forall a, preserves P (k a)) -> preserves P (bind c k).
Proof.
  intros Hc Hk st H. unfold bind. specialize (Hc st H).
  destruct (c st) as [[a|e] st']; simpl in *; [now apply Hk | assumption].
Qed.

Lemma pr_for_each {A} (l : list A) (body : A -> M flow) :
  (forall x, preserves P (body x)) -> preserves P (for_each l body).
Proof.
  intros Hb. induction l as [|x r IH]; simpl.
  - apply pr_ret.
  - apply pr_bind; [apply Hb|]. intros [|]; [exact IH | apply pr_ret].
Qed.

Lemma pr_works_for_entries l : preserves P (Parsers.works_for_entries l).
Proof.
  induction l as [|w r IH]; simpl.
  - apply pr_ret.
  - destruct (is_dict w); auto.
    repeat (apply pr_bind; [first [apply pr_lift | exact IH]|intro]).
    apply pr_ret.
Qed.

Lemma pr_comment_entries l : preserves P (Parsers.comment_entries l).
Proof.
  induction l as [|w r IH]; simpl.
  - apply pr_ret.
  - destruct (is_dict w); auto.
    repeat (apply pr_bind; [first [apply pr_lift | exact IH]|intro]).
    apply pr_ret.
Qed.

Ltac keeps :=
  repeat first
    [ apply pr_ret
    | apply pr_lift
    | apply pr_get_state
    | apply pr_works_for_entries
    | apply pr_comment_entries
    | apply pr_set_field
    | apply pr_bind; [|intro]
    | apply pr_for_each; intro
    | match goal with
      | |- preserves _ (if ?b then _ else _) => destruct b
      | |- preserves _ (match ?f with Break => _ | Continue => _ end) =>
          destruct f
      end
    | progress unfold Parsers.copy_field, Parsers.when_typed,
        Parsers.follow_count, Parsers.person_core, Parsers.person_followers,
        Parsers.person_location_and_work, Parsers.company_core,
        Parsers.company_address, Parsers.company_employees,
        Parsers.interaction_counts, Parsers.post_author,
        Parsers.post_comments, Parsers.newsletter_author,
        Parsers.profile_graph_item, Parsers.company_graph_item ].

Lemma pr_profile json_data : preserves P (Parsers.profile_body json_data).
Proof. unfold Parsers.profile_body. keeps. Qed.

Lemma pr_company json_data : preserves P (Parsers.company_body json_data).
Proof. unfold Parsers.company_body. keeps. Qed.

Lemma pr_post json_data : preserves P (Parsers.post_body json_data).
Proof. unfold Parsers.post_body. keeps. Qed.

Lemma pr_newsletter json_data :
  preserves P (Parsers.newsletter_body json_data).
Proof. unfold Parsers.newsletter_body. keeps. Qed.

Lemma pr_generic json_data : preserves P (Parsers.generic_body json_data).
Proof. unfold Parsers.generic_body. keeps. Qed.

End Preserved.

(** The entity a parser returns has no key twice. *)
Lemma parse_by_url_type_nodup url_type json_data :
  NoDup (dict_keys (fst (parse_by_url_type url_type json_data))).
Proof.
  pose (P := fun st : dict pyval => NoDup (dict_keys st)).
  assert (P_set : forall st k v, P st -> P (dict_set st k v))
    by (intros st k v; apply dict_set_keys_nodup).
  assert (P0 : P []) by constructor.
  unfold parse_by_url_type.
  repeat match goal with
         | |- context [if ?b then _ else _] => destruct b
         end; simpl fst.
  - apply (pr_profile P P_set json_data [] P0).
  - apply (pr_company P P_set json_data [] P0).
  - apply (pr_post P P_set json_data [] P0).
  - apply (pr_newsletter P P_set json_data [] P0).
  - apply (pr_generic P P_set json_data [] P0).
Qed.

Lemma scan_scripts_nodup json_loads url_type scripts :
  NoDup (dict_keys (parsed_data (scan_scripts json_loads url_type scripts))).
Proof.
  induction scripts as [|s r IH]; simpl.
  - constructor.
  - destruct (load_script json_loads s) as [j| |]; auto.
    + pose proof (parse_by_url_type_nodup url_type j) as H.
      destruct (parse_by_url_type url_type j). exact H.
    + constructor.
Qed.

Lemma supplement_app md p t :
  (forall k, In k supplementary_keys -> ~ In k (dict_keys p)) ->
  supplement md (p ++ t) = p ++ supplement md t.
Proof.
  intros H. unfold supplement.
  destruct (dict_nonempty (open_graph md)), (dict_nonempty (twitter md));
    repeat (rewrite dict_set_app_left; [|apply H; simpl; tauto]);
    reflexivity.
Qed.

Lemma backfill_app url_type page_url p t :
  ~ In "username" (dict_keys p) ->
  backfill_username url_type page_url (p ++ t) =
  p ++ backfill_username url_type page_url t.
Proof.
  intros H. unfold backfill_username, lacks_username, dict_get_default.
  rewrite dict_get_app_left by assumption.
  unfold set_username_from.
  repeat match goal with
         | |- context [if ?b then _ else _] => destruct b
         | |- context [match re_search_segment ?l ?u with _ => _ end] =>
             destruct (re_search_segment l u)
         end; try reflexivity; now apply dict_set_app_left.
Qed.

(** X16.  When structured data was found, the combined record is the
    parsed entity, field for field and in the parser's order, followed by
    the supplementary fields and the identifier; and what follows the
    entity is what the reconciler builds from an empty record, so it does
    not depend on the entity. *)
Theorem X16_combined_record_layout :
  forall (json_loads : string -> loads_result) (html : html_doc)
         (md : meta_data) (url_type page_url : string),
    let jl := _extract_json_ld_data json_loads html url_type in
    found jl = true ->
    seed jl = parsed_data jl /\
    _combine_data_sources jl md url_type page_url =
    parsed_data jl ++ backfill_username url_type page_url (supplement md []).
Proof.
  intros json_loads html md url_type page_url jl Hfound.
  assert (Hseed : seed jl = parsed_data jl).
  { unfold seed. rewrite Hfound.
    apply (dict_update_fresh [] (parsed_data jl)). simpl.
    apply scan_scripts_nodup. }
  split; [exact Hseed|].
  assert (Hkeys : forall k, In k (dict_keys (parsed_data jl)) ->
                            In k entity_keys).
  { intros k Hk. rewrite <- Hseed in Hk. now apply seed_keys in Hk. }
  unfold _combine_data_sources.
  rewrite fallback_off by (intros (_ & H & _); congruence).
  rewrite Hseed.
  rewrite <- (app_nil_r (parsed_data jl)) at 1.
  rewrite supplement_app.
  - apply backfill_app. intros Hin.
    apply Hkeys, entity_keys_not_username in Hin. congruence.
  - intros k Hk Hin.
    apply Hkeys, entity_keys_not_supplementary in Hin. contradiction.
Qed.

Lemma X16_witness :
  _combine_data_sources
    (_extract_json_ld_data Demo.loads Demo.malformed_then_person "profile")
    empty_meta_data "profile" "https://www.linkedin.com/in/jdoe"
  = [("name", PStr "J. Doe"); ("job_title", PList []);
     ("description", PStr ""); ("url", PStr "");
     ("page_title", PStr ""); ("page_description", PStr "");
     ("username", PStr "jdoe")].
Proof.
  destruct (X16_combined_record_layout Demo.loads Demo.malformed_then_person
              empty_meta_data "profile" "https://www.linkedin.com/in/jdoe")
    as (_ & Hlayout); [reflexivity|].
  rewrite Hlayout. reflexivity.
Defined.

(* ------------------------------------------------------------------ *)
(** ** The base fields of a profile *)

Lemma person_core_fields d :
  let st := snd (Parsers.person_core (PDict d) []) in
  dict_get st "name" = Some (dict_get_default d "name" (PStr "")) /\
  dict_get st "job_title" = Some (dict_get_default d "jobTitle" (PList [])) /\
  dict_get st "description"
    = Some (dict_get_default d "description" (PStr "")) /\
  dict_get st "url" = Some (dict_get_default d "url" (PStr "")).
Proof.
  intros st. subst st. unfold Parsers.person_core.
  repeat (erewrite bind_ok; [|apply copy_field_dict]).
  assert (F : writes_within ["image_url"]
                (Parsers.when_typed (PDict d) "image" is_dict
                   (fun image =>
                      Parsers.copy_field image "contentUrl" (PStr "")
                        "image_url"))) by footprint.
  repeat split; rewrite F by (simpl; intuition discriminate); reflexivity.
Qed.

(** X17.  Every entity the profile parser returns for a Person node, found
    at the top level or as the first Person node of a graph container, has
    [name], [job_title], [description] and [url], with the empty string
    (the empty list for [job_title]) for a missing member, also when the
    parser faults later on the employer list. *)
Theorem X17_profile_base_fields :
  (forall d,
      dict_get d "@graph" = None ->
      dict_get d "@type" = Some (PStr "Person") ->
      let r := Parsers._parse_profile_json_ld (PDict d) in
      dict_get r "name" = Some (dict_get_default d "name" (PStr "")) /\
      dict_get r "job_title"
        = Some (dict_get_default d "jobTitle" (PList [])) /\
      dict_get r "description"
        = Some (dict_get_default d "description" (PStr "")) /\
      dict_get r "url" = Some (dict_get_default d "url" (PStr ""))) /\
  (forall d pre node post,
      dict_get d "@graph" = Some (PList (pre ++ PDict node :: post)) ->
      Forall (fun x => exists m, x = PDict m /\
                dict_get_default m "@type" PNone <> PStr "Person") pre ->
      dict_get node "@type" = Some (PStr "Person") ->
      let r := Parsers._parse_profile_json_ld (PDict d) in
      dict_get r "name" = Some (dict_get_default node "name" (PStr "")) /\
      dict_get r "job_title"
        = Some (dict_get_default node "jobTitle" (PList [])) /\
      dict_get r "description"
        = Some (dict_get_default node "description" (PStr "")) /\
      dict_get r "url" = Some (dict_get_default node "url" (PStr ""))).
Proof.
  split.
  - intros d Hg Ht r. subst r.
    unfold Parsers._parse_profile_json_ld, run_parser.
    rewrite profile_body_direct by assumption.
    destruct (person_core_fields d) as (H1 & H2 & H3 & H4).
    repeat split;
      (rewrite (@bind_snd_get ["followers"]);
       [assumption | intros _; footprint | simpl; intuition discriminate]).
  - intros d pre node post Hg Hpre Ht r. subst r.
    rewrite (profile_graph_first_person d pre node post Hg Hpre Ht).
    rewrite profile_item_person by assumption.
    destruct (person_core_fields node) as (H1 & H2 & H3 & H4).
    repeat split;
      (rewrite (@bind_snd_get ["location"; "country"; "works_for";
                               "followers"]);
       [assumption | intros _; footprint | simpl; intuition discriminate]).
Qed.

Lemma X17_witness :
  dict_get
    (Parsers._parse_profile_json_ld
       (Samples.graph_of [PDict Samples.person_bad_member]))
    "job_title" = Some (PList []).
Proof.
  destruct X17_profile_base_fields as (_ & Hgraph).
  destruct (Hgraph [("@context", PStr "http://schema.org");
                    ("@graph", PList [PDict Samples.person_bad_member])]
              [] Samples.person_bad_member [])
    as (_ & Hjob & _).
  - reflexivity.
  - constructor.
  - reflexivity.
  - exact Hjob.
Defined.

(* ------------------------------------------------------------------ *)
(** ** A request without structured data *)

Lemma supplement_keys md k :
  In k (dict_keys (supplement md [])) -> In k supplementary_keys.
Proof.
  intros Hin. destruct (in_dec string_dec k supplementary_keys) as [|Hn]; auto.
  exfalso. pose proof (supplement_get_other md [] k Hn) as E. simpl in E.
  apply dict_get_None_keys in E. contradiction.
Qed.

Lemma set_username_keys lit page_url c k :
  In k (dict_keys (set_username_from lit page_url c)) ->
  k = "username" \/ In k (dict_keys c).
Proof.
  unfold set_username_from. destruct (re_search_segment lit page_url); auto.
  apply dict_keys_set.
Qed.

Lemma backfill_keys url_type page_url c k :
  In k (dict_keys (backfill_username url_type page_url c)) ->
  k = "username" \/ In k (dict_keys c).
Proof.
  unfold backfill_username.
  repeat match goal with
         | |- context [if ?b then _ else _] => destruct b
         end; first [apply set_username_keys | intros H; right; exact H].
Qed.

(** X18.  A request whose document has no candidate that parses (each one
    is skipped, or ends the scan), for a URL type other than newsletter, is
    marked unsuccessful, and its combined record holds supplementary fields
    only, plus the identifier for a profile or a company: no entity field
    is made up.  For any other URL type, posts included, the record holds
    supplementary fields only. *)
Theorem X18_request_without_structured_data :
  forall (json_loads : string -> loads_result) (url : string) (p : page),
    Forall (fun s => forall j, load_script json_loads s <> Use j)
      (ld_scripts (html_content p)) ->
    detected_url_type p <> "newsletter" ->
    exists d,
      extract_linkedin_data json_loads url (Loaded p) = Extracted d /\
      extraction_success d = false /\
      r_json_ld_data d = no_json_ld /\
      (forall k, In k (dict_keys (combined_data d)) ->
                 In k supplementary_keys \/ k = "username") /\
      (detected_url_type p <> "profile" ->
       detected_url_type p <> "company" ->
       forall k, In k (dict_keys (combined_data d)) ->
                 In k supplementary_keys).
Proof.
  intros json_loads url p Hall Hnews.
  assert (E : _extract_json_ld_data json_loads (html_content p)
                (detected_url_type p) = no_json_ld).
  { unfold _extract_json_ld_data. now apply scan_scripts_none. }
  eexists. split; [reflexivity|]. simpl. rewrite E.
  unfold _combine_data_sources.
  rewrite fallback_off by (intros (H & _); contradiction).
  simpl seed. repeat split.
  - intros k Hk. apply backfill_keys in Hk.
    destruct Hk as [->|Hk]; auto. left. now apply supplement_keys in Hk.
  - intros H1 H2 k Hk.
    rewrite backfill_no_rule in Hk by assumption.
    now apply supplement_keys in Hk.
Qed.

Lemma X18_witness :
  exists d,
    extract_linkedin_data Demo.loads
      "https://www.linkedin.com/posts/jdoe_hello-activity-1"
      (Loaded {| popup_closed := false;
                 html_content := Demo.newsletter_landing;
                 detected_url_type := "post";
                 page_url :=
                   "https://www.linkedin.com/posts/jdoe_hello-activity-1" |})
    = Extracted d /\
    extraction_success d = false.
Proof.
  destruct (X18_request_without_structured_data Demo.loads
              "https://www.linkedin.com/posts/jdoe_hello-activity-1"
              {| popup_closed := false;
                 html_content := Demo.newsletter_landing;
                 detected_url_type := "post";
                 page_url :=
                   "https://www.linkedin.com/posts/jdoe_hello-activity-1" |})
    as (d & Hd & Hsuccess & _).
  - constructor.
  - discriminate.
  - exists d. split; assumption.
Defined.
